(** * pickup-news: a shallow embedding of [main.go] and its specification

    The program is an AWS Lambda handler.  For each configured keyword it
    queries NewsAPI over a date range and, when the number of results is
    above the keyword's threshold, posts a summary to a Slack webhook.

    Layout of this development:
    - [strconv], [time], [url], [json]: the parts of the Go standard library
      the handler relies on, modelled from their documented behaviour;
    - the world the handler runs in (environment, clock, S3, HTTP), the
      [Go] monad for its effects (state, [os.Exit], panics);
    - the functions of [main.go], one definition each, under the source's
      names; the body of the handler's loop is cut in two, [queryNewsAPI]
      and [handleResponse], at the point where the response is decoded;
    - what the specification speaks of, and a sample outside to run the
      handler in;
    - the properties of the specification, each followed up on the
      sample. *)

From Stdlib Require Import ZArith List String Ascii Bool Lia DecimalString.
Import ListNotations.

#[local] Open Scope string_scope.
#[local] Open Scope Z_scope.

(** ** Characters that cannot be written inside a string literal *)

Definition LF : string := String "010"%char EmptyString.
Definition DQ : string := String "034"%char EmptyString.

(** Bytes are [ascii]; [byte_val] is the numeric value, 0..255. *)
Definition byte_val (c : ascii) : Z := Z.of_N (N_of_ascii c).
Definition byte_of (z : Z) : ascii := ascii_of_N (Z.to_N z).

(** * strconv *)

Module strconv.

(** [strconv.Itoa], also what [%d] prints for an [int]. *)
Definition Itoa (i : Z) : string := NilZero.string_of_int (Z.to_int i).

Definition isDigit (c : ascii) : bool :=
  (48 <=? byte_val c) && (byte_val c <=? 57).

(** The value of a non-empty run of decimal digits, most significant
    first; [None] on any other character. *)
Fixpoint digitsValue (acc : Z) (s : string) : option Z :=
  match s with
  | EmptyString => Some acc
  | String c s' =>
      if isDigit c then digitsValue (10 * acc + (byte_val c - 48)) s'
      else None
  end.

Definition minInt64 : Z := - 2 ^ 63.
Definition maxInt64 : Z := 2 ^ 63 - 1.

(** [strconv.ParseInt(s, 10, 64)]: an optional sign, then digits only;
    a value outside the 64-bit range is an error. *)
Definition ParseInt (s : string) : option Z :=
  let signed (neg : bool) (ds : string) :=
    match ds with
    | EmptyString => None
    | _ =>
        match digitsValue 0 ds with
        | Some v =>
            let v' := if neg then - v else v in
            if (minInt64 <=? v') && (v' <=? maxInt64) then Some v' else None
        | None => None
        end
    end in
  match s with
  | String "-" ds => signed true ds
  | String "+" ds => signed false ds
  | _ => signed false s
  end.

End strconv.

(** * time

    Instants are Unix seconds (sub-second precision plays no part in the
    handler); a location is a zone with a constant offset, which is what
    [time.FixedZone] builds and what the tz database gives for Asia/Tokyo
    at any present-day instant. *)

Module time.

Record Location : Type := mkLocation {
  zoneName : string;
  zoneOffset : Z            (* seconds east of UTC *)
}.

Definition FixedZone (name : string) (offset : Z) : Location :=
  mkLocation name offset.

Definition UTC : Location := mkLocation "UTC" 0.

Record Time : Type := mkTime {
  unixSec : Z;
  loc : Location
}.

(** [t.UTC()] and [t.In(loc)]: the same instant, another location. *)
Definition toUTC (t : Time) : Time := mkTime (unixSec t) UTC.
Definition In (t : Time) (l : Location) : Time := mkTime (unixSec t) l.

Definition secondsPerDay : Z := 86400.
Definition daysPer400Years : Z := 365 * 400 + 97.
Definition daysPer100Years : Z := 365 * 100 + 24.
Definition daysPer4Years : Z := 365 * 4 + 1.

(** Days from 0001-01-01 to 1970-01-01. *)
Definition unixEpochDay : Z := 719162.

Definition isLeap (year : Z) : bool :=
  (year mod 4 =? 0) && (negb (year mod 100 =? 0) || (year mod 400 =? 0)).

(** [daysBefore[m]]: days in a non-leap year before month [m+1]. *)
Definition daysBefore (m : Z) : Z :=
  nth (Z.to_nat m) [0; 31; 59; 90; 120; 151; 181; 212; 243; 273; 304; 334; 365] 0.

(** [daysIn]: the length of a month. *)
Definition daysIn (month year : Z) : Z :=
  if (month =? 2) && isLeap year then 29
  else daysBefore month - daysBefore (month - 1).

(** Days from 0001-01-01 to January 1 of [year]. *)
Definition daysSinceYearOne (year : Z) : Z :=
  let y := year - 1 in 365 * y + y / 4 - y / 100 + y / 400.

(** [norm hi lo base]: carry [lo] into [hi] so that [0 <= lo < base]. *)
Definition norm (hi lo base : Z) : Z * Z := (hi + lo / base, lo mod base).

(** Day number (days since 1970-01-01) of a calendar date whose month and
    day may lie outside their usual ranges, as [time.Date] accepts them. *)
Definition dateToDays (year month day : Z) : Z :=
  let '(year, m) := norm year (month - 1) 12 in
  daysSinceYearOne year + daysBefore m
  + (if isLeap year && (2 <=? m) then 1 else 0)
  + (day - 1) - unixEpochDay.

(** [time.Date(year, month, day, hour, min, sec, 0, loc)]. *)
Definition Date (year month day hour min sec : Z) (l : Location) : Time :=
  let '(min, sec) := norm min sec 60 in
  let '(hour, min) := norm hour min 60 in
  let '(day, hour) := norm day hour 24 in
  mkTime (dateToDays year month day * secondsPerDay
          + hour * 3600 + min * 60 + sec - zoneOffset l) l.

(** Seconds on the wall clock of the time's location since the epoch. *)
Definition wallSec (t : Time) : Z := unixSec t + zoneOffset (loc t).

(** The day number shown by the wall clock. *)
Definition wallDay (t : Time) : Z := wallSec t / secondsPerDay.

(** Calendar date of a day number: 400-, 100-, 4- and 1-year cycles counted
    from 0001-01-01, then the month from the day of the year. *)
Definition daysToDate (days : Z) : Z * Z * Z :=
  let d := days + unixEpochDay in
  let n400 := d / daysPer400Years in
  let d := d - daysPer400Years * n400 in
  let n100 := d / daysPer100Years in
  let n100 := n100 - n100 / 4 in
  let d := d - daysPer100Years * n100 in
  let n4 := d / daysPer4Years in
  let d := d - daysPer4Years * n4 in
  let n1 := d / 365 in
  let n1 := n1 - n1 / 4 in
  let yday := d - 365 * n1 in
  let year := 400 * n400 + 100 * n100 + 4 * n4 + n1 + 1 in
  let leap := isLeap year in
  if leap && (yday =? 31 + 29 - 1) then (year, 2, 29)
  else
    let day := if leap && (31 + 29 - 1 <? yday) then yday - 1 else yday in
    let month := day / 31 in
    let fin := daysBefore (month + 1) in
    if fin <=? day then (year, month + 2, day - fin + 1)
    else (year, month + 1, day - daysBefore month + 1).

(** [t.Date()] and [t.Clock()]. *)
Definition dateOf (t : Time) : Z * Z * Z := daysToDate (wallDay t).

Definition clockOf (t : Time) : Z * Z * Z :=
  let s := wallSec t mod secondsPerDay in
  (s / 3600, (s mod 3600) / 60, s mod 60).

(** [t.AddDate(years, months, days)]: the date fields are shifted and the
    result normalised as [Date] does. *)
Definition AddDate (t : Time) (years months days : Z) : Time :=
  let '(year, month, day) := dateOf t in
  let '(hour, min, sec) := clockOf t in
  Date (year + years) (month + months) (day + days) hour min sec (loc t).

Fixpoint zeros (n : nat) : string :=
  match n with
  | O => EmptyString
  | S k => String "0" (zeros k)
  end.

(** [appendInt]: the decimal form of [x], zero-padded to [width] digits,
    with the sign in front. *)
Definition appendInt (x : Z) (width : nat) : string :=
  let ds := strconv.Itoa (Z.abs x) in
  (if x <? 0 then "-" else "") ++ zeros (width - String.length ds) ++ ds.

(** The layout "2006-01-02" applied to a date: its chunks are the
    four-digit year, the two-digit month and the two-digit day, with "-"
    in between. *)
Definition formatDate (date : Z * Z * Z) : string :=
  let '(year, month, day) := date in
  appendInt year 4 ++ "-" ++ appendInt month 2 ++ "-" ++ appendInt day 2.

(** [t.Format("2006-01-02")]. *)
Definition Format_2006_01_02 (t : Time) : string := formatDate (dateOf t).

End time.

(** * net/url *)

Module url.

Definition isAlnum (c : ascii) : bool :=
  let n := byte_val c in
  ((48 <=? n) && (n <=? 57)) || ((65 <=? n) && (n <=? 90))
  || ((97 <=? n) && (n <=? 122)).

(** In a query component every byte is escaped except letters, digits and
    the unreserved marks [-_.~]. *)
Definition shouldEscape (c : ascii) : bool :=
  negb (isAlnum c
        || Ascii.eqb c "-" || Ascii.eqb c "_" || Ascii.eqb c "."
        || Ascii.eqb c "~").

Definition upperhex (n : Z) : ascii :=
  if n <? 10 then byte_of (48 + n) else byte_of (65 + n - 10).

(** [url.QueryEscape]. *)
Fixpoint QueryEscape (s : string) : string :=
  match s with
  | EmptyString => EmptyString
  | String c s' =>
      if Ascii.eqb c " " then String "+" (QueryEscape s')
      else if shouldEscape c then
        String "%" (String (upperhex (byte_val c / 16))
                      (String (upperhex (byte_val c mod 16)) (QueryEscape s')))
      else String c (QueryEscape s')
  end.

(** [url.Values] holding one value per key, as the handler fills it. *)
Definition Values : Type := list (string * string).

Definition pair (kv : string * string) : string :=
  QueryEscape (fst kv) ++ "=" ++ QueryEscape (snd kv).

Fixpoint joinAmp (ps : list string) : string :=
  match ps with
  | [] => ""
  | [p] => p
  | p :: rest => p ++ "&" ++ joinAmp rest
  end.

Fixpoint insertSorted (kv : string * string) (vs : Values) : Values :=
  match vs with
  | [] => [kv]
  | kv' :: rest =>
      if String.leb (fst kv) (fst kv') then kv :: vs
      else kv' :: insertSorted kv rest
  end.

(** [Values.Encode]: "key=value" pairs joined by "&", sorted by key. *)
Definition Encode (vs : Values) : string :=
  joinAmp (map pair (fold_right insertSorted [] vs)).

End url.

(** * encoding/json

    [json.Unmarshal] first checks that the whole input is one well-formed
    JSON text, then stores its values into the target.  The syntax tree keeps
    literals as they are written (a number as its digits, a string as the
    text between its quotes, escapes included): the store decides how each
    literal is read for the type of its target. *)

Module json.

#[local] Set Warnings "-register-all".

Inductive value : Type :=
| Null
| Bool (b : bool)
| Number (lit : string)
| Str (raw : string)
| Array (elems : list value)
| Object (members : list (string * value)).

(** ** Scanner: bytes to tokens *)

Inductive token : Type :=
| TLBrace | TRBrace | TLBracket | TRBracket | TColon | TComma
| TStr (raw : string)
| TNum (lit : string)
| TTrue | TFalse | TNull.

Definition isSpace (c : ascii) : bool :=
  let n := byte_val c in (n =? 32) || (n =? 9) || (n =? 13) || (n =? 10).

Definition isHex (c : ascii) : bool :=
  let n := byte_val c in
  ((48 <=? n) && (n <=? 57)) || ((97 <=? n) && (n <=? 102))
  || ((65 <=? n) && (n <=? 70)).

(** Characters of numbers and of the literals [true], [false], [null]. *)
Definition isWordChar (c : ascii) : bool :=
  url.isAlnum c || Ascii.eqb c "-" || Ascii.eqb c "+" || Ascii.eqb c ".".

(** The grammar of a number: an optional minus sign; then a single 0, or
    a digit 1-9 followed by any digits; then optionally a point and one or
    more digits; then optionally e or E, an optional sign and one or more
    digits. *)
Inductive numState : Type :=
| NBegin | NNeg | NZero | NInt | NDot | NFrac | NE | NESign | NExp | NBad.

Definition numStep (st : numState) (c : ascii) : numState :=
  let digit := strconv.isDigit c in
  let isE := Ascii.eqb c "e" || Ascii.eqb c "E" in
  match st with
  | NBegin =>
      if Ascii.eqb c "-" then NNeg
      else if Ascii.eqb c "0" then NZero
      else if digit then NInt else NBad
  | NNeg =>
      if Ascii.eqb c "0" then NZero else if digit then NInt else NBad
  | NZero =>
      if Ascii.eqb c "." then NDot else if isE then NE else NBad
  | NInt =>
      if digit then NInt
      else if Ascii.eqb c "." then NDot else if isE then NE else NBad
  | NDot => if digit then NFrac else NBad
  | NFrac => if digit then NFrac else if isE then NE else NBad
  | NE =>
      if Ascii.eqb c "+" || Ascii.eqb c "-" then NESign
      else if digit then NExp else NBad
  | NESign => if digit then NExp else NBad
  | NExp => if digit then NExp else NBad
  | NBad => NBad
  end.

Fixpoint numRun (st : numState) (s : string) : numState :=
  match s with
  | EmptyString => st
  | String c s' => numRun (numStep st c) s'
  end.

Definition validNumber (s : string) : bool :=
  match numRun NBegin s with
  | NZero | NInt | NFrac | NExp => true
  | _ => false
  end.

Definition wordToken (w : string) : option token :=
  if String.eqb w "true" then Some TTrue
  else if String.eqb w "false" then Some TFalse
  else if String.eqb w "null" then Some TNull
  else if validNumber w then Some (TNum w)
  else None.

(** Where the scanner is: between tokens, inside a string (after a
    backslash, inside the four hex digits of a [\u] escape), or inside a
    number or literal.  The accumulators hold the text read so far,
    last character first. *)
Inductive mode : Type :=
| MStart
| MString (acc : list ascii)
| MEscape (acc : list ascii)
| MHex (acc : list ascii) (todo : nat)
| MWord (acc : list ascii).

Definition text (acc : list ascii) : string :=
  string_of_list_ascii (rev acc).

(** The scanner between tokens, reading [c]: the new mode and the token
    completed by [c], if any. *)
Definition startChar (c : ascii) : option (mode * option token) :=
  let n := byte_val c in
  if isSpace c then Some (MStart, None)
  else if n =? 123 then Some (MStart, Some TLBrace)
  else if n =? 125 then Some (MStart, Some TRBrace)
  else if n =? 91 then Some (MStart, Some TLBracket)
  else if n =? 93 then Some (MStart, Some TRBracket)
  else if n =? 58 then Some (MStart, Some TColon)
  else if n =? 44 then Some (MStart, Some TComma)
  else if n =? 34 then Some (MString [], None)
  else if isWordChar c then Some (MWord [c], None)
  else None.

Definition isSimpleEscape (c : ascii) : bool :=
  let n := byte_val c in
  (n =? 34) || (n =? 92) || (n =? 47) || (n =? 98) || (n =? 102)
  || (n =? 110) || (n =? 114) || (n =? 116).

Definition push (t : option token) (out : list token) : list token :=
  match t with
  | Some t' => t' :: out
  | None => out
  end.

(** [scan m s out]: the tokens of [s] after those of [out] (kept last
    token first), or [None] on a lexical error. *)
Fixpoint scan (m : mode) (s : string) (out : list token) : option (list token) :=
  match s with
  | EmptyString =>
      match m with
      | MStart => Some (rev out)
      | MWord acc =>
          match wordToken (text acc) with
          | Some t => Some (rev (t :: out))
          | None => None
          end
      | _ => None
      end
  | String c s' =>
      match m with
      | MStart =>
          match startChar c with
          | Some (m', t) => scan m' s' (push t out)
          | None => None
          end
      | MString acc =>
          if byte_val c =? 34 then scan MStart s' (TStr (text acc) :: out)
          else if byte_val c =? 92 then scan (MEscape (c :: acc)) s' out
          else if byte_val c <? 32 then None
          else scan (MString (c :: acc)) s' out
      | MEscape acc =>
          if isSimpleEscape c then scan (MString (c :: acc)) s' out
          else if Ascii.eqb c "u" then scan (MHex (c :: acc) 4) s' out
          else None
      | MHex acc todo =>
          if isHex c then
            match todo with
            | S (S k) => scan (MHex (c :: acc) (S k)) s' out
            | _ => scan (MString (c :: acc)) s' out
            end
          else None
      | MWord acc =>
          if isWordChar c then scan (MWord (c :: acc)) s' out
          else
            match wordToken (text acc), startChar c with
            | Some t, Some (m', t') => scan m' s' (push t' (t :: out))
            | _, _ => None
            end
      end
  end.

(** ** Parser: tokens to a value *)

(** An enclosing container that waits for the value being read. *)
Inductive context : Type :=
| InArray (done : list value)
| InObject (done : list (string * value)) (key : string).

Inductive pstate : Type :=
| PValue (k : list context)
| PArrFirst (k : list context)
| PArrNext (done : list value) (k : list context)
| PObjFirst (k : list context)
| PObjKey (done : list (string * value)) (k : list context)
| PObjColon (done : list (string * value)) (key : string) (k : list context)
| PObjNext (done : list (string * value)) (k : list context)
| PEnd (v : value).

(** A complete value goes to the innermost enclosing container. *)
Definition deliver (v : value) (k : list context) : pstate :=
  match k with
  | [] => PEnd v
  | InArray done :: k' => PArrNext (v :: done) k'
  | InObject done key :: k' => PObjNext ((key, v) :: done) k'
  end.

Definition maxNestingDepth : Z := 10000.

(** A value starts with [t], [k] being the containers already open. *)
Definition beginValue (t : token) (k : list context) : option pstate :=
  match t with
  | TNull => Some (deliver Null k)
  | TTrue => Some (deliver (Bool true) k)
  | TFalse => Some (deliver (Bool false) k)
  | TNum lit => Some (deliver (Number lit) k)
  | TStr raw => Some (deliver (Str raw) k)
  | TLBracket =>
      if Z.of_nat (List.length k) <? maxNestingDepth then Some (PArrFirst k)
      else None
  | TLBrace =>
      if Z.of_nat (List.length k) <? maxNestingDepth then Some (PObjFirst k)
      else None
  | _ => None
  end.

(** In [PArrFirst k] and [PObjFirst k] the container just opened is not
    yet in [k]; it is pushed when its first element or member begins. *)
Definition pstep (st : pstate) (t : token) : option pstate :=
  match st with
  | PValue k => beginValue t k
  | PArrFirst k =>
      match t with
      | TRBracket => Some (deliver (Array []) k)
      | _ => beginValue t (InArray [] :: k)
      end
  | PArrNext done k =>
      match t with
      | TComma => Some (PValue (InArray done :: k))
      | TRBracket => Some (deliver (Array (rev done)) k)
      | _ => None
      end
  | PObjFirst k =>
      match t with
      | TRBrace => Some (deliver (Object []) k)
      | TStr key => Some (PObjColon [] key k)
      | _ => None
      end
  | PObjKey done k =>
      match t with
      | TStr key => Some (PObjColon done key k)
      | _ => None
      end
  | PObjColon done key k =>
      match t with
      | TColon => Some (PValue (InObject done key :: k))
      | _ => None
      end
  | PObjNext done k =>
      match t with
      | TComma => Some (PObjKey done k)
      | TRBrace => Some (deliver (Object (rev done)) k)
      | _ => None
      end
  | PEnd _ => None
  end.

Fixpoint prun (st : pstate) (ts : list token) : option pstate :=
  match ts with
  | [] => Some st
  | t :: ts' =>
      match pstep st t with
      | Some st' => prun st' ts'
      | None => None
      end
  end.

(** The value of a JSON text; [None] is a syntax error. *)
Definition parse (data : string) : option value :=
  match scan MStart data [] with
  | Some ts =>
      match prun (PValue []) ts with
      | Some (PEnd v) => Some v
      | _ => None
      end
  | None => None
  end.

(** ** Strings: escapes and UTF-8 *)

Definition replacementChar : Z := 65533.     (* U+FFFD *)

Definition isSurrogate (r : Z) : bool := (55296 <=? r) && (r <? 57344).
Definition isHighSurrogate (r : Z) : bool := (55296 <=? r) && (r <? 56320).
Definition isLowSurrogate (r : Z) : bool := (56320 <=? r) && (r <? 57344).

(** [utf16.DecodeRune] on a valid pair. *)
Definition decodeSurrogates (r1 r2 : Z) : Z :=
  Z.lor (Z.shiftl (r1 - 55296) 10) (r2 - 56320) + 65536.

(** [utf8.EncodeRune]: the bytes of [r], pushed on [out], which holds the
    output last byte first. *)
Definition emitRune (r : Z) (out : list ascii) : list ascii :=
  let tail (sh : Z) := byte_of (Z.lor 128 (Z.land (Z.shiftr r sh) 63)) in
  if r <? 128 then byte_of r :: out
  else if r <? 2048 then
    tail 0 :: byte_of (Z.lor 192 (Z.shiftr r 6)) :: out
  else if r <? 65536 then
    tail 0 :: tail 6 :: byte_of (Z.lor 224 (Z.shiftr r 12)) :: out
  else
    tail 0 :: tail 6 :: tail 12 :: byte_of (Z.lor 240 (Z.shiftr r 18)) :: out.

Definition hexVal (c : ascii) : Z :=
  let n := byte_val c in
  if n <=? 57 then n - 48 else if n <=? 70 then n - 65 + 10 else n - 97 + 10.

(** The byte a one-letter escape stands for. *)
Definition escapeByte (c : ascii) : ascii :=
  let n := byte_val c in
  if n =? 98 then byte_of 8
  else if n =? 102 then byte_of 12
  else if n =? 110 then byte_of 10
  else if n =? 114 then byte_of 13
  else if n =? 116 then byte_of 9
  else c.

Inductive umode : Type :=
| UPlain
| UEsc
| UHex (todo : nat) (v : Z).

(** A surrogate read from a [\u] escape waits in [pend] for its partner;
    when none follows it becomes U+FFFD. *)
Definition flush (pend : option Z) (out : list ascii) : list ascii :=
  match pend with
  | Some _ => emitRune replacementChar out
  | None => out
  end.

Definition completeRune (pend : option Z) (rr : Z) (out : list ascii)
  : option Z * list ascii :=
  match pend with
  | Some r1 =>
      if isHighSurrogate r1 && isLowSurrogate rr
      then (None, emitRune (decodeSurrogates r1 rr) out)
      else
        let out := emitRune replacementChar out in
        if isSurrogate rr then (Some rr, out) else (None, emitRune rr out)
  | None =>
      if isSurrogate rr then (Some rr, out) else (None, emitRune rr out)
  end.

Fixpoint unescape (m : umode) (pend : option Z) (s : string)
    (out : list ascii) : list ascii :=
  match s with
  | EmptyString => flush pend out
  | String c s' =>
      match m with
      | UPlain =>
          if byte_val c =? 92 then unescape UEsc pend s' out
          else unescape UPlain None s' (c :: flush pend out)
      | UEsc =>
          if Ascii.eqb c "u" then unescape (UHex 4 0) pend s' out
          else unescape UPlain None s' (escapeByte c :: flush pend out)
      | UHex todo v =>
          let v' := 16 * v + hexVal c in
          match todo with
          | S (S k) => unescape (UHex (S k) v') pend s' out
          | _ =>
              let '(pend', out') := completeRune pend v' out in
              unescape UPlain pend' s' out'
          end
      end
  end.

(** For a first byte that starts a multi-byte sequence: the number of
    bytes that follow and the range the second byte must lie in. *)
Definition accept (b0 : Z) : option (nat * Z * Z) :=
  if (194 <=? b0) && (b0 <=? 223) then Some (1%nat, 128, 191)
  else if b0 =? 224 then Some (2%nat, 160, 191)
  else if (225 <=? b0) && (b0 <=? 236) then Some (2%nat, 128, 191)
  else if b0 =? 237 then Some (2%nat, 128, 159)
  else if (238 <=? b0) && (b0 <=? 239) then Some (2%nat, 128, 191)
  else if b0 =? 240 then Some (3%nat, 144, 191)
  else if (241 <=? b0) && (b0 <=? 243) then Some (3%nat, 128, 191)
  else if b0 =? 244 then Some (3%nat, 128, 143)
  else None.

Definition within (lo hi : Z) (c : ascii) : bool :=
  (lo <=? byte_val c) && (byte_val c <=? hi).

Definition isCont (c : ascii) : bool := within 128 191 c.

Definition replacement : string :=
  String (byte_of 239) (String (byte_of 191) (String (byte_of 189) "")).

(** Every byte that does not belong to a well-formed UTF-8 sequence is
    replaced by U+FFFD. *)
Fixpoint coerceUTF8 (s : string) : string :=
  match s with
  | EmptyString => EmptyString
  | String b0 t0 =>
      if byte_val b0 <? 128 then String b0 (coerceUTF8 t0)
      else
        let bad := (replacement ++ coerceUTF8 t0)%string in
        match accept (byte_val b0), t0 with
        | Some (n, lo, hi), String b1 t1 =>
            if within lo hi b1 then
              match n, t1 with
              | 1%nat, _ => String b0 (String b1 (coerceUTF8 t1))
              | _, String b2 t2 =>
                  if isCont b2 then
                    match n, t2 with
                    | 2%nat, _ =>
                        String b0 (String b1 (String b2 (coerceUTF8 t2)))
                    | _, String b3 t3 =>
                        if isCont b3 then
                          String b0 (String b1 (String b2
                            (String b3 (coerceUTF8 t3))))
                        else bad
                    | _, EmptyString => bad
                    end
                  else bad
              | _, EmptyString => bad
              end
            else bad
        | _, _ => bad
        end
  end.

(** The Go string a string literal denotes, [raw] being the text between
    its quotes. *)
Definition unquote (raw : string) : string :=
  coerceUTF8 (text (unescape UPlain None raw [])).

(** ** Matching object keys with struct fields *)

Definition toLower (c : ascii) : ascii :=
  let n := byte_val c in
  if (65 <=? n) && (n <=? 90) then byte_of (n + 32) else c.

(** Simple case folding as far as it can produce an ASCII letter: upper
    case to lower case, the Kelvin sign U+212A to k, the long s U+017F
    to s. *)
Fixpoint foldName (s : string) : string :=
  match s with
  | EmptyString => EmptyString
  | String c s' =>
      let plain := String (toLower c) (foldName s') in
      match s' with
      | String c1 s1 =>
          if (byte_val c =? 197) && (byte_val c1 =? 191)
          then String "s" (foldName s1)
          else
            match s1 with
            | String c2 s2 =>
                if (byte_val c =? 226) && (byte_val c1 =? 132)
                   && (byte_val c2 =? 170)
                then String "k" (foldName s2)
                else plain
            | EmptyString => plain
            end
      | EmptyString => plain
      end
  end.

(** A key selects the field of the same name, or else a field whose name
    is equal to it under case folding. *)
Definition keyMatches (name key : string) : bool :=
  String.eqb key name || String.eqb (foldName key) (foldName name).

(** ** Storing values *)

(** [st v cur]: the target after [v] is stored into a target that holds
    [cur]; [None] when [v] does not fit the target's type. *)
Definition Store (A : Type) : Type := value -> A -> option A.

Definition storeString : Store string :=
  fun v cur =>
    match v with
    | Null => Some cur
    | Str raw => Some (unquote raw)
    | _ => None
    end.

Definition storeInt : Store Z :=
  fun v cur =>
    match v with
    | Null => Some cur
    | Number lit => strconv.ParseInt lit
    | _ => None
    end.

(** A target that implements [Unmarshaler] the way [time.Time] does:
    [null] is ignored and the text of any other value goes to the parser
    [p]; only a string literal can be accepted. *)
Definition storeTime (p : string -> bool) : Store string :=
  fun v cur =>
    match v with
    | Null => Some cur
    | Str raw => if p raw then Some raw else None
    | _ => None
    end.

(** Members are stored in the order they are written, each into the field
    its key selects; members that select no field are skipped. *)
Fixpoint storeMembers {A : Type} (field : string -> Store A)
    (ms : list (string * value)) (cur : A) : option A :=
  match ms with
  | [] => Some cur
  | (k, v) :: ms' =>
      match field (unquote k) v cur with
      | Some cur' => storeMembers field ms' cur'
      | None => None
      end
  end.

Definition storeStruct {A : Type} (field : string -> Store A) : Store A :=
  fun v cur =>
    match v with
    | Null => Some cur
    | Object ms => storeMembers field ms cur
    | _ => None
    end.

Fixpoint storeElems {A : Type} (zero : A) (st : Store A)
    (vs : list value) : option (list A) :=
  match vs with
  | [] => Some []
  | v :: vs' =>
      match st v zero, storeElems zero st vs' with
      | Some a, Some l => Some (a :: l)
      | _, _ => None
      end
  end.

(** A slice: [null] makes it nil; an array resets it to length zero and
    appends each element, stored into a zero value. *)
Definition storeSlice {A : Type} (zero : A) (st : Store A) : Store (list A) :=
  fun v cur =>
    match v with
    | Null => Some []
    | Array vs => storeElems zero st vs
    | _ => None
    end.

Inductive UnmarshalError : Type :=
| SyntaxError
| StoreError.

(** [json.Unmarshal(data, &target)] for a target that holds [zero]. *)
Definition Unmarshal {A : Type} (st : Store A) (zero : A) (data : string)
  : UnmarshalError + A :=
  match parse data with
  | None => inl SyntaxError
  | Some v =>
      match st v zero with
      | Some a => inr a
      | None => inl StoreError
      end
  end.

End json.

(** * The data of [main.go] *)

Module Env.
Record t : Type := mk {
  Apikey : string;        (* NewsAPI api key *)
  WebhookURL : string     (* Slack webhook url *)
}.
End Env.

Module RequestParameter.
Record t : Type := mk {
  From : string;
  To : string;
  S3BacketName : string;
  S3ObjectKey : string;
  Keyword : string;
  NoticeLowerLimit : Z
}.

Definition setFrom (rp : t) (v : string) : t :=
  mk v (To rp) (S3BacketName rp) (S3ObjectKey rp) (Keyword rp)
    (NoticeLowerLimit rp).

Definition setTo (rp : t) (v : string) : t :=
  mk (From rp) v (S3BacketName rp) (S3ObjectKey rp) (Keyword rp)
    (NoticeLowerLimit rp).
End RequestParameter.

Module PickupKey.
Record t : Type := mk {
  Keyword : string;
  (* Don't notify if the number of news is below NoticeLowerLimit *)
  NoticeLowerLimit : Z
}.

Definition zero : t := mk "" 0.

(** The field selected by a key, from the [json] tags of the struct. *)
Definition field (key : string) : json.Store t :=
  fun v pk =>
    if json.keyMatches "keyword" key then
      option_map (fun s => mk s (NoticeLowerLimit pk))
        (json.storeString v (Keyword pk))
    else if json.keyMatches "noticeLowerLimit" key then
      option_map (fun n => mk (Keyword pk) n)
        (json.storeInt v (NoticeLowerLimit pk))
    else Some pk.

Definition store : json.Store t := json.storeStruct field.
End PickupKey.

Module Source.
Record t : Type := mk {
  ID : string;
  Name : string
}.

Definition zero : t := mk "" "".

Definition field (key : string) : json.Store t :=
  fun v s =>
    if json.keyMatches "id" key then
      option_map (fun x => mk x (Name s)) (json.storeString v (ID s))
    else if json.keyMatches "name" key then
      option_map (fun x => mk (ID s) x) (json.storeString v (Name s))
    else Some s.

Definition store : json.Store t := json.storeStruct field.
End Source.

(** An element of [NewsAPIRespons.Articles].  [PublishedAt] keeps the text
    that [time.Time] accepted; the handler never reads it. *)
Module Article.
Record t : Type := mk {
  Source : Source.t;
  Author : string;
  Title : string;
  Description : string;
  URL : string;
  URLToImage : string;
  PublishedAt : string;
  Content : string
}.

Definition zero : t := mk Source.zero "" "" "" "" "" "" "".

Definition field (timeParser : string -> bool) (key : string) : json.Store t :=
  fun v a =>
    let '(mk so au ti de ur im pu co) := a in
    if json.keyMatches "source" key then
      option_map (fun x => mk x au ti de ur im pu co) (Source.store v so)
    else if json.keyMatches "author" key then
      option_map (fun x => mk so x ti de ur im pu co) (json.storeString v au)
    else if json.keyMatches "title" key then
      option_map (fun x => mk so au x de ur im pu co) (json.storeString v ti)
    else if json.keyMatches "description" key then
      option_map (fun x => mk so au ti x ur im pu co) (json.storeString v de)
    else if json.keyMatches "url" key then
      option_map (fun x => mk so au ti de x im pu co) (json.storeString v ur)
    else if json.keyMatches "urlToImage" key then
      option_map (fun x => mk so au ti de ur x pu co) (json.storeString v im)
    else if json.keyMatches "publishedAt" key then
      option_map (fun x => mk so au ti de ur im x co)
        (json.storeTime timeParser v pu)
    else if json.keyMatches "content" key then
      option_map (fun x => mk so au ti de ur im pu x) (json.storeString v co)
    else Some a.

Definition store (timeParser : string -> bool) : json.Store t :=
  json.storeStruct (field timeParser).
End Article.

Module NewsAPIRespons.
Record t : Type := mk {
  Status : string;
  TotalResults : Z;
  Articles : list Article.t
}.

Definition zero : t := mk "" 0 [].

Definition field (timeParser : string -> bool) (key : string) : json.Store t :=
  fun v r =>
    if json.keyMatches "status" key then
      option_map (fun x => mk x (TotalResults r) (Articles r))
        (json.storeString v (Status r))
    else if json.keyMatches "totalResults" key then
      option_map (fun x => mk (Status r) x (Articles r))
        (json.storeInt v (TotalResults r))
    else if json.keyMatches "articles" key then
      option_map (fun x => mk (Status r) (TotalResults r) x)
        (json.storeSlice Article.zero (Article.store timeParser) v
           (Articles r))
    else Some r.

(** The target of the handler's [Unmarshal] is a pointer to a pointer to
    the struct: [null] sets the inner pointer to nil ([None]); any other
    value is stored into the struct it points to. *)
Definition storePtr (timeParser : string -> bool) : json.Store (option t) :=
  fun v cur =>
    match v with
    | json.Null => Some None
    | _ =>
        let target := match cur with Some r => r | None => zero end in
        option_map Some (json.storeStruct (field timeParser) v target)
    end.
End NewsAPIRespons.

(** * The world the handler runs in *)

(** An [error] value: one of [json.Unmarshal], or one reported by the
    operating system or a library, of which only the text is known. *)
Inductive error : Type :=
| JSONError (e : json.UnmarshalError)
| LibError (msg : string).

Module http.
(** A request as handed to [http.Client.Do].  [RawQuery] is the query the
    handler sets on the request's URL after building it; [None] leaves
    the URL as [http.NewRequest] parsed it. *)
Record Request : Type := mkRequest {
  Method : string;
  URL : string;
  RawQuery : option string;
  Header : list (string * string);
  Body : string
}.

(** [RespBody] is what reading the response body to its end gives. *)
Record Response : Type := mkResponse {
  StatusCode : Z;
  RespBody : error + string
}.

Definition setRawQuery (r : Request) (q : string) : Request :=
  mkRequest (Method r) (URL r) (Some q) (Header r) (Body r).

(** [Header.Set] on a request that does not have the header yet. *)
Definition setHeader (r : Request) (k v : string) : Request :=
  mkRequest (Method r) (URL r) (RawQuery r) (Header r ++ [(k, v)]) (Body r).
End http.

(** What the handler does to the outside, in the order it happens. *)
Inductive Event : Type :=
| EvPrintln (e : error)                 (* fmt.Println(err) *)
| EvPrintf (line : string)              (* fmt.Printf of a warning *)
| EvS3Get (bucket key : string)         (* s3.GetObject *)
| EvHTTP (req : http.Request).          (* http.Client.Do *)

(** The requests among the events, oldest first. *)
Fixpoint sent (tr : list Event) : list http.Request :=
  match tr with
  | [] => []
  | EvHTTP req :: tr' => req :: sent tr'
  | _ :: tr' => sent tr'
  end.

(** The answers of the outside:
    - [envconfig_Process prefix]: what [envconfig.Process] makes of the
      process environment;
    - [time_Now]: the clock, in Unix seconds;
    - [time_LoadLocation name]: the zone of that name in the tz database;
    - [time_UnmarshalJSON raw]: whether [time.Time] accepts the string
      literal whose text between the quotes is [raw];
    - [http_NewRequest method url]: the error of [http.NewRequest], [None]
      when the request can be built;
    - [http_Do before req]: the answer to [req], which may depend on the
      requests made before it;
    - [session_New]: the error of making an AWS session, if any;
    - [s3_GetObject bucket key]: the bytes read from the object. *)
Record Oracle : Type := mkOracle {
  envconfig_Process : string -> error + Env.t;
  time_Now : Z;
  time_LoadLocation : string -> error + time.Location;
  time_UnmarshalJSON : string -> bool;
  http_NewRequest : string -> string -> option error;
  http_Do : list http.Request -> http.Request -> error + http.Response;
  session_New : option error;
  s3_GetObject : string -> string -> error + string
}.

Record World : Type := mkWorld {
  oracle : Oracle;
  trace : list Event
}.

(** * The effects of Go code *)

(** A computation ends by yielding a value, by [os.Exit], or by a panic. *)
Inductive Outcome (A : Type) : Type :=
| Done (a : A) (w : World)
| Exit (code : Z) (w : World)
| Panic (w : World).

Arguments Done {A} a w.
Arguments Exit {A} code w.
Arguments Panic {A} w.

Definition Go (A : Type) : Type := World -> Outcome A.

Definition ret {A : Type} (a : A) : Go A := fun w => Done a w.

Definition bind {A B : Type} (m : Go A) (k : A -> Go B) : Go B :=
  fun w =>
    match m w with
    | Done a w' => k a w'
    | Exit code w' => Exit code w'
    | Panic w' => Panic w'
    end.

Declare Scope go_scope.
Delimit Scope go_scope with go.
Notation "x <- m ;; k" := (bind m (fun x => k))
  (at level 61, m at next level, right associativity) : go_scope.
Notation "m ;; k" := (bind m (fun _ => k))
  (at level 61, right associativity) : go_scope.
#[local] Open Scope go_scope.

Definition os_Exit {A : Type} (code : Z) : Go A := fun w => Exit code w.
Definition panic {A : Type} : Go A := fun w => Panic w.

(** Reading an answer of the outside. *)
Definition ask {A : Type} (f : Oracle -> A) : Go A :=
  fun w => Done (f (oracle w)) w.

Definition emit (e : Event) : Go unit :=
  fun w => Done tt (mkWorld (oracle w) (trace w ++ [e])).

Definition fmt_Println (e : error) : Go unit := emit (EvPrintln e).
Definition fmt_Printf (line : string) : Go unit := emit (EvPrintf line).

(** [new(http.Client).Do(request)]. *)
Definition client_Do (req : http.Request) : Go (error + http.Response) :=
  fun w =>
    Done (http_Do (oracle w) (sent (trace w)) req)
         (mkWorld (oracle w) (trace w ++ [EvHTTP req])).

(** The world an outcome ends in, and what is left without it. *)
Definition worldOf {A : Type} (o : Outcome A) : World :=
  match o with
  | Done _ w => w
  | Exit _ w => w
  | Panic w => w
  end.

Inductive Result (A : Type) : Type :=
| RDone (a : A)
| RExit (code : Z)
| RPanic.

Arguments RDone {A} a.
Arguments RExit {A} code.
Arguments RPanic {A}.

Definition resultOf {A : Type} (o : Outcome A) : Result A :=
  match o with
  | Done a _ => RDone a
  | Exit code _ => RExit code
  | Panic _ => RPanic
  end.

(** * The functions of [main.go]

    The deferred [resp.Body.Close()] and [obj.Body.Close()] have no effect
    that the trace records; they are left out. *)

(** [initRequestParameter] (lines 118-134).  The request is updated in
    place and returned. *)
Definition initRequestParameter (rp : RequestParameter.t)
  : Go RequestParameter.t :=
  now <- ask time_Now ;;
  let t := time.toUTC (time.mkTime now time.UTC) in
  r <- ask (fun o => time_LoadLocation o "Asia/Tokyo") ;;
  let loc :=
    match r with
    | inl _ => time.FixedZone "Asia/Tokyo" (9 * 60 * 60)
    | inr l => l
    end in
  let t := time.In t loc in
  let rp :=
    if String.eqb (RequestParameter.From rp) ""
    then RequestParameter.setFrom rp
           (time.Format_2006_01_02 (time.AddDate t 0 0 (-1)))  (* Previous day *)
    else rp in
  let rp :=
    if String.eqb (RequestParameter.To rp) ""
    then RequestParameter.setTo rp (time.Format_2006_01_02 t)  (* The day *)
    else rp in
  ret rp.

(** [notificationSlack] (lines 136-155). *)
Definition notificationSlack (env : Env.t) (message : string) : Go unit :=
  let params := "{" ++ DQ ++ "text" ++ DQ ++ ":" ++ DQ ++ message ++ DQ ++ "}" in
  bad <- ask (fun o => http_NewRequest o "POST" (Env.WebhookURL env)) ;;
  match bad with
  | Some err => fmt_Println err ;; os_Exit 1
  | None =>
      let resuest := http.mkRequest "POST" (Env.WebhookURL env) None [] params in
      let resuest := http.setHeader resuest "Content-Type" "application/json" in
      (* Execute slack webhook *)
      r <- client_Do resuest ;;
      match r with
      | inl err => fmt_Println err ;; os_Exit 1
      | inr resp =>
          if http.StatusCode resp =? 200 then ret tt
          else fmt_Printf ("Unable to post this url : http status is "
                           ++ strconv.Itoa (http.StatusCode resp) ++ " " ++ LF)
      end
  end.

(** [readS3File] (lines 175-195).  [session.Must] panics when no session
    can be made; an error while reading the object's body is ignored. *)
Definition readS3File (rp : RequestParameter.t) : Go string :=
  bad <- ask session_New ;;
  match bad with
  | Some _ => panic
  | None =>
      let bucket := RequestParameter.S3BacketName rp in
      let key := RequestParameter.S3ObjectKey rp in
      emit (EvS3Get bucket key) ;;
      r <- ask (fun o => s3_GetObject o bucket key) ;;
      match r with
      | inl err => fmt_Println err ;; os_Exit 1
      | inr body => ret body
      end
  end.

(** [loadPickupKeys] (lines 157-173). *)
Definition loadPickupKeys (rp : RequestParameter.t) : Go (list PickupKey.t) :=
  if String.eqb (RequestParameter.S3BacketName rp) ""
     || String.eqb (RequestParameter.S3ObjectKey rp) ""
  then
    let pk := PickupKey.mk (RequestParameter.Keyword rp)
                (RequestParameter.NoticeLowerLimit rp) in
    ret [pk]
  else
    jsonBytes <- readS3File rp ;;
    match json.Unmarshal (json.storeSlice PickupKey.zero PickupKey.store)
            [] jsonBytes with
    | inl err => fmt_Println (JSONError err) ;; os_Exit 1
    | inr pickupKeys => ret pickupKeys
    end.

Definition newsAPIEndpoint : string := "http://newsapi.org/v2/everything".

(** The request of one keyword (lines 66-71): the shared GET request with
    its query replaced. *)
Definition newsRequest (env : Env.t) (p : RequestParameter.t)
    (key : PickupKey.t) : http.Request :=
  let resuest := http.mkRequest "GET" newsAPIEndpoint None [] "" in
  let values : url.Values :=
    [("qInTitle", PickupKey.Keyword key);
     ("from", RequestParameter.From p);
     ("to", RequestParameter.To p);
     ("apiKey", Env.Apikey env)] in
  http.setRawQuery resuest (url.Encode values).

(** Lines 73-94 of the loop body: execute NewsAPI, read the body, decode
    it.  [None] is the nil pointer that the JSON text [null] leaves. *)
Definition queryNewsAPI (env : Env.t) (p : RequestParameter.t)
    (key : PickupKey.t) : Go (option NewsAPIRespons.t) :=
  r <- client_Do (newsRequest env p key) ;;
  match r with
  | inl err => fmt_Println err ;; os_Exit 1
  | inr resp =>
      (if http.StatusCode resp =? 200 then ret tt
       else fmt_Printf ("Unable to get this url : http status is "
                        ++ strconv.Itoa (http.StatusCode resp) ++ " " ++ LF)) ;;
      match http.RespBody resp with
      | inl err => fmt_Println err ;; os_Exit 1
      | inr body =>
          timeParser <- ask time_UnmarshalJSON ;;
          match json.Unmarshal (NewsAPIRespons.storePtr timeParser)
                  (Some NewsAPIRespons.zero) body with
          | inl err => fmt_Println (JSONError err) ;; os_Exit 1
          | inr naResp => ret naResp
          end
      end
  end.

Definition WriteString (buf s : string) : string := buf ++ s.

(** Lines 102-110: the inner loop over the articles, [i] counting from the
    index of the first of [articles]. *)
Fixpoint writeArticles (i : Z) (articles : list Article.t)
    (messageDetail : string) : string :=
  match articles with
  | [] => messageDetail
  | article :: rest =>
      let b := WriteString messageDetail "No." in
      let b := WriteString b (strconv.Itoa (i + 1)) in
      let b := WriteString b ", " in
      let b := WriteString b (Article.Title article) in
      let b := WriteString b ", " in
      let b := WriteString b (Article.URL article) in
      let b := WriteString b LF in
      writeArticles (i + 1) rest b
  end.

Definition belowLimitMessage (totalResults noticeLowerLimit : Z) : string :=
  "TotalResult is lower NoticeLowerLimit. TotalResult:"
  ++ strconv.Itoa totalResults ++ ", NoticeLowerLimit:"
  ++ strconv.Itoa noticeLowerLimit ++ LF.

Definition messageHeader (p : RequestParameter.t) (key : PickupKey.t)
    (totalResults : Z) : string :=
  "<!channel> Keyword: " ++ PickupKey.Keyword key ++ " resultCount: "
  ++ strconv.Itoa totalResults ++ " from: " ++ RequestParameter.From p
  ++ " to: " ++ RequestParameter.To p ++ LF.

(** Lines 96-112 of the loop body, on the decoded response.  [Some s]: the
    handler returns [s] from inside the loop; [None]: the loop goes on. *)
Definition handleResponse (env : Env.t) (p : RequestParameter.t)
    (key : PickupKey.t) (naResp : option NewsAPIRespons.t)
  : Go (option string) :=
  match naResp with
  | None => panic                      (* nil pointer dereference *)
  | Some naResp =>
      if NewsAPIRespons.TotalResults naResp <=? PickupKey.NoticeLowerLimit key
      then
        ret (Some (belowLimitMessage (NewsAPIRespons.TotalResults naResp)
                     (PickupKey.NoticeLowerLimit key)))
      else
        let header := messageHeader p key (NewsAPIRespons.TotalResults naResp) in
        let messageDetail :=
          writeArticles 0 (NewsAPIRespons.Articles naResp) "" in
        notificationSlack env (header ++ messageDetail) ;;
        ret None
  end.

(** One turn of the loop of lines 65-113. *)
Definition loopBody (env : Env.t) (p : RequestParameter.t)
    (key : PickupKey.t) : Go (option string) :=
  naResp <- queryNewsAPI env p key ;;
  handleResponse env p key naResp.

(** [for _, key := range *keys]. *)
Fixpoint rangeKeys (env : Env.t) (p : RequestParameter.t)
    (keys : list PickupKey.t) : Go (option string) :=
  match keys with
  | [] => ret None
  | key :: rest =>
      r <- loopBody env p key ;;
      match r with
      | Some s => ret (Some s)
      | None => rangeKeys env p rest
      end
  end.

(** [HandleRequest] (lines 47-116).  [http.NewRequest] cannot fail on the
    method "GET" and the constant [newsAPIEndpoint], so the exit of lines
    60-63 is left out.  The returned pair is the string and the error. *)
Definition HandleRequest (rp : RequestParameter.t)
  : Go (string * option error) :=
  (* import enviroment *)
  r <- ask (fun o => envconfig_Process o "pickupnews") ;;
  match r with
  | inl err => fmt_Println err ;; os_Exit 1
  | inr env =>
      p <- initRequestParameter rp ;;
      keys <- loadPickupKeys p ;;
      r <- rangeKeys env p keys ;;
      match r with
      | Some s => ret (s, None)
      | None => ret ("Success notification.", None)
      end
  end.

(** * What the specification speaks of *)

(** The news queries and the notifications made so far, oldest first. *)
Definition queries (w : World) : list http.Request :=
  filter (fun r => String.eqb (http.Method r) "GET") (sent (trace w)).

Definition notifications (w : World) : list http.Request :=
  filter (fun r => String.eqb (http.Method r) "POST") (sent (trace w)).

(** The request the specification asks of the Notifier: a POST to the
    webhook with the JSON content type, the message placed as it is between
    the fixed opening and closing texts of the body. *)
Definition slackRequest (env : Env.t) (message : string) : http.Request :=
  http.mkRequest "POST" (Env.WebhookURL env) None
    [("Content-Type", "application/json")]
    ("{" ++ DQ ++ "text" ++ DQ ++ ":" ++ DQ ++ message ++ DQ ++ "}").

(** The notification text of the specification: the header line, then one
    line per article, numbered from 1 in the order of the response. *)
Definition articleLine (n : Z) (a : Article.t) : string :=
  "No." ++ strconv.Itoa n ++ ", " ++ Article.Title a ++ ", "
  ++ Article.URL a ++ LF.

Fixpoint articleLines (n : Z) (articles : list Article.t) : list string :=
  match articles with
  | [] => []
  | a :: rest => articleLine n a :: articleLines (n + 1) rest
  end.

Definition notificationMessage (p : RequestParameter.t) (key : PickupKey.t)
    (naResp : NewsAPIRespons.t) : string :=
  "<!channel> Keyword: " ++ PickupKey.Keyword key ++ " resultCount: "
  ++ strconv.Itoa (NewsAPIRespons.TotalResults naResp)
  ++ " from: " ++ RequestParameter.From p
  ++ " to: " ++ RequestParameter.To p ++ LF
  ++ String.concat "" (articleLines 1 (NewsAPIRespons.Articles naResp)).

(** The day number of the current date in UTC+9. *)
Definition tokyoDay (now : Z) : Z := (now + 9 * 3600) / 86400.

(** The first instant of the year 10000, in Unix seconds. *)
Definition year10000 : Z := 253402300800.

Fixpoint digitsOnly (s : string) : bool :=
  match s with
  | EmptyString => true
  | String c s' => strconv.isDigit c && digitsOnly s'
  end.

(** The shape YYYY-MM-DD: ten characters, digits but for the two hyphens. *)
Definition isDateString (s : string) : bool :=
  (String.length s =? 10)%nat
  && digitsOnly (substring 0 4 s) && String.eqb (substring 4 1 s) "-"
  && digitsOnly (substring 5 2 s) && String.eqb (substring 7 1 s) "-"
  && digitsOnly (substring 8 2 s).

(** A keyword rule as the blob format writes it: an object with the two
    members "keyword", a string, and "noticeLowerLimit", an integer. *)
Inductive IsRule : json.value -> PickupKey.t -> Prop :=
| IsRule_kw_limit (raw lit : string) (n : Z) :
    strconv.ParseInt lit = Some n ->
    IsRule (json.Object [("keyword", json.Str raw);
                         ("noticeLowerLimit", json.Number lit)])
           (PickupKey.mk (json.unquote raw) n)
| IsRule_limit_kw (raw lit : string) (n : Z) :
    strconv.ParseInt lit = Some n ->
    IsRule (json.Object [("noticeLowerLimit", json.Number lit);
                         ("keyword", json.Str raw)])
           (PickupKey.mk (json.unquote raw) n).

(** No member of the object selects the field [name]. *)
Definition omitsField (name : string) (ms : list (string * json.value)) : bool :=
  forallb (fun m => negb (json.keyMatches name (json.unquote (fst m)))) ms.

(** The outside with other status codes in the answers to POST requests. *)
Definition withPostStatus (f : list http.Request -> http.Request -> Z)
    (o : Oracle) : Oracle :=
  mkOracle (envconfig_Process o) (time_Now o) (time_LoadLocation o)
    (time_UnmarshalJSON o) (http_NewRequest o)
    (fun h r =>
       match http_Do o h r with
       | inr resp =>
           if String.eqb (http.Method r) "POST"
           then inr (http.mkResponse (f h r) (http.RespBody resp))
           else inr resp
       | inl e => inl e
       end)
    (session_New o) (s3_GetObject o).

(** ** Checking a property on a range of integers *)

Fixpoint allFrom (P : Z -> bool) (z : Z) (n : nat) : bool :=
  match n with
  | O => true
  | S k => P z && allFrom P (z + 1) k
  end.

(** What is to hold of the date of day [r] of the 400-year cycle that
    starts on 0001-01-01. *)
Definition cycleOK (r : Z) : bool :=
  let '(y, m, d) := time.daysToDate (r - time.unixEpochDay) in
  (time.dateToDays y m d =? r - time.unixEpochDay)
  && (1 <=? m) && (m <=? 12) && (1 <=? d) && (d <=? time.daysIn m y)
  && (time.daysSinceYearOne y <=? r) && (r <? time.daysSinceYearOne (y + 1)).

(** [x] is printed with exactly [width] digits. *)
Definition padOK (width : nat) (x : Z) : bool :=
  (String.length (time.appendInt x width) =? width)%nat
  && digitsOnly (time.appendInt x width).

(** * A sample outside, for running the handler *)

Module Sample.

Definition quoted (s : string) : string := DQ ++ s ++ DQ.

(** A member of an object, and an object of members. *)
Definition member (key value : string) : string :=
  quoted key ++ ":" ++ value.

Definition object (members : list string) : string :=
  "{" ++ String.concat "," members ++ "}".

(** An answer of NewsAPI: ten results, two of them listed. *)
Definition newsBody : string :=
  object
    [member "status" (quoted "ok");
     member "totalResults" "10";
     member "articles"
       ("["
        ++ object
             [member "source"
                (object [member "id" "null"; member "name" (quoted "BBC")]);
              member "title" (quoted "Go 1.22");
              member "url" (quoted "http://a/1");
              member "publishedAt" (quoted "2024-02-29T10:00:00Z")]
        ++ ","
        ++ object
             [member "title" (quoted "Rocq 9");
              member "url" (quoted "http://a/2")]
        ++ "]")].

(** A rule list in the object store: ten results are above the limit of
    the first rule and not of the second; the third leaves its limit
    out. *)
Definition rulesBlob : string :=
  "["
  ++ object [member "keyword" (quoted "go"); member "noticeLowerLimit" "5"]
  ++ ","
  ++ object [member "keyword" (quoted "rust");
             member "noticeLowerLimit" "50"]
  ++ ","
  ++ object [member "keyword" (quoted "coq")]
  ++ "]".

Definition env : Env.t := Env.mk "KEY" "https://hooks.slack.com/services/T".

(** 2024-03-01 00:00:00 UTC, nine o'clock in the morning in Tokyo. *)
Definition now : Z := 1709251200.

Definition tokyo : time.Location := time.mkLocation "Asia/Tokyo" 32400.

(** NewsAPI answers every query with [newsBody], the webhook every POST
    with [postStatus]; the object store holds [blob]. *)
Definition outside (postStatus : Z) (blob : string) : Oracle :=
  mkOracle
    (fun _ => inr env)
    now
    (fun _ => inr tokyo)
    (fun _ => true)
    (fun _ _ => None)
    (fun _ r =>
       if String.eqb (http.Method r) "GET"
       then inr (http.mkResponse 200 (inr newsBody))
       else inr (http.mkResponse postStatus (inr "ok")))
    None
    (fun _ _ => inr blob).

Definition startWith (blob : string) : World := mkWorld (outside 200 blob) [].

Definition start (postStatus : Z) : World :=
  mkWorld (outside postStatus rulesBlob) [].

(** A request with the keyword inline, and one pointing to the store. *)
Definition inlineRequest : RequestParameter.t :=
  RequestParameter.mk "" "" "" "" "go" 3.

Definition storeRequest : RequestParameter.t :=
  RequestParameter.mk "2024-02-01" "2024-02-29" "bucket" "rules.json" "" 0.

Definition goRule : PickupKey.t := PickupKey.mk "go" 5.
Definition rustRule : PickupKey.t := PickupKey.mk "rust" 50.
Definition coqRule : PickupKey.t := PickupKey.mk "coq" 0.

Definition articles : list Article.t :=
  [Article.mk (Source.mk "" "BBC") "" "Go 1.22" "" "http://a/1" ""
     "2024-02-29T10:00:00Z" "";
   Article.mk Source.zero "" "Rocq 9" "" "http://a/2" "" "" ""].

Definition news : NewsAPIRespons.t := NewsAPIRespons.mk "ok" 10 articles.

(** The rule list of the specification's example. *)
Definition oneRuleBlob : string :=
  "["
  ++ object [member "keyword" (quoted "x"); member "noticeLowerLimit" "5"]
  ++ "]".

(** A message with quotes and a backslash in it. *)
Definition quoting : string := "say " ++ quoted "hi" ++ " \ twice".

(** The worlds of a run on [storeRequest]: after the rules are loaded,
    after the turn of the first rule, after the query of the second. *)
Definition afterLoad : World :=
  worldOf (loadPickupKeys storeRequest (start 200)).

Definition afterGo : World :=
  worldOf (loopBody env storeRequest goRule afterLoad).

Definition afterRust : World :=
  worldOf (queryNewsAPI env storeRequest rustRule afterGo).

End Sample.

(** ** Relations between worlds *)

(** [w'] comes after [w]: the same outside, and the requests [rs] made in
    between. *)
Definition after (w w' : World) (rs : list http.Request) : Prop :=
  oracle w' = oracle w
  /\ exists tr, trace w' = (trace w ++ tr)%list /\ sent tr = rs.

(** [w'] is [w] but for the status codes of the webhook: the outside of
    [w'] answers as that of [w] with the codes of [f], and the same
    requests were made. *)
Definition alike (f : list http.Request -> http.Request -> Z)
    (w w' : World) : Prop :=
  oracle w' = withPostStatus f (oracle w)
  /\ sent (trace w') = sent (trace w).

(** [m'] in a world like that of [m] ends the same way, in a like world. *)
Definition simulates {A : Type}
    (f : list http.Request -> http.Request -> Z) (m m' : Go A) : Prop :=
  forall w w', alike f w w' ->
    resultOf (m w) = resultOf (m' w')
    /\ alike f (worldOf (m w)) (worldOf (m' w')).

(** ** What every run has in common *)

(** [m] exits with status 1 only, and only right after printing an
    error. *)
Definition exitsFatally {A : Type} (m : Go A) : Prop :=
  forall w code w',
    m w = Exit code w' ->
    code = 1 /\ exists tr err, trace w' = (tr ++ [EvPrintln err])%list.

(** [m] leaves the outside as it is, and what it adds to the trace
    satisfies [P]. *)
Definition emits {A : Type} (P : list Event -> Prop) (m : Go A) : Prop :=
  forall w,
    oracle (worldOf (m w)) = oracle w
    /\ exists tr, trace (worldOf (m w)) = (trace w ++ tr)%list /\ P tr.

(** The events of the loop: news queries for the given date range, posts
    to the configured webhook, and lines on the standard output. *)
Definition loopEvent (env : Env.t) (p : RequestParameter.t) (e : Event)
  : Prop :=
  match e with
  | EvHTTP r =>
      (exists key, r = newsRequest env p key)
      \/ (exists message, r = slackRequest env message)
  | EvS3Get _ _ => False
  | EvPrintln _ | EvPrintf _ => True
  end.

(** The events of a whole run: those of the loop, for the configuration
    read from the environment, and reading the object the request names. *)
Definition runEvent (o : Oracle) (rp : RequestParameter.t) (e : Event)
  : Prop :=
  match e with
  | EvHTTP r =>
      exists env,
        envconfig_Process o "pickupnews" = inr env
        /\ ((exists p key, r = newsRequest env p key)
            \/ (exists message, r = slackRequest env message))
  | EvS3Get bucket key =>
      bucket = RequestParameter.S3BacketName rp
      /\ key = RequestParameter.S3ObjectKey rp
  | EvPrintln _ | EvPrintf _ => True
  end.

(** What loading the rules adds to the trace: nothing, or one read of the
    named object, followed at most by the error that ends the run. *)
Definition loadEvents (rp : RequestParameter.t) (tr : list Event) : Prop :=
  let bucket := RequestParameter.S3BacketName rp in
  let key := RequestParameter.S3ObjectKey rp in
  tr = []
  \/ (bucket <> "" /\ key <> ""
      /\ (tr = [EvS3Get bucket key]
          \/ exists err, tr = [EvS3Get bucket key; EvPrintln err])).

(** The requests of the loop on [keys] when the notifications carry
    [msgs]: a query then a notification for each rule in turn, and the
    query alone for the rules that are left without a message. *)
Fixpoint alternate (env : Env.t) (p : RequestParameter.t)
    (keys : list PickupKey.t) (msgs : list string) : list http.Request :=
  match keys, msgs with
  | [], _ => []
  | key :: keys', [] => newsRequest env p key :: alternate env p keys' []
  | key :: keys', msg :: msgs' =>
      newsRequest env p key :: slackRequest env msg
      :: alternate env p keys' msgs'
  end.

(** The objects read from the store, oldest first. *)
Fixpoint storeReads (tr : list Event) : list (string * string) :=
  match tr with
  | [] => []
  | EvS3Get bucket key :: tr' => (bucket, key) :: storeReads tr'
  | _ :: tr' => storeReads tr'
  end.

(** ** Texts *)

Fixpoint allChars (P : ascii -> bool) (s : string) : bool :=
  match s with
  | EmptyString => true
  | String c s' => P c && allChars P s'
  end.

(** Neither a double quote nor a backslash. *)
Definition isPlain (c : ascii) : bool :=
  negb (byte_val c =? 34) && negb (byte_val c =? 92).

(** No control character. *)
Definition isPrintable (c : ascii) : bool := 32 <=? byte_val c.

(** What an escaped query value is made of: letters, digits, the marks
    [-_.~], [+] for a space and [%] before two hexadecimal digits. *)
Definition isQueryChar (c : ascii) : bool :=
  url.isAlnum c
  || Ascii.eqb c "-" || Ascii.eqb c "_" || Ascii.eqb c "." || Ascii.eqb c "~"
  || Ascii.eqb c "+" || Ascii.eqb c "%".

(** Reading an escaped text back: [+] is a space, [%] and two hexadecimal
    digits are one byte, any other character is itself. *)
Definition unhex (c : ascii) : Z :=
  let n := byte_val c in if n <? 58 then n - 48 else n - 55.

Fixpoint unescapeQuery (s : string) : string :=
  match s with
  | EmptyString => EmptyString
  | String c s' =>
      if Ascii.eqb c "+" then String " " (unescapeQuery s')
      else if Ascii.eqb c "%" then
        match s' with
        | String h (String l s'') =>
            String (byte_of (16 * unhex h + unhex l)) (unescapeQuery s'')
        | _ => EmptyString
        end
      else String c (unescapeQuery s')
  end.

(** What the handler reads of a decoded response. *)
Definition digest (naResp : NewsAPIRespons.t) : Z * list (string * string) :=
  (NewsAPIRespons.TotalResults naResp,
   map (fun a => (Article.Title a, Article.URL a))
     (NewsAPIRespons.Articles naResp)).

(** The outside with other status codes in all its answers. *)
Definition withStatus (f : list http.Request -> http.Request -> Z)
    (o : Oracle) : Oracle :=
  mkOracle (envconfig_Process o) (time_Now o) (time_LoadLocation o)
    (time_UnmarshalJSON o) (http_NewRequest o)
    (fun h r =>
       match http_Do o h r with
       | inr resp => inr (http.mkResponse (f h r) (http.RespBody resp))
       | inl e => inl e
       end)
    (session_New o) (s3_GetObject o).

Definition alikeButStatus (f : list http.Request -> http.Request -> Z)
    (w w' : World) : Prop :=
  oracle w' = withStatus f (oracle w)
  /\ sent (trace w') = sent (trace w).

Definition simulatesButStatus {A : Type}
    (f : list http.Request -> http.Request -> Z) (m m' : Go A) : Prop :=
  forall w w', alikeButStatus f w w' ->
    resultOf (m w) = resultOf (m' w')
    /\ alikeButStatus f (worldOf (m w)) (worldOf (m' w')).

(** ** Sample outsides that fail *)

Module Faulty.

(** The sample outside with an object store that holds nothing. *)
Definition emptyStore : Oracle :=
  let o := Sample.outside 200 Sample.rulesBlob in
  mkOracle (envconfig_Process o) (time_Now o) (time_LoadLocation o)
    (time_UnmarshalJSON o) (http_NewRequest o) (http_Do o) (session_New o)
    (fun _ _ => inl (LibError "NoSuchKey")).

(** The sample outside where NewsAPI answers every query with [status]
    and [body]. *)
Definition newsAnswers (status : Z) (body : string) : Oracle :=
  let o := Sample.outside 200 Sample.rulesBlob in
  mkOracle (envconfig_Process o) (time_Now o) (time_LoadLocation o)
    (time_UnmarshalJSON o) (http_NewRequest o)
    (fun h r =>
       if String.eqb (http.Method r) "GET"
       then inr (http.mkResponse status (inr body))
       else http_Do o h r)
    (session_New o) (s3_GetObject o).

(** What NewsAPI answers to a request it refuses. *)
Definition errorBody : string :=
  Sample.object
    [Sample.member "status" (Sample.quoted "error");
     Sample.member "code" (Sample.quoted "apiKeyInvalid");
     Sample.member "message" (Sample.quoted "Your API key is invalid.")].

(** A rule list whose second entry gives its limit as a string. *)
Definition badRulesBlob : string :=
  "["
  ++ Sample.object [Sample.member "keyword" (Sample.quoted "go");
                    Sample.member "noticeLowerLimit" "5"]
  ++ ","
  ++ Sample.object [Sample.member "keyword" (Sample.quoted "rust");
                    Sample.member "noticeLowerLimit" (Sample.quoted "50")]
  ++ "]".

End Faulty.

#[local] Open Scope list_scope.

(** * Properties *)

(** ** The [Go] monad *)

Section Monad.
Context {A B C : Type}.

Lemma bind_ret_l (a : A) (k : A -> Go B) (w : World) :
  bind (ret a) k w = k a w.
Proof. reflexivity. Qed.

Lemma bind_ret_r (m : Go A) (w : World) : bind m ret w = m w.
Proof. unfold bind, ret. destruct (m w); reflexivity. Qed.

Lemma bind_assoc (m : Go A) (k : A -> Go B) (h : B -> Go C) (w : World) :
  bind (bind m k) h w = bind m (fun a => bind (k a) h) w.
Proof. unfold bind. destruct (m w); reflexivity. Qed.

Lemma bind_Done (m : Go A) (k : A -> Go B) (w w' : World) (a : A) :
  m w = Done a w' -> bind m k w = k a w'.
Proof. unfold bind. intros ->. reflexivity. Qed.

(** A computation that yields a value went through both of its parts. *)
Lemma bind_Done_inv (m : Go A) (k : A -> Go B) (w w2 : World) (b : B) :
  bind m k w = Done b w2 ->
  exists a w1, m w = Done a w1 /\ k a w1 = Done b w2.
Proof.
  unfold bind. destruct (m w) as [a w1|code w1|w1]; try discriminate.
  intros H. exists a, w1. split; [reflexivity | exact H].
Qed.
End Monad.

(** ** Traces *)

Lemma sent_app (t1 t2 : list Event) : sent (t1 ++ t2) = sent t1 ++ sent t2.
Proof.
  induction t1 as [|e t1 IH]; [reflexivity|].
  destruct e; cbn [sent app]; rewrite IH; reflexivity.
Qed.

Lemma after_refl (w : World) : after w w [].
Proof. split; [reflexivity|]. exists []. now rewrite app_nil_r. Qed.

Lemma after_trans (w1 w2 w3 : World) (rs rs' : list http.Request) :
  after w1 w2 rs -> after w2 w3 rs' -> after w1 w3 (rs ++ rs').
Proof.
  intros [Ho (tr & Ht & Hs)] [Ho' (tr' & Ht' & Hs')]. split.
  - congruence.
  - exists (tr ++ tr'). rewrite Ht', Ht, app_assoc, sent_app. now subst.
Qed.

Lemma after_sent (w w' : World) (rs : list http.Request) :
  after w w' rs -> sent (trace w') = sent (trace w) ++ rs.
Proof. intros [_ (tr & -> & <-)]. apply sent_app. Qed.

Lemma after_queries (w w' : World) (rs : list http.Request) :
  after w w' rs ->
  queries w' =
  queries w ++ filter (fun r => String.eqb (http.Method r) "GET") rs.
Proof.
  intros H. unfold queries. rewrite (after_sent _ _ _ H). apply filter_app.
Qed.

Lemma after_notifications (w w' : World) (rs : list http.Request) :
  after w w' rs ->
  notifications w' =
  notifications w ++ filter (fun r => String.eqb (http.Method r) "POST") rs.
Proof.
  intros H. unfold notifications. rewrite (after_sent _ _ _ H).
  apply filter_app.
Qed.

Lemma after_emit (w : World) (e : Event) :
  after w (mkWorld (oracle w) (trace w ++ [e])) (sent [e]).
Proof. split; [reflexivity|]. exists [e]. split; reflexivity. Qed.

(** ** Strings *)

Lemma append_assoc (a b c : string) : ((a ++ b) ++ c = a ++ (b ++ c))%string.
Proof. induction a as [|x a IH]; cbn; [reflexivity | now rewrite IH]. Qed.

Lemma append_nil_r (a : string) : (a ++ "" = a)%string.
Proof. induction a as [|x a IH]; cbn; [reflexivity | now rewrite IH]. Qed.

(** The inner loop of the handler writes the lines of the specification,
    numbered from the successor of its counter. *)
Lemma writeArticles_lines (articles : list Article.t) :
  forall (i : Z) (buf : string),
    writeArticles i articles buf
    = (buf ++ String.concat "" (articleLines (i + 1) articles))%string.
Proof.
  induction articles as [|a rest IH]; intros i buf.
  - cbn. now rewrite append_nil_r.
  - cbn [writeArticles articleLines]. rewrite IH. unfold WriteString.
    assert (Hc : forall x l, String.concat "" (x :: l)
                             = (x ++ String.concat "" l)%string).
    { intros x [|y l]; cbn; [now rewrite append_nil_r | reflexivity]. }
    rewrite Hc. unfold articleLine.
    repeat rewrite append_assoc. reflexivity.
Qed.

(** ** The Notifier *)

(** The request built by [notificationSlack] is the one the specification
    describes. *)
Lemma notificationSlack_unfold (env : Env.t) (message : string) (w : World) :
  notificationSlack env message w
  = (bad <- ask (fun o => http_NewRequest o "POST" (Env.WebhookURL env)) ;;
     match bad with
     | Some err => fmt_Println err ;; os_Exit 1
     | None =>
         r <- client_Do (slackRequest env message) ;;
         match r with
         | inl err => fmt_Println err ;; os_Exit 1
         | inr resp =>
             if http.StatusCode resp =? 200 then ret tt
             else fmt_Printf ("Unable to post this url : http status is "
                              ++ strconv.Itoa (http.StatusCode resp)
                              ++ " " ++ LF)%string
         end
     end) w.
Proof. reflexivity. Qed.

Section Notifier.
Variables (env : Env.t) (message : string) (w : World).

Let req : http.Request := slackRequest env message.

(** No request can be built for the webhook URL: the run ends. *)
Lemma notificationSlack_rejected (err : error) :
  http_NewRequest (oracle w) "POST" (Env.WebhookURL env) = Some err ->
  notificationSlack env message w
  = Exit 1 (mkWorld (oracle w) (trace w ++ [EvPrintln err])).
Proof.
  intros H. rewrite notificationSlack_unfold. unfold bind, ask.
  rewrite H. reflexivity.
Qed.

Hypothesis accepted :
  http_NewRequest (oracle w) "POST" (Env.WebhookURL env) = None.

Lemma notificationSlack_failed (err : error) :
  http_Do (oracle w) (sent (trace w)) req = inl err ->
  notificationSlack env message w
  = Exit 1 (mkWorld (oracle w)
              ((trace w ++ [EvHTTP req]) ++ [EvPrintln err])).
Proof.
  intros H. rewrite notificationSlack_unfold. unfold bind, ask, client_Do.
  rewrite accepted. fold req. rewrite H. reflexivity.
Qed.

Lemma notificationSlack_ok (resp : http.Response) :
  http_Do (oracle w) (sent (trace w)) req = inr resp ->
  http.StatusCode resp = 200 ->
  notificationSlack env message w
  = Done tt (mkWorld (oracle w) (trace w ++ [EvHTTP req])).
Proof.
  intros H H200. rewrite notificationSlack_unfold.
  unfold bind, ask, client_Do.
  rewrite accepted. fold req. rewrite H, H200. reflexivity.
Qed.

(** Any other status is reported on the standard output, and that is
    all. *)
Lemma notificationSlack_warned (resp : http.Response) :
  http_Do (oracle w) (sent (trace w)) req = inr resp ->
  http.StatusCode resp <> 200 ->
  notificationSlack env message w
  = Done tt
      (mkWorld (oracle w)
         ((trace w ++ [EvHTTP req])
          ++ [EvPrintf ("Unable to post this url : http status is "
                        ++ strconv.Itoa (http.StatusCode resp)
                        ++ " " ++ LF)%string])).
Proof.
  intros H Hne. rewrite notificationSlack_unfold.
  unfold bind, ask, client_Do.
  rewrite accepted. fold req. rewrite H.
  destruct (Z.eqb_spec (http.StatusCode resp) 200) as [E|_];
    [contradiction | reflexivity].
Qed.

(** Whatever the answer, exactly the request of the specification went
    out. *)
Lemma notificationSlack_after :
  after w (worldOf (notificationSlack env message w)) [req].
Proof.
  destruct (http_Do (oracle w) (sent (trace w)) req) as [err|resp] eqn:Hdo.
  - rewrite (notificationSlack_failed err Hdo). cbn [worldOf].
    split; [reflexivity|]. exists [EvHTTP req; EvPrintln err].
    split; [cbn [oracle trace]; now rewrite <- app_assoc | reflexivity].
  - destruct (Z.eq_dec (http.StatusCode resp) 200) as [E|Hne].
    + rewrite (notificationSlack_ok resp Hdo E). apply after_emit.
    + rewrite (notificationSlack_warned resp Hdo Hne). cbn [worldOf].
      split; [reflexivity|]. eexists [EvHTTP req; EvPrintf _].
      split; [cbn [oracle trace]; now rewrite <- app_assoc | reflexivity].
Qed.
End Notifier.

Lemma notificationSlack_Done (env : Env.t) (message : string)
    (w w' : World) (u : unit) :
  notificationSlack env message w = Done u w' ->
  http_NewRequest (oracle w) "POST" (Env.WebhookURL env) = None
  /\ after w w' [slackRequest env message].
Proof.
  intros H.
  destruct (http_NewRequest (oracle w) "POST" (Env.WebhookURL env))
    as [err|] eqn:Hnew.
  - rewrite (notificationSlack_rejected env message w err Hnew) in H.
    discriminate.
  - split; [reflexivity|].
    pose proof (notificationSlack_after env message w Hnew) as Ha.
    rewrite H in Ha. exact Ha.
Qed.

(** ** One turn of the loop *)

(** Printing does not count as a request. *)
Lemma after_print (w : World) (o : Oracle) (tr : list Event)
    (rs : list http.Request) (e : Event) :
  after w (mkWorld o tr) rs -> sent [e] = [] ->
  after w (mkWorld o (tr ++ [e])) rs.
Proof.
  intros Ha He. rewrite <- (app_nil_r rs), <- He.
  eapply after_trans; [exact Ha | apply (after_emit (mkWorld o tr))].
Qed.

(** Whatever happens to a query, its request is the only one made. *)
Lemma queryNewsAPI_after (env : Env.t) (p : RequestParameter.t)
    (key : PickupKey.t) (w : World) :
  after w (worldOf (queryNewsAPI env p key w)) [newsRequest env p key].
Proof.
  unfold queryNewsAPI, bind, client_Do, fmt_Println, fmt_Printf, emit,
    os_Exit, ask, ret.
  set (rq := newsRequest env p key).
  assert (H1 : after w (mkWorld (oracle w) (trace w ++ [EvHTTP rq])) [rq])
    by apply after_emit.
  destruct (http_Do (oracle w) (sent (trace w)) rq) as [err|resp].
  - cbn [worldOf]. now apply after_print.
  - destruct (http.StatusCode resp =? 200);
      destruct (http.RespBody resp) as [err|body];
      try destruct (json.Unmarshal _ _ body) as [err|r];
      cbn [worldOf oracle trace];
      repeat (try exact H1; apply after_print; [|reflexivity]);
      exact H1.
Qed.

Section Turn.
Variables (env : Env.t) (p : RequestParameter.t) (key : PickupKey.t).

Lemma queries_news :
  filter (fun r => String.eqb (http.Method r) "GET") [newsRequest env p key]
  = [newsRequest env p key].
Proof. reflexivity. Qed.

Lemma notifications_news :
  filter (fun r => String.eqb (http.Method r) "POST")
    [newsRequest env p key] = [].
Proof. reflexivity. Qed.

Lemma queryNewsAPI_Done (w w1 : World) (r : option NewsAPIRespons.t) :
  queryNewsAPI env p key w = Done r w1 ->
  after w w1 [newsRequest env p key].
Proof.
  intros H. pose proof (queryNewsAPI_after env p key w) as Ha.
  now rewrite H in Ha.
Qed.

(** The text handed to the Notifier is the message of the
    specification. *)
Lemma message_eq (naResp : NewsAPIRespons.t) :
  (messageHeader p key (NewsAPIRespons.TotalResults naResp)
   ++ writeArticles 0 (NewsAPIRespons.Articles naResp) "")%string
  = notificationMessage p key naResp.
Proof.
  rewrite writeArticles_lines. change (0 + 1) with 1.
  unfold messageHeader, notificationMessage.
  rewrite !append_assoc. reflexivity.
Qed.

Lemma handleResponse_below (naResp : NewsAPIRespons.t) (w : World) :
  NewsAPIRespons.TotalResults naResp <= PickupKey.NoticeLowerLimit key ->
  handleResponse env p key (Some naResp) w
  = Done (Some (belowLimitMessage (NewsAPIRespons.TotalResults naResp)
                  (PickupKey.NoticeLowerLimit key))) w.
Proof.
  intros H. unfold handleResponse.
  destruct (Z.leb_spec (NewsAPIRespons.TotalResults naResp)
              (PickupKey.NoticeLowerLimit key)); [reflexivity | lia].
Qed.

Lemma handleResponse_above (naResp : NewsAPIRespons.t) (w : World) :
  PickupKey.NoticeLowerLimit key < NewsAPIRespons.TotalResults naResp ->
  handleResponse env p key (Some naResp) w
  = (notificationSlack env (notificationMessage p key naResp) ;;
     ret None) w.
Proof.
  intros H. unfold handleResponse.
  destruct (Z.leb_spec (NewsAPIRespons.TotalResults naResp)
              (PickupKey.NoticeLowerLimit key)); [lia|].
  rewrite message_eq. reflexivity.
Qed.

(** A turn after which the loop goes on: the response was above the
    limit and the Notifier came back. *)
Lemma loopBody_Done_None (w w' : World) :
  loopBody env p key w = Done None w' ->
  exists naResp w1,
    queryNewsAPI env p key w = Done (Some naResp) w1
    /\ PickupKey.NoticeLowerLimit key < NewsAPIRespons.TotalResults naResp
    /\ notificationSlack env (notificationMessage p key naResp) w1
       = Done tt w'.
Proof.
  intros H. unfold loopBody in H.
  apply bind_Done_inv in H as (r & w1 & Hq & Hh).
  destruct r as [naResp|]; [|discriminate].
  exists naResp, w1. split; [exact Hq|].
  destruct (Z.le_gt_cases (NewsAPIRespons.TotalResults naResp)
              (PickupKey.NoticeLowerLimit key)) as [Hle|Hgt].
  - rewrite (handleResponse_below naResp w1 Hle) in Hh. discriminate.
  - split; [exact Hgt|].
    rewrite (handleResponse_above naResp w1 Hgt) in Hh.
    apply bind_Done_inv in Hh as ([] & w2 & Hn & Hr).
    inversion Hr; subst. exact Hn.
Qed.

(** A turn that ends the run with a string: the response was at or below
    the limit, and nothing happened after the query. *)
Lemma loopBody_Done_Some (w w' : World) (s : string) :
  loopBody env p key w = Done (Some s) w' ->
  exists naResp,
    queryNewsAPI env p key w = Done (Some naResp) w'
    /\ NewsAPIRespons.TotalResults naResp <= PickupKey.NoticeLowerLimit key
    /\ s = belowLimitMessage (NewsAPIRespons.TotalResults naResp)
             (PickupKey.NoticeLowerLimit key).
Proof.
  intros H. unfold loopBody in H.
  apply bind_Done_inv in H as (r & w1 & Hq & Hh).
  destruct r as [naResp|]; [|discriminate].
  exists naResp.
  destruct (Z.le_gt_cases (NewsAPIRespons.TotalResults naResp)
              (PickupKey.NoticeLowerLimit key)) as [Hle|Hgt].
  - rewrite (handleResponse_below naResp w1 Hle) in Hh.
    inversion Hh; subst. auto.
  - rewrite (handleResponse_above naResp w1 Hgt) in Hh.
    apply bind_Done_inv in Hh as ([] & w2 & Hn & Hr). discriminate.
Qed.

Lemma loopBody_below (w w1 : World) (naResp : NewsAPIRespons.t) :
  queryNewsAPI env p key w = Done (Some naResp) w1 ->
  NewsAPIRespons.TotalResults naResp <= PickupKey.NoticeLowerLimit key ->
  loopBody env p key w
  = Done (Some (belowLimitMessage (NewsAPIRespons.TotalResults naResp)
                  (PickupKey.NoticeLowerLimit key))) w1.
Proof.
  intros Hq Hle. unfold loopBody. rewrite (bind_Done _ _ _ _ _ Hq).
  now apply handleResponse_below.
Qed.

Lemma loopBody_above (w w1 : World) (naResp : NewsAPIRespons.t) :
  queryNewsAPI env p key w = Done (Some naResp) w1 ->
  PickupKey.NoticeLowerLimit key < NewsAPIRespons.TotalResults naResp ->
  loopBody env p key w
  = (notificationSlack env (notificationMessage p key naResp) ;;
     ret None) w1.
Proof.
  intros Hq Hgt. unfold loopBody. rewrite (bind_Done _ _ _ _ _ Hq).
  now apply handleResponse_above.
Qed.
End Turn.

(** ** The loop *)

Section Loop.
Variables (env : Env.t) (p : RequestParameter.t).

(** Keys after which the loop goes on do not change what follows. *)
Lemma rangeKeys_app (pre rest : list PickupKey.t) :
  forall w w1,
    rangeKeys env p pre w = Done None w1 ->
    rangeKeys env p (pre ++ rest) w = rangeKeys env p rest w1.
Proof.
  induction pre as [|k pre IH]; intros w w1 H.
  - cbn in H. inversion H; subst. reflexivity.
  - cbn [rangeKeys app] in *.
    apply bind_Done_inv in H as (r & w2 & Hb & Hr).
    rewrite (bind_Done _ _ _ _ _ Hb).
    destruct r as [s|]; [discriminate|]. now apply IH.
Qed.

(** A loop that runs to its end has queried every key, in order, and
    notified once for each. *)
Lemma rangeKeys_Done_None (keys : list PickupKey.t) :
  forall w w',
    rangeKeys env p keys w = Done None w' ->
    oracle w' = oracle w
    /\ queries w' = queries w ++ map (newsRequest env p) keys
    /\ List.length (notifications w')
       = (List.length (notifications w) + List.length keys)%nat.
Proof.
  induction keys as [|k keys IH]; intros w w' H.
  - cbn in H. inversion H; subst.
    rewrite app_nil_r. cbn. auto with arith.
  - cbn [rangeKeys] in H.
    apply bind_Done_inv in H as (r & w2 & Hb & Hr).
    destruct r as [s|]; [discriminate|].
    apply loopBody_Done_None in Hb as (naResp & w1 & Hq & _ & Hn).
    apply queryNewsAPI_Done in Hq.
    apply notificationSlack_Done in Hn as [_ Hn].
    pose proof (after_trans _ _ _ _ _ Hq Hn) as Ha.
    destruct (IH _ _ Hr) as (Ho & Hqs & Hns).
    split; [rewrite Ho; apply Ha|].
    rewrite Hqs, Hns, (after_queries _ _ _ Ha),
      (after_notifications _ _ _ Ha).
    cbn. rewrite <- app_assoc, length_app. cbn. split; [reflexivity | lia].
Qed.
End Loop.

(** ** The handler *)

Section Run.
Variables (rp p : RequestParameter.t) (env : Env.t)
  (keys : list PickupKey.t) (w w0 w1 : World).

Hypothesis Henv : envconfig_Process (oracle w) "pickupnews" = inr env.
Hypothesis Hinit : initRequestParameter rp w = Done p w0.
Hypothesis Hload : loadPickupKeys p w0 = Done keys w1.

(** Once the configuration is read, the handler is its loop. *)
Lemma HandleRequest_run :
  HandleRequest rp w
  = (r <- rangeKeys env p keys ;;
     match r with
     | Some s => ret (s, None)
     | None => ret ("Success notification.", None)
     end) w1.
Proof.
  unfold HandleRequest. unfold bind at 1. unfold ask at 1. rewrite Henv.
  rewrite (bind_Done _ _ _ _ _ Hinit), (bind_Done _ _ _ _ _ Hload).
  reflexivity.
Qed.

End Run.

(** The run ends at the first key whose response is at or below its limit,
    whatever keys come after it. *)
Lemma HandleRequest_early
    (rp p : RequestParameter.t) (env : Env.t) (w w0 w1 w2 w3 : World)
    (pre post : list PickupKey.t) (key : PickupKey.t)
    (naResp : NewsAPIRespons.t) :
  envconfig_Process (oracle w) "pickupnews" = inr env ->
  initRequestParameter rp w = Done p w0 ->
  loadPickupKeys p w0 = Done (pre ++ key :: post) w1 ->
  rangeKeys env p pre w1 = Done None w2 ->
  queryNewsAPI env p key w2 = Done (Some naResp) w3 ->
  NewsAPIRespons.TotalResults naResp <= PickupKey.NoticeLowerLimit key ->
  HandleRequest rp w
  = Done (belowLimitMessage (NewsAPIRespons.TotalResults naResp)
            (PickupKey.NoticeLowerLimit key), None) w3.
Proof.
  intros Henv Hinit Hload Hpre Hq Hle.
  rewrite (HandleRequest_run rp p env _ w w0 w1 Henv Hinit Hload).
  unfold bind at 1. rewrite (rangeKeys_app env p pre _ _ _ Hpre).
  cbn [rangeKeys]. unfold bind at 1.
  rewrite (loopBody_below env p key _ _ _ Hq Hle). reflexivity.
Qed.

(** C1.  Processing stops at the first keyword rule whose totalResults is
    at or below its noticeLowerLimit: with the rules [pre ++ key :: post],
    the rules of [pre] all above their limits and [key] not, the handler
    returns at [key], in the world right after the query of [key]; the
    news queries of the run are those of [pre] and of [key], in order, the
    notifications those of [pre], and nothing depends on [post]. *)
Theorem early_return_stops_the_run
    (rp p : RequestParameter.t) (env : Env.t) (w w0 w1 w2 w3 : World)
    (pre post : list PickupKey.t) (key : PickupKey.t)
    (naResp : NewsAPIRespons.t) :
  envconfig_Process (oracle w) "pickupnews" = inr env ->
  initRequestParameter rp w = Done p w0 ->
  loadPickupKeys p w0 = Done (pre ++ key :: post) w1 ->
  rangeKeys env p pre w1 = Done None w2 ->
  queryNewsAPI env p key w2 = Done (Some naResp) w3 ->
  NewsAPIRespons.TotalResults naResp <= PickupKey.NoticeLowerLimit key ->
  HandleRequest rp w
  = Done (belowLimitMessage (NewsAPIRespons.TotalResults naResp)
            (PickupKey.NoticeLowerLimit key), None) w3
  /\ queries w3 = queries w1 ++ map (newsRequest env p) (pre ++ [key])
  /\ List.length (notifications w3)
     = (List.length (notifications w1) + List.length pre)%nat.
Proof.
  intros Henv Hinit Hload Hpre Hq Hle.
  split.
  - apply (HandleRequest_early rp p env w w0 w1 w2 w3 pre post key naResp
             Henv Hinit Hload Hpre Hq Hle).
  - destruct (rangeKeys_Done_None env p pre _ _ Hpre) as (_ & Hqs & Hns).
    apply queryNewsAPI_Done in Hq.
    rewrite (after_queries _ _ _ Hq), (after_notifications _ _ _ Hq).
    rewrite queries_news, notifications_news, app_nil_r, Hqs, Hns.
    rewrite map_app, <- app_assoc. split; reflexivity.
Qed.

(** C2.  At a keyword rule whose decoded totalResults is at most its
    noticeLowerLimit the handler returns the "TotalResult is lower
    NoticeLowerLimit." line with the two integers, and a nil error; the
    only request made for that keyword is its news query, so the notifier
    was not called for it. *)
Theorem below_limit_returns_message
    (rp p : RequestParameter.t) (env : Env.t) (w w0 w1 w2 w3 : World)
    (pre post : list PickupKey.t) (key : PickupKey.t)
    (naResp : NewsAPIRespons.t) :
  envconfig_Process (oracle w) "pickupnews" = inr env ->
  initRequestParameter rp w = Done p w0 ->
  loadPickupKeys p w0 = Done (pre ++ key :: post) w1 ->
  rangeKeys env p pre w1 = Done None w2 ->
  queryNewsAPI env p key w2 = Done (Some naResp) w3 ->
  NewsAPIRespons.TotalResults naResp <= PickupKey.NoticeLowerLimit key ->
  HandleRequest rp w
  = Done (("TotalResult is lower NoticeLowerLimit. TotalResult:"
           ++ strconv.Itoa (NewsAPIRespons.TotalResults naResp)
           ++ ", NoticeLowerLimit:"
           ++ strconv.Itoa (PickupKey.NoticeLowerLimit key) ++ LF)%string,
          None) w3
  /\ sent (trace w3) = sent (trace w2) ++ [newsRequest env p key]
  /\ notifications w3 = notifications w2.
Proof.
  intros Henv Hinit Hload Hpre Hq Hle.
  split.
  - apply (HandleRequest_early rp p env w w0 w1 w2 w3 pre post key naResp
             Henv Hinit Hload Hpre Hq Hle).
  - apply queryNewsAPI_Done in Hq.
    rewrite (after_sent _ _ _ Hq), (after_notifications _ _ _ Hq).
    now rewrite notifications_news, app_nil_r.
Qed.

(** C3.  When the decoded totalResults is above the rule's
    noticeLowerLimit, the rest of the turn is one call of the notifier,
    with the header line followed by one numbered line per article in the
    order of the response; when a request can be built for the webhook,
    exactly one notification is made in the turn, carrying that message. *)
Theorem above_limit_notifies_once
    (env : Env.t) (p : RequestParameter.t) (key : PickupKey.t)
    (w w1 : World) (naResp : NewsAPIRespons.t) :
  queryNewsAPI env p key w = Done (Some naResp) w1 ->
  PickupKey.NoticeLowerLimit key < NewsAPIRespons.TotalResults naResp ->
  let message :=
    ("<!channel> Keyword: " ++ PickupKey.Keyword key ++ " resultCount: "
     ++ strconv.Itoa (NewsAPIRespons.TotalResults naResp)
     ++ " from: " ++ RequestParameter.From p
     ++ " to: " ++ RequestParameter.To p ++ LF
     ++ String.concat ""
          (articleLines 1 (NewsAPIRespons.Articles naResp)))%string in
  loopBody env p key w = (notificationSlack env message ;; ret None) w1
  /\ (http_NewRequest (oracle w) "POST" (Env.WebhookURL env) = None ->
      notifications (worldOf (loopBody env p key w))
      = notifications w ++ [slackRequest env message]).
Proof.
  intros Hq Hgt message.
  assert (Hm : message = notificationMessage p key naResp) by reflexivity.
  rewrite Hm, (loopBody_above env p key w w1 naResp Hq Hgt).
  split; [reflexivity|]. intros Hnew.
  apply queryNewsAPI_Done in Hq.
  assert (Hnew1 : http_NewRequest (oracle w1) "POST" (Env.WebhookURL env)
                  = None) by (destruct Hq as [-> _]; exact Hnew).
  pose proof (notificationSlack_after env (notificationMessage p key naResp)
                w1 Hnew1) as Ha.
  unfold bind at 1.
  destruct (notificationSlack env (notificationMessage p key naResp) w1)
    as [u w2|code w2|w2]; cbn [worldOf ret] in *;
    rewrite (after_notifications _ _ _ (after_trans _ _ _ _ _ Hq Ha));
    reflexivity.
Qed.

(** C8.  For every message, when a request can be built for the configured
    webhook URL, the notifier makes exactly one request: a POST to that
    URL with the header Content-Type: application/json and the body made
    of the opening text, the message as it is, and the closing text. *)
Theorem notifier_posts_raw_message
    (env : Env.t) (message : string) (w : World) :
  http_NewRequest (oracle w) "POST" (Env.WebhookURL env) = None ->
  sent (trace (worldOf (notificationSlack env message w)))
  = sent (trace w)
    ++ [http.mkRequest "POST" (Env.WebhookURL env) None
          [("Content-Type", "application/json")]
          ("{" ++ DQ ++ "text" ++ DQ ++ ":" ++ DQ ++ message ++ DQ ++ "}")%string].
Proof.
  intros Hnew.
  apply (after_sent _ _ _ (notificationSlack_after env message w Hnew)).
Qed.

(** C9.  Whenever the handler returns, its error is nil; and when the rule
    list of the object store cannot be decoded, the handler does not
    return: the process exits with status 1 after printing the error. *)
Theorem HandleRequest_error_is_nil (rp : RequestParameter.t) (w : World) :
  (forall s e w', HandleRequest rp w = Done (s, e) w' -> e = None)
  /\ (forall env p w0 body w1 err,
        envconfig_Process (oracle w) "pickupnews" = inr env ->
        initRequestParameter rp w = Done p w0 ->
        RequestParameter.S3BacketName p <> "" ->
        RequestParameter.S3ObjectKey p <> "" ->
        readS3File p w0 = Done body w1 ->
        json.Unmarshal (json.storeSlice PickupKey.zero PickupKey.store)
          [] body = inl err ->
        HandleRequest rp w
        = Exit 1 (mkWorld (oracle w1)
                    (trace w1 ++ [EvPrintln (JSONError err)]))).
Proof.
  split.
  - intros s e w' H. unfold HandleRequest in H.
    apply bind_Done_inv in H as (r & wa & _ & H).
    destruct r as [err|env].
    + apply bind_Done_inv in H as (? & ? & _ & H). discriminate.
    + apply bind_Done_inv in H as (p & wb & _ & H).
      apply bind_Done_inv in H as (keys & wc & _ & H).
      apply bind_Done_inv in H as (r & wd & _ & H).
      destruct r; inversion H; reflexivity.
  - intros env p w0 body w1 err Henv Hinit Hb Hk Hread Hjson.
    unfold HandleRequest. unfold bind at 1. unfold ask at 1. rewrite Henv.
    rewrite (bind_Done _ _ _ _ _ Hinit). unfold bind at 1.
    unfold loadPickupKeys.
    apply String.eqb_neq in Hb, Hk. rewrite Hb, Hk. cbn [orb].
    rewrite (bind_Done _ _ _ _ _ Hread), Hjson. reflexivity.
Qed.

(** ** The Config Resolver: keyword rules *)

Lemma unquote_keyword : json.unquote "keyword" = "keyword".
Proof. reflexivity. Qed.

Lemma unquote_noticeLowerLimit :
  json.unquote "noticeLowerLimit" = "noticeLowerLimit".
Proof. reflexivity. Qed.

(** The store reads a rule of the blob format as the rule it denotes. *)
Lemma store_rule (j : json.value) (rule : PickupKey.t) :
  IsRule j rule -> PickupKey.store j PickupKey.zero = Some rule.
Proof.
  intros [raw lit n Hn | raw lit n Hn];
    unfold PickupKey.store, json.storeStruct;
    cbn [json.storeMembers];
    rewrite unquote_keyword, unquote_noticeLowerLimit;
    unfold PickupKey.field;
    change (json.keyMatches "keyword" "keyword") with true;
    change (json.keyMatches "keyword" "noticeLowerLimit") with false;
    change (json.keyMatches "noticeLowerLimit" "noticeLowerLimit") with true;
    cbn [json.storeString json.storeInt option_map PickupKey.zero
           PickupKey.Keyword PickupKey.NoticeLowerLimit];
    rewrite Hn; reflexivity.
Qed.

Lemma storeElems_rules (js : list json.value) (rules : list PickupKey.t) :
  Forall2 IsRule js rules ->
  json.storeElems PickupKey.zero PickupKey.store js = Some rules.
Proof.
  induction 1 as [|j rule js rules Hj _ IH]; [reflexivity|].
  cbn [json.storeElems]. now rewrite (store_rule j rule Hj), IH.
Qed.

(** The elements of a stored slice are the stored elements of the array. *)
Lemma storeElems_nth {A : Type} (zero : A) (st : json.Store A)
    (js : list json.value) :
  forall (l : list A) (i : nat) (j : json.value),
    json.storeElems zero st js = Some l ->
    nth_error js i = Some j ->
    exists a, nth_error l i = Some a /\ st j zero = Some a.
Proof.
  induction js as [|j0 js IH]; intros l i j Hs Hn.
  - destruct i; discriminate.
  - cbn [json.storeElems] in Hs.
    destruct (st j0 zero) as [a0|] eqn:H0; [|discriminate].
    destruct (json.storeElems zero st js) as [l0|] eqn:Hl; [|discriminate].
    inversion Hs; subst. destruct i as [|i].
    + inversion Hn; subst. exists a0. auto.
    + cbn [nth_error] in *. now apply (IH l0 i j).
Qed.

(** A member that selects no "noticeLowerLimit" leaves the limit as it
    is. *)
Lemma storeMembers_omitted (ms : list (string * json.value)) :
  forall pk0 pk,
    omitsField "noticeLowerLimit" ms = true ->
    json.storeMembers PickupKey.field ms pk0 = Some pk ->
    PickupKey.NoticeLowerLimit pk = PickupKey.NoticeLowerLimit pk0.
Proof.
  induction ms as [|[k v] ms IH]; intros pk0 pk Ho Hs.
  - inversion Hs. reflexivity.
  - cbn [omitsField forallb fst] in Ho. apply andb_prop in Ho as [Hk Ho].
    apply negb_true_iff in Hk. cbn [json.storeMembers] in Hs.
    destruct (PickupKey.field (json.unquote k) v pk0) as [pk1|] eqn:Hf;
      [|discriminate].
    rewrite (IH pk1 pk Ho Hs).
    unfold PickupKey.field in Hf. rewrite Hk in Hf.
    destruct (json.keyMatches "keyword" (json.unquote k)).
    + destruct (json.storeString v (PickupKey.Keyword pk0));
        inversion Hf; reflexivity.
    + inversion Hf; reflexivity.
Qed.

Section LoadKeys.
Variables (rp : RequestParameter.t) (w : World).

Lemma loadPickupKeys_inline :
  RequestParameter.S3BacketName rp = ""
  \/ RequestParameter.S3ObjectKey rp = "" ->
  loadPickupKeys rp w
  = Done [PickupKey.mk (RequestParameter.Keyword rp)
            (RequestParameter.NoticeLowerLimit rp)] w.
Proof.
  intros H. unfold loadPickupKeys.
  destruct H as [-> | ->]; [|rewrite orb_true_r]; reflexivity.
Qed.

Hypothesis Hbucket : RequestParameter.S3BacketName rp <> "".
Hypothesis Hobject : RequestParameter.S3ObjectKey rp <> "".

(** With a bucket and an object key, the rules are what [Unmarshal] makes
    of the object. *)
Lemma loadPickupKeys_store :
  loadPickupKeys rp w
  = (jsonBytes <- readS3File rp ;;
     match json.Unmarshal (json.storeSlice PickupKey.zero PickupKey.store)
             [] jsonBytes with
     | inl err => fmt_Println (JSONError err) ;; os_Exit 1
     | inr pickupKeys => ret pickupKeys
     end) w.
Proof.
  unfold loadPickupKeys.
  apply String.eqb_neq in Hbucket, Hobject.
  now rewrite Hbucket, Hobject.
Qed.

Lemma loadPickupKeys_Done_store (rules : list PickupKey.t) (w' : World) :
  loadPickupKeys rp w = Done rules w' ->
  exists blob, readS3File rp w = Done blob w'
    /\ json.Unmarshal (json.storeSlice PickupKey.zero PickupKey.store)
         [] blob = inr rules.
Proof.
  rewrite loadPickupKeys_store. intros H.
  apply bind_Done_inv in H as (blob & w1 & Hr & H).
  exists blob.
  destruct (json.Unmarshal _ _ blob) as [err|l].
  - apply bind_Done_inv in H as (? & ? & _ & H). discriminate.
  - inversion H; subst. auto.
Qed.
End LoadKeys.

(** C4.  When the bucket name or the object key is empty, the rule list is
    the one rule made of the inline keyword and threshold, and the object
    store is not read; when both are present and the fetched object is a
    JSON array of (keyword, noticeLowerLimit) entries, the rule list is
    that array, entry by entry. *)
Theorem keyword_rules_source (rp : RequestParameter.t) (w : World) :
  (RequestParameter.S3BacketName rp = ""
   \/ RequestParameter.S3ObjectKey rp = "" ->
   loadPickupKeys rp w
   = Done [PickupKey.mk (RequestParameter.Keyword rp)
             (RequestParameter.NoticeLowerLimit rp)] w)
  /\ (RequestParameter.S3BacketName rp <> "" ->
      RequestParameter.S3ObjectKey rp <> "" ->
      forall blob w1 js rules,
        readS3File rp w = Done blob w1 ->
        json.parse blob = Some (json.Array js) ->
        Forall2 IsRule js rules ->
        loadPickupKeys rp w = Done rules w1).
Proof.
  split; [apply loadPickupKeys_inline|].
  intros Hb Hk blob w1 js rules Hread Hparse Hrules.
  rewrite (loadPickupKeys_store rp w Hb Hk), (bind_Done _ _ _ _ _ Hread).
  unfold json.Unmarshal. rewrite Hparse. cbn [json.storeSlice].
  now rewrite (storeElems_rules js rules Hrules).
Qed.

(** C6.  A request whose From and To are both non-empty comes out of the
    Config Resolver as it went in. *)
Theorem explicit_dates_unchanged (rp : RequestParameter.t) (w : World) :
  RequestParameter.From rp <> "" ->
  RequestParameter.To rp <> "" ->
  initRequestParameter rp w = Done rp w.
Proof.
  intros Hf Ht. unfold initRequestParameter, bind, ask, ret.
  apply String.eqb_neq in Hf, Ht. now rewrite Hf, Ht.
Qed.

(** C10.  An entry of the externally loaded rule list whose object has no
    member for noticeLowerLimit is decoded with the threshold 0; such a
    rule notifies as soon as totalResults is at least 1, and makes the
    handler return early when totalResults is 0. *)
Theorem omitted_limit_is_zero
    (rp : RequestParameter.t) (w w' : World) (blob : string)
    (js : list json.value) (rules : list PickupKey.t)
    (i : nat) (ms : list (string * json.value)) :
  RequestParameter.S3BacketName rp <> "" ->
  RequestParameter.S3ObjectKey rp <> "" ->
  readS3File rp w = Done blob w' ->
  json.parse blob = Some (json.Array js) ->
  loadPickupKeys rp w = Done rules w' ->
  nth_error js i = Some (json.Object ms) ->
  omitsField "noticeLowerLimit" ms = true ->
  exists key,
    nth_error rules i = Some key
    /\ PickupKey.NoticeLowerLimit key = 0
    /\ forall env p w2 w3 naResp,
         queryNewsAPI env p key w2 = Done (Some naResp) w3 ->
         (1 <= NewsAPIRespons.TotalResults naResp ->
          loopBody env p key w2
          = (notificationSlack env (notificationMessage p key naResp) ;;
             ret None) w3)
         /\ (NewsAPIRespons.TotalResults naResp = 0 ->
             loopBody env p key w2
             = Done (Some ("TotalResult is lower NoticeLowerLimit. "
                           ++ "TotalResult:0, NoticeLowerLimit:0" ++ LF)%string)
                 w3).
Proof.
  intros Hb Hk Hread Hparse Hload Hnth Homit.
  destruct (loadPickupKeys_Done_store rp w Hb Hk rules w' Hload)
    as (blob' & Hread' & Hun).
  rewrite Hread in Hread'. inversion Hread'; subst blob'.
  unfold json.Unmarshal in Hun. rewrite Hparse in Hun.
  cbn [json.storeSlice] in Hun.
  destruct (json.storeElems PickupKey.zero PickupKey.store js)
    as [l|] eqn:Hl; [|discriminate].
  inversion Hun; subst l.
  destruct (storeElems_nth _ _ js rules i _ Hl Hnth) as (key & Hkey & Hst).
  exists key. split; [exact Hkey|].
  assert (H0 : PickupKey.NoticeLowerLimit key = 0)
    by apply (storeMembers_omitted ms PickupKey.zero key Homit Hst).
  split; [exact H0|].
  intros env p w2 w3 naResp Hq. split; intros Ht.
  - apply (loopBody_above env p key w2 w3 naResp Hq). lia.
  - rewrite (loopBody_below env p key w2 w3 naResp Hq) by lia.
    rewrite H0, Ht. reflexivity.
Qed.

(** ** The calendar *)

Lemma allFrom_spec (P : Z -> bool) (n : nat) :
  forall z, allFrom P z n = true ->
  forall x, z <= x < z + Z.of_nat n -> P x = true.
Proof.
  induction n as [|k IH]; intros z H x Hx.
  - lia.
  - cbn [allFrom] in H. apply andb_prop in H as [Hz Hrest].
    destruct (Z.eq_dec x z) as [->|Hne].
    + exact Hz.
    + apply (IH (z + 1)); [exact Hrest | lia].
Qed.

Module timeFacts.
Import time.

(** Every day of one 400-year cycle, checked by running the code. *)
Lemma cycle_checked : allFrom cycleOK 0 (Z.to_nat daysPer400Years) = true.
Proof. vm_compute; reflexivity. Qed.

Lemma pad4_checked : allFrom (padOK 4) 0 (Z.to_nat 10000) = true.
Proof. vm_compute; reflexivity. Qed.

Lemma pad2_checked : allFrom (padOK 2) 0 (Z.to_nat 100) = true.
Proof. vm_compute. reflexivity. Qed.

(** The calendar repeats every 400 years. *)
Lemma isLeap_shift (y q : Z) : isLeap (y + 400 * q) = isLeap y.
Proof.
  unfold isLeap.
  replace ((y + 400 * q) mod 4) with (y mod 4)
    by (replace (y + 400 * q) with (y + (100 * q) * 4) by lia;
        now rewrite Z.mod_add).
  replace ((y + 400 * q) mod 100) with (y mod 100)
    by (replace (y + 400 * q) with (y + (4 * q) * 100) by lia;
        now rewrite Z.mod_add).
  replace ((y + 400 * q) mod 400) with (y mod 400)
    by (replace (y + 400 * q) with (y + q * 400) by lia;
        now rewrite Z.mod_add).
  reflexivity.
Qed.

Lemma daysIn_shift (m y q : Z) : daysIn m (y + 400 * q) = daysIn m y.
Proof. unfold daysIn. now rewrite isLeap_shift. Qed.

(** No month is longer than 31 days. *)
Lemma daysIn_le_31 (m y : Z) : daysIn m y <= 31.
Proof.
  unfold daysIn. destruct ((m =? 2) && isLeap y); [lia|].
  destruct (Z_lt_le_dec m 0) as [Hneg|Hpos].
  - unfold daysBefore.
    replace (Z.to_nat m) with 0%nat by lia.
    replace (Z.to_nat (m - 1)) with 0%nat by lia. cbn. lia.
  - destruct (Z_le_gt_dec 14 m) as [Hbig|Hsmall].
    + unfold daysBefore.
      rewrite !nth_overflow by (cbn [List.length]; lia). lia.
    + assert (Hm : m = 0 \/ m = 1 \/ m = 2 \/ m = 3 \/ m = 4 \/ m = 5
                   \/ m = 6 \/ m = 7 \/ m = 8 \/ m = 9 \/ m = 10
                   \/ m = 11 \/ m = 12 \/ m = 13) by lia.
      repeat (destruct Hm as [->|Hm]; [apply Z.leb_le; reflexivity|]).
      subst. apply Z.leb_le. reflexivity.
Qed.

Lemma daysSinceYearOne_shift (y q : Z) :
  daysSinceYearOne (y + 400 * q) = daysSinceYearOne y + daysPer400Years * q.
Proof.
  unfold daysSinceYearOne, daysPer400Years. cbv zeta.
  replace (y + 400 * q - 1) with (y - 1 + 400 * q) by lia.
  replace ((y - 1 + 400 * q) / 4) with ((y - 1) / 4 + 100 * q)
    by (replace (y - 1 + 400 * q) with (y - 1 + (100 * q) * 4) by lia;
        now rewrite Z.div_add).
  replace ((y - 1 + 400 * q) / 100) with ((y - 1) / 100 + 4 * q)
    by (replace (y - 1 + 400 * q) with (y - 1 + (4 * q) * 100) by lia;
        now rewrite Z.div_add).
  replace ((y - 1 + 400 * q) / 400) with ((y - 1) / 400 + q)
    by (replace (y - 1 + 400 * q) with (y - 1 + q * 400) by lia;
        now rewrite Z.div_add).
  lia.
Qed.

Lemma daysSinceYearOne_mono (a b : Z) :
  a <= b -> daysSinceYearOne a <= daysSinceYearOne b.
Proof.
  intros H. unfold daysSinceYearOne. cbv zeta.
  Z.div_mod_to_equations. lia.
Qed.

Lemma dateToDays_shift (y m d q : Z) :
  dateToDays (y + 400 * q) m d = dateToDays y m d + daysPer400Years * q.
Proof.
  unfold dateToDays, norm.
  replace (y + 400 * q + (m - 1) / 12)
    with (y + (m - 1) / 12 + 400 * q) by lia.
  rewrite isLeap_shift, daysSinceYearOne_shift. lia.
Qed.

(** [daysToDate] on any day, from its value inside the first cycle. *)
Lemma daysToDate_cycle (n : Z) :
  let q := (n + unixEpochDay) / daysPer400Years in
  let r := (n + unixEpochDay) mod daysPer400Years in
  daysToDate n =
  let '(y, m, d) := daysToDate (r - unixEpochDay) in (y + 400 * q, m, d).
Proof.
  intros q r.
  assert (Hr : 0 <= r < daysPer400Years)
    by (apply Z.mod_pos_bound; reflexivity).
  assert (Hn : n + unixEpochDay = daysPer400Years * q + r)
    by (apply Z.div_mod; discriminate).
  unfold daysToDate.
  replace (r - unixEpochDay + unixEpochDay) with r by lia.
  fold q.
  rewrite (Z.div_small r) by exact Hr.
  replace (n + unixEpochDay - daysPer400Years * q) with r by lia.
  replace (r - daysPer400Years * 0) with r by lia.
  cbv zeta.
  set (n100 := r / daysPer100Years - r / daysPer100Years / 4).
  set (d1 := r - daysPer100Years * n100).
  set (n4 := d1 / daysPer4Years).
  set (d2 := d1 - daysPer4Years * n4).
  set (n1 := d2 / 365 - d2 / 365 / 4).
  replace (400 * q + 100 * n100 + 4 * n4 + n1 + 1)
    with (400 * 0 + 100 * n100 + 4 * n4 + n1 + 1 + 400 * q) by lia.
  rewrite isLeap_shift.
  set (year := 400 * 0 + 100 * n100 + 4 * n4 + n1 + 1).
  destruct (isLeap year && (d2 - 365 * n1 =? 31 + 29 - 1)); [reflexivity|].
  set (day := if isLeap year && (31 + 29 - 1 <? d2 - 365 * n1)
              then d2 - 365 * n1 - 1 else d2 - 365 * n1).
  destruct (daysBefore (day / 31 + 1) <=? day); reflexivity.
Qed.

(** The date of a day number is a date of the calendar, it lies in the
    year the day falls in, and [dateToDays] takes it back to the day. *)
Theorem daysToDate_correct (n : Z) :
  let '(y, m, d) := daysToDate n in
  dateToDays y m d = n /\ 1 <= m <= 12 /\ 1 <= d <= daysIn m y
  /\ daysSinceYearOne y <= n + unixEpochDay < daysSinceYearOne (y + 1).
Proof.
  pose proof (daysToDate_cycle n) as Hc. cbv zeta in Hc.
  set (q := (n + unixEpochDay) / daysPer400Years) in *.
  set (r := (n + unixEpochDay) mod daysPer400Years) in *.
  assert (Hr : 0 <= r < daysPer400Years)
    by (apply Z.mod_pos_bound; reflexivity).
  assert (Hn : n + unixEpochDay = daysPer400Years * q + r)
    by (apply Z.div_mod; discriminate).
  pose proof (allFrom_spec cycleOK _ 0 cycle_checked r) as Hok.
  rewrite Z2Nat.id in Hok by discriminate.
  specialize (Hok Hr). unfold cycleOK in Hok.
  rewrite Hc.
  destruct (daysToDate (r - unixEpochDay)) as [[y m] d].
  repeat (apply andb_prop in Hok as [Hok ?]).
  rewrite dateToDays_shift, daysIn_shift.
  replace (y + 400 * q + 1) with (y + 1 + 400 * q) by lia.
  rewrite !daysSinceYearOne_shift.
  apply Z.eqb_eq in Hok.
  lia.
Qed.

Lemma dateToDays_day (y m d k : Z) :
  dateToDays y m (d + k) = dateToDays y m d + k.
Proof. unfold dateToDays, norm. lia. Qed.

(** Adding days to a time moves its wall-clock day by as many days. *)
Lemma AddDate_days (t : Time) (k : Z) :
  wallDay (AddDate t 0 0 k) = wallDay t + k.
Proof.
  unfold AddDate, dateOf.
  pose proof (daysToDate_correct (wallDay t)) as Hd.
  destruct (daysToDate (wallDay t)) as [[y m] d].
  destruct Hd as (Hd & _).
  unfold clockOf, Date, norm. cbv zeta. cbv beta iota.
  unfold wallDay at 1. unfold wallSec at 1. cbn [unixSec loc zoneOffset].
  set (s := wallSec t mod secondsPerDay).
  assert (Hs : 0 <= s < 86400)
    by (apply Z.mod_pos_bound; reflexivity).
  assert (E1 : s mod 60 / 60 = 0) by (Z.div_mod_to_equations; lia).
  rewrite E1, !Z.add_0_r.
  assert (E2 : s mod 3600 / 60 / 60 = 0) by (Z.div_mod_to_equations; lia).
  rewrite E2, !Z.add_0_r.
  assert (E3 : s / 3600 / 24 = 0) by (Z.div_mod_to_equations; lia).
  rewrite E3, !Z.add_0_r, dateToDays_day, Hd.
  rewrite (Z.mod_small (s / 3600) 24)
    by (Z.div_mod_to_equations; lia).
  rewrite (Z.mod_small (s mod 3600 / 60) 60)
    by (Z.div_mod_to_equations; lia).
  rewrite (Z.mod_small (s mod 60) 60)
    by (Z.div_mod_to_equations; lia).
  unfold secondsPerDay.
  Z.div_mod_to_equations. lia.
Qed.

Lemma Format_AddDate (t : Time) (k : Z) :
  Format_2006_01_02 (AddDate t 0 0 k)
  = formatDate (daysToDate (wallDay t + k)).
Proof. unfold Format_2006_01_02, dateOf. now rewrite AddDate_days. Qed.

(** Dates of the years 1 to 9999 are printed as YYYY-MM-DD. *)
Lemma formatDate_shape (n : Z) :
  - unixEpochDay <= n < dateToDays 10000 1 1 ->
  isDateString (formatDate (daysToDate n)) = true.
Proof.
  intros Hn. pose proof (daysToDate_correct n) as Hd.
  destruct (daysToDate n) as [[y m] d].
  destruct Hd as (_ & Hm & Hday & Hy).
  pose proof (daysIn_le_31 m y) as H31.
  assert (Hyear : 1 <= y <= 9999).
  { assert (H1 : daysSinceYearOne 1 = 0) by reflexivity.
    assert (HY : dateToDays 10000 1 1
                 = daysSinceYearOne 10000 - unixEpochDay) by reflexivity.
    split.
    - destruct (Z_le_gt_dec 1 y) as [|Hlt]; [assumption|].
      pose proof (daysSinceYearOne_mono (y + 1) 1 ltac:(lia)). lia.
    - destruct (Z_le_gt_dec y 9999) as [|Hgt]; [assumption|].
      pose proof (daysSinceYearOne_mono 10000 y ltac:(lia)). lia. }
  pose proof (allFrom_spec (padOK 4) _ 0 pad4_checked y ltac:(lia)) as H4.
  pose proof (allFrom_spec (padOK 2) _ 0 pad2_checked m ltac:(lia)) as H2m.
  pose proof (allFrom_spec (padOK 2) _ 0 pad2_checked d ltac:(lia)) as H2d.
  unfold padOK in *. unfold formatDate.
  destruct (appendInt y 4) as [|a1 [|a2 [|a3 [|a4 [|]]]]]; try discriminate.
  destruct (appendInt m 2) as [|b1 [|b2 [|]]]; try discriminate.
  destruct (appendInt d 2) as [|c1 [|c2 [|]]]; try discriminate.
  cbn -[strconv.isDigit] in H4, H2m, H2d.
  repeat match goal with
         | H : _ && _ = true |- _ => apply andb_prop in H as [? ?]
         end.
  unfold isDateString. cbn -[strconv.isDigit].
  repeat match goal with
         | H : strconv.isDigit _ = true |- _ => rewrite H; clear H
         end.
  reflexivity.
Qed.
End timeFacts.

(** ** The Config Resolver: dates *)

(** C5.  With the zone Asia/Tokyo nine hours east of UTC (loaded from the
    tz database, or the fixed zone that stands in for it), an empty From
    becomes the date of the day before the current day in that zone, an
    empty To the date of the current day, both in the layout of
    [formatDate]; for a clock between 1970 and the year 10000 both have
    the shape YYYY-MM-DD. *)
Theorem default_dates (rp : RequestParameter.t) (w : World) :
  (forall l, time_LoadLocation (oracle w) "Asia/Tokyo" = inr l ->
             time.zoneOffset l = 9 * 3600) ->
  let today := tokyoDay (time_Now (oracle w)) in
  exists p,
    initRequestParameter rp w = Done p w
    /\ (RequestParameter.From rp = "" ->
        RequestParameter.From p
        = time.formatDate (time.daysToDate (today - 1))
        /\ (0 <= time_Now (oracle w) < year10000 - 9 * 3600 ->
            isDateString (RequestParameter.From p) = true))
    /\ (RequestParameter.To rp = "" ->
        RequestParameter.To p = time.formatDate (time.daysToDate today)
        /\ (0 <= time_Now (oracle w) < year10000 - 9 * 3600 ->
            isDateString (RequestParameter.To p) = true)).
Proof.
  intros Hzone today.
  unfold initRequestParameter, bind, ask, ret.
  set (now := time_Now (oracle w)) in *.
  set (l := match time_LoadLocation (oracle w) "Asia/Tokyo" with
            | inl _ => time.FixedZone "Asia/Tokyo" (9 * 60 * 60)
            | inr l => l
            end).
  assert (Hl : time.zoneOffset l = 9 * 3600).
  { unfold l. destruct (time_LoadLocation (oracle w) "Asia/Tokyo") as [e|l0];
      [reflexivity | now apply Hzone]. }
  set (t := time.In (time.toUTC (time.mkTime now time.UTC)) l).
  assert (Ht : time.wallDay t = today).
  { unfold time.wallDay, time.wallSec, t, today, tokyoDay. cbn. now rewrite Hl. }
  assert (Hrange : 0 <= now < year10000 - 9 * 3600 ->
                   - time.unixEpochDay <= today - 1
                   /\ today < time.dateToDays 10000 1 1).
  { intros Hnow. unfold today, tokyoDay, year10000 in *.
    change (time.dateToDays 10000 1 1) with 2932897.
    change time.unixEpochDay with 719162.
    Z.div_mod_to_equations. lia. }
  eexists. split; [reflexivity|].
  split.
  - intros Hf. rewrite Hf. cbn [String.eqb].
    assert (Hfrom : forall rp',
              RequestParameter.From
                (if String.eqb (RequestParameter.To
                                  (RequestParameter.setFrom rp rp')) ""
                 then RequestParameter.setTo (RequestParameter.setFrom rp rp')
                        (time.Format_2006_01_02 t)
                 else RequestParameter.setFrom rp rp') = rp').
    { intros rp'. destruct (String.eqb _ _); reflexivity. }
    rewrite Hfrom, timeFacts.Format_AddDate, Ht.
    split; [reflexivity|]. intros Hnow.
    apply timeFacts.formatDate_shape. specialize (Hrange Hnow). lia.
  - intros Hto.
    assert (Hto' : forall rp0, RequestParameter.To rp0 = "" ->
              RequestParameter.To
                (if String.eqb (RequestParameter.To rp0) ""
                 then RequestParameter.setTo rp0 (time.Format_2006_01_02 t)
                 else rp0) = time.Format_2006_01_02 t).
    { intros rp0 H0. rewrite H0. reflexivity. }
    rewrite Hto' by (destruct (String.eqb _ _); exact Hto).
    unfold time.Format_2006_01_02, time.dateOf. rewrite Ht.
    split; [reflexivity|]. intros Hnow.
    apply timeFacts.formatDate_shape. specialize (Hrange Hnow). lia.
Qed.

(** ** The status of the webhook does not matter *)

Create HintDb sim discriminated.

Section PostStatus.
Variable f : list http.Request -> http.Request -> Z.

#[local] Notation "m ~~ m'" := (simulates f m m') (at level 70).

Lemma sim_ret {A : Type} (a : A) : ret a ~~ ret a.
Proof. intros w w' H. split; [reflexivity | exact H]. Qed.

Lemma sim_bind {A B : Type} (m m' : Go A) (k k' : A -> Go B) :
  m ~~ m' -> (forall a, k a ~~ k' a) -> bind m k ~~ bind m' k'.
Proof.
  intros Hm Hk w w' Hw. destruct (Hm w w' Hw) as [Hr Ha].
  unfold bind.
  destruct (m w) as [a w1|c w1|w1], (m' w') as [a' w1'|c' w1'|w1'];
    cbn in Hr, Ha; try discriminate; inversion Hr; subst.
  - now apply Hk.
  - split; [reflexivity | exact Ha].
  - split; [reflexivity | exact Ha].
Qed.

Lemma sim_exit {A : Type} (code : Z) : @os_Exit A code ~~ os_Exit code.
Proof. intros w w' H. split; [reflexivity | exact H]. Qed.

Lemma sim_panic {A : Type} : @panic A ~~ panic.
Proof. intros w w' H. split; [reflexivity | exact H]. Qed.

(** Every answer of the outside but that of the webhook is the same. *)
Lemma sim_ask {A : Type} (g : Oracle -> A) :
  (forall o, g (withPostStatus f o) = g o) -> ask g ~~ ask g.
Proof.
  intros Hg w w' [Ho Hs]. unfold ask. cbn [resultOf worldOf oracle trace].
  rewrite Ho, Hg. split; [reflexivity | split; assumption].
Qed.

Lemma sim_emit (e : Event) : emit e ~~ emit e.
Proof.
  intros w w' [Ho Hs]. unfold emit. cbn [resultOf worldOf oracle trace].
  split; [reflexivity|]. split; [exact Ho|]. cbn [trace oracle].
  now rewrite !sent_app, Hs.
Qed.

(** A line on the standard output on one side only. *)
Lemma sim_print_l (line : string) : fmt_Printf line ~~ ret tt.
Proof.
  intros w w' [Ho Hs]. unfold fmt_Printf, emit, ret. cbn [resultOf worldOf oracle trace].
  split; [reflexivity|]. split; [exact Ho|]. cbn [trace oracle].
  rewrite sent_app. cbn. now rewrite app_nil_r.
Qed.

Lemma sim_print_r (line : string) : ret tt ~~ fmt_Printf line.
Proof.
  intros w w' [Ho Hs]. unfold fmt_Printf, emit, ret. cbn [resultOf worldOf oracle trace].
  split; [reflexivity|]. split; [exact Ho|]. cbn [trace oracle].
  rewrite sent_app. cbn. now rewrite app_nil_r.
Qed.

Lemma sim_print (line line' : string) :
  fmt_Printf line ~~ fmt_Printf line'.
Proof.
  intros w w' [Ho Hs]. unfold fmt_Printf, emit. cbn [resultOf worldOf oracle trace].
  split; [reflexivity|]. split; [exact Ho|]. cbn [trace oracle].
  rewrite !sent_app. cbn. now rewrite Hs.
Qed.

#[local] Hint Resolve sim_ret sim_exit sim_panic sim_emit sim_print
  sim_print_l sim_print_r : sim.

(** A fatal error: it is printed, and the process exits. *)
Ltac fatal := apply sim_bind; [apply sim_emit | intros _; apply sim_exit].

(** Reading the same answer of the outside on both sides. *)
Ltac asking := apply sim_bind; [now apply sim_ask|].

(** A request that is not a POST is answered the same. *)
Lemma sim_client_Do (req : http.Request) :
  String.eqb (http.Method req) "POST" = false ->
  client_Do req ~~ client_Do req.
Proof.
  intros Hm w w' [Ho Hs]. unfold client_Do. cbn [resultOf worldOf oracle trace].
  rewrite Ho, Hs. cbn [http_Do withPostStatus]. rewrite Hm.
  split.
  - destruct (http_Do (oracle w) (sent (trace w)) req); reflexivity.
  - split; [reflexivity|]. cbn [trace oracle]. now rewrite !sent_app, Hs.
Qed.

(** A POST is answered with another status, and with nothing else
    changed. *)
Lemma sim_post {A : Type} (req : http.Request)
    (k k' : error + http.Response -> Go A) :
  String.eqb (http.Method req) "POST" = true ->
  (forall err, k (inl err) ~~ k' (inl err)) ->
  (forall resp st,
     k (inr resp) ~~ k' (inr (http.mkResponse st (http.RespBody resp)))) ->
  bind (client_Do req) k ~~ bind (client_Do req) k'.
Proof.
  intros Hm Herr Hresp w w' [Ho Hs]. unfold bind, client_Do.
  rewrite Ho, Hs. cbn [http_Do withPostStatus]. rewrite Hm.
  assert (H1 : alike f (mkWorld (oracle w) (trace w ++ [EvHTTP req]))
                 (mkWorld (withPostStatus f (oracle w))
                    (trace w' ++ [EvHTTP req]))).
  { split; [reflexivity|]. cbn [trace]. now rewrite !sent_app, Hs. }
  destruct (http_Do (oracle w) (sent (trace w)) req) as [err|resp].
  - apply (Herr err _ _ H1).
  - apply (Hresp resp _ _ _ H1).
Qed.

Lemma sim_notificationSlack (env : Env.t) (message : string) :
  notificationSlack env message ~~ notificationSlack env message.
Proof.
  intros w w' Hw. rewrite !notificationSlack_unfold. revert w w' Hw.
  asking.
  intros [err|].
  - fatal.
  - apply sim_post; [reflexivity | |].
    + intros err.
      fatal.
    + intros resp st. cbn [http.StatusCode].
      destruct (http.StatusCode resp =? 200), (st =? 200);
        auto with sim.
Qed.

Lemma sim_queryNewsAPI (env : Env.t) (p : RequestParameter.t)
    (key : PickupKey.t) :
  queryNewsAPI env p key ~~ queryNewsAPI env p key.
Proof.
  unfold queryNewsAPI.
  apply sim_bind; [now apply sim_client_Do|].
  intros [err|resp].
  - fatal.
  - apply sim_bind.
    + destruct (http.StatusCode resp =? 200); auto with sim.
    + intros _. destruct (http.RespBody resp) as [err|body].
      * fatal.
      * asking. intros timeParser.
        destruct (json.Unmarshal _ _ body).
        -- fatal.
        -- apply sim_ret.
Qed.

Lemma sim_loopBody (env : Env.t) (p : RequestParameter.t)
    (key : PickupKey.t) :
  loopBody env p key ~~ loopBody env p key.
Proof.
  unfold loopBody. apply sim_bind; [apply sim_queryNewsAPI|].
  intros [naResp|]; unfold handleResponse; [|apply sim_panic].
  destruct (_ <=? _); [apply sim_ret|].
  apply sim_bind; [apply sim_notificationSlack | intros _; apply sim_ret].
Qed.

Lemma sim_rangeKeys (env : Env.t) (p : RequestParameter.t)
    (keys : list PickupKey.t) :
  rangeKeys env p keys ~~ rangeKeys env p keys.
Proof.
  induction keys as [|key rest IH]; cbn [rangeKeys]; [apply sim_ret|].
  apply sim_bind; [apply sim_loopBody|].
  intros [s|]; [apply sim_ret | exact IH].
Qed.

Lemma sim_initRequestParameter (rp : RequestParameter.t) :
  initRequestParameter rp ~~ initRequestParameter rp.
Proof.
  unfold initRequestParameter.
  asking. intros now.
  asking. intros r. apply sim_ret.
Qed.

Lemma sim_loadPickupKeys (rp : RequestParameter.t) :
  loadPickupKeys rp ~~ loadPickupKeys rp.
Proof.
  unfold loadPickupKeys. destruct (_ || _); [apply sim_ret|].
  apply sim_bind.
  - unfold readS3File. asking.
    intros [err|]; [apply sim_panic|].
    apply sim_bind; [apply sim_emit|]. intros _.
    asking.
    intros [err|body]; [|apply sim_ret].
    fatal.
  - intros jsonBytes. destruct (json.Unmarshal _ _ jsonBytes).
    + fatal.
    + apply sim_ret.
Qed.

Lemma sim_HandleRequest (rp : RequestParameter.t) :
  HandleRequest rp ~~ HandleRequest rp.
Proof.
  unfold HandleRequest. asking.
  intros [err|env].
  - fatal.
  - apply sim_bind; [apply sim_initRequestParameter|]. intros p.
    apply sim_bind; [apply sim_loadPickupKeys|]. intros keys.
    apply sim_bind; [apply sim_rangeKeys|].
    intros [s|]; apply sim_ret.
Qed.
End PostStatus.

(** C7.  When the loop runs to its end the handler returns "Success
    notification." with a nil error; the status codes of the webhook have
    no part in what the handler returns; and a status other than 200 is
    printed as a warning, after which the notifier comes back as usual. *)
Theorem success_whatever_the_webhook_status
    (rp : RequestParameter.t) (w : World) :
  (forall env p keys w0 w1 w2,
     envconfig_Process (oracle w) "pickupnews" = inr env ->
     initRequestParameter rp w = Done p w0 ->
     loadPickupKeys p w0 = Done keys w1 ->
     rangeKeys env p keys w1 = Done None w2 ->
     HandleRequest rp w = Done ("Success notification.", None) w2)
  /\ (forall f,
        resultOf (HandleRequest rp
                    (mkWorld (withPostStatus f (oracle w)) (trace w)))
        = resultOf (HandleRequest rp w))
  /\ (forall env message resp,
        http_NewRequest (oracle w) "POST" (Env.WebhookURL env) = None ->
        http_Do (oracle w) (sent (trace w)) (slackRequest env message)
        = inr resp ->
        http.StatusCode resp <> 200 ->
        notificationSlack env message w
        = Done tt
            (mkWorld (oracle w)
               ((trace w ++ [EvHTTP (slackRequest env message)])
                ++ [EvPrintf ("Unable to post this url : http status is "
                              ++ strconv.Itoa (http.StatusCode resp)
                              ++ " " ++ LF)%string]))).
Proof.
  split; [|split].
  - intros env p keys w0 w1 w2 Henv Hinit Hload Hloop.
    rewrite (HandleRequest_run rp p env keys w w0 w1 Henv Hinit Hload).
    now rewrite (bind_Done _ _ _ _ _ Hloop).
  - intros f. symmetry.
    apply (sim_HandleRequest f rp w
             (mkWorld (withPostStatus f (oracle w)) (trace w))).
    split; reflexivity.
  - intros env message resp Hnew Hdo Hne.
    now apply notificationSlack_warned.
Qed.

(** * The properties on the sample outside *)

Import Sample.

Lemma early_return_stops_the_run_witness :
  HandleRequest storeRequest (start 200)
  = Done (belowLimitMessage 10 50, None) afterRust
  /\ queries afterRust
     = queries afterLoad
       ++ map (newsRequest env storeRequest) ([goRule] ++ [rustRule])
  /\ List.length (notifications afterRust)
     = (List.length (notifications afterLoad) + List.length [goRule])%nat.
Proof.
  apply (early_return_stops_the_run storeRequest storeRequest env
           (start 200) (start 200) afterLoad afterGo afterRust
           [goRule] [coqRule] rustRule news).
  - reflexivity.
  - reflexivity.
  - vm_compute. reflexivity.
  - vm_compute. reflexivity.
  - vm_compute. reflexivity.
  - cbn. lia.
Defined.

Lemma below_limit_returns_message_witness :
  HandleRequest storeRequest (start 200)
  = Done (("TotalResult is lower NoticeLowerLimit. "
           ++ "TotalResult:10, NoticeLowerLimit:50" ++ LF)%string, None)
      afterRust
  /\ sent (trace afterRust)
     = sent (trace afterGo) ++ [newsRequest env storeRequest rustRule]
  /\ notifications afterRust = notifications afterGo.
Proof.
  apply (below_limit_returns_message storeRequest storeRequest env
           (start 200) (start 200) afterLoad afterGo afterRust
           [goRule] [coqRule] rustRule news).
  - reflexivity.
  - reflexivity.
  - vm_compute. reflexivity.
  - vm_compute. reflexivity.
  - vm_compute. reflexivity.
  - cbn. lia.
Defined.

Lemma above_limit_notifies_once_witness :
  let message :=
    ("<!channel> Keyword: go resultCount: 10 from: 2024-02-01 to: 2024-02-29"
     ++ LF ++ "No.1, Go 1.22, http://a/1" ++ LF
     ++ "No.2, Rocq 9, http://a/2" ++ LF)%string in
  loopBody env storeRequest goRule afterLoad
  = (notificationSlack env message ;; ret None)
      (worldOf (queryNewsAPI env storeRequest goRule afterLoad))
  /\ notifications afterGo
     = notifications afterLoad ++ [slackRequest env message].
Proof.
  destruct (above_limit_notifies_once env storeRequest goRule afterLoad
              (worldOf (queryNewsAPI env storeRequest goRule afterLoad)) news)
    as [Hturn Honce].
  - vm_compute. reflexivity.
  - cbn. lia.
  - split; [exact Hturn | apply Honce; reflexivity].
Defined.

Lemma keyword_rules_source_witness :
  loadPickupKeys inlineRequest (start 200)
  = Done [PickupKey.mk "go" 3] (start 200)
  /\ loadPickupKeys storeRequest (startWith oneRuleBlob)
     = Done [PickupKey.mk "x" 5]
         (worldOf (readS3File storeRequest (startWith oneRuleBlob))).
Proof.
  split.
  - apply (proj1 (keyword_rules_source inlineRequest (start 200))).
    left. reflexivity.
  - apply (proj2 (keyword_rules_source storeRequest (startWith oneRuleBlob))
             ltac:(discriminate) ltac:(discriminate) oneRuleBlob _
             [json.Object [("keyword", json.Str "x");
                           ("noticeLowerLimit", json.Number "5")]]).
    + reflexivity.
    + vm_compute. reflexivity.
    + constructor; [|constructor].
      apply (IsRule_kw_limit "x" "5" 5). reflexivity.
Defined.

Lemma default_dates_witness :
  exists p,
    initRequestParameter inlineRequest (start 200) = Done p (start 200)
    /\ RequestParameter.From p = "2024-02-29"
    /\ RequestParameter.To p = "2024-03-01"
    /\ isDateString (RequestParameter.From p) = true
    /\ isDateString (RequestParameter.To p) = true.
Proof.
  destruct (default_dates inlineRequest (start 200)) as (p & Hp & Hf & Ht).
  - intros l H. inversion H. reflexivity.
  - exists p. destruct (Hf eq_refl) as [Hf1 Hf2], (Ht eq_refl) as [Ht1 Ht2].
    repeat split.
    + exact Hp.
    + rewrite Hf1. vm_compute. reflexivity.
    + rewrite Ht1. vm_compute. reflexivity.
    + apply Hf2. vm_compute. split; [discriminate | reflexivity].
    + apply Ht2. vm_compute. split; [discriminate | reflexivity].
Defined.

Lemma explicit_dates_unchanged_witness :
  initRequestParameter storeRequest (start 200)
  = Done storeRequest (start 200).
Proof.
  apply (explicit_dates_unchanged storeRequest (start 200)); discriminate.
Defined.

Lemma success_whatever_the_webhook_status_witness :
  HandleRequest inlineRequest (start 500)
  = Done ("Success notification.", None)
      (worldOf (HandleRequest inlineRequest (start 500)))
  /\ resultOf (HandleRequest inlineRequest
                 (mkWorld (withPostStatus (fun _ _ => 200)
                             (oracle (start 500))) []))
     = resultOf (HandleRequest inlineRequest (start 500))
  /\ notificationSlack env quoting (start 500)
     = Done tt
         (mkWorld (oracle (start 500))
            [EvHTTP (slackRequest env quoting);
             EvPrintf ("Unable to post this url : http status is 500 "
                       ++ LF)%string]).
Proof.
  destruct (success_whatever_the_webhook_status inlineRequest (start 500))
    as (Hend & Hsame & Hwarn).
  split; [|split].
  - apply (Hend env
             (RequestParameter.mk "2024-02-29" "2024-03-01" "" "" "go" 3)
             [PickupKey.mk "go" 3] (start 500) (start 500)).
    + reflexivity.
    + vm_compute. reflexivity.
    + reflexivity.
    + vm_compute. reflexivity.
  - apply (Hsame (fun _ _ => 200)).
  - apply (Hwarn env quoting (http.mkResponse 500 (inr "ok"))).
    + reflexivity.
    + reflexivity.
    + discriminate.
Defined.

Lemma notifier_posts_raw_message_witness :
  sent (trace (worldOf (notificationSlack env quoting (start 200))))
  = [http.mkRequest "POST" "https://hooks.slack.com/services/T" None
       [("Content-Type", "application/json")]
       ("{" ++ DQ ++ "text" ++ DQ ++ ":" ++ DQ
        ++ "say " ++ DQ ++ "hi" ++ DQ ++ " \ twice"
        ++ DQ ++ "}")%string].
Proof.
  apply (notifier_posts_raw_message env quoting (start 200)). reflexivity.
Defined.

Lemma HandleRequest_error_is_nil_witness :
  (exists s w', HandleRequest storeRequest (start 200) = Done (s, None) w')
  /\ HandleRequest storeRequest (startWith "[{")
     = Exit 1
         (mkWorld (oracle (startWith "[{"))
            [EvS3Get "bucket" "rules.json";
             EvPrintln (JSONError json.SyntaxError)]).
Proof.
  split.
  - destruct (HandleRequest storeRequest (start 200))
      as [[s e] w'|code w'|w'] eqn:H.
    + exists s, w'.
      now rewrite (proj1 (HandleRequest_error_is_nil storeRequest (start 200))
                     s e w' H).
    + vm_compute in H. discriminate H.
    + vm_compute in H. discriminate H.
  - apply (proj2 (HandleRequest_error_is_nil storeRequest (startWith "[{"))
             env storeRequest (startWith "[{") "[{"
             (worldOf (readS3File storeRequest (startWith "[{")))
             json.SyntaxError).
    + reflexivity.
    + reflexivity.
    + discriminate.
    + discriminate.
    + reflexivity.
    + vm_compute. reflexivity.
Defined.

Lemma omitted_limit_is_zero_witness :
  exists key,
    nth_error [goRule; rustRule; coqRule] 2 = Some key
    /\ PickupKey.NoticeLowerLimit key = 0
    /\ loopBody env storeRequest key afterLoad
       = (notificationSlack env
            (notificationMessage storeRequest key news) ;; ret None)
           (worldOf (queryNewsAPI env storeRequest coqRule afterLoad)).
Proof.
  destruct (omitted_limit_is_zero storeRequest (start 200) afterLoad
              rulesBlob
              [json.Object [("keyword", json.Str "go");
                            ("noticeLowerLimit", json.Number "5")];
               json.Object [("keyword", json.Str "rust");
                            ("noticeLowerLimit", json.Number "50")];
               json.Object [("keyword", json.Str "coq")]]
              [goRule; rustRule; coqRule] 2
              [("keyword", json.Str "coq")])
    as (key & Hnth & Hzero & Hturn).
  - discriminate.
  - discriminate.
  - vm_compute. reflexivity.
  - vm_compute. reflexivity.
  - vm_compute. reflexivity.
  - reflexivity.
  - vm_compute. reflexivity.
  - exists key. split; [exact Hnth|]. split; [exact Hzero|].
    assert (Hkey : key = coqRule) by (inversion Hnth; reflexivity).
    apply (Hturn env storeRequest afterLoad
             (worldOf (queryNewsAPI env storeRequest coqRule afterLoad)) news).
    + rewrite Hkey. vm_compute. reflexivity.
    + cbn. lia.
Defined.

(** The body made for a message with quotes in it is not a JSON text. *)
Lemma quoting_breaks_the_body :
  json.parse (http.Body (slackRequest env quoting)) = None.
Proof. vm_compute. reflexivity. Qed.

(** The rule list of the example run, as the store decodes it. *)
Lemma sample_rules :
  resultOf (loadPickupKeys storeRequest (start 200))
  = RDone [goRule; rustRule; coqRule].
Proof. vm_compute. reflexivity. Qed.

(** A body that is the JSON text null leaves a nil pointer, and the handler
    panics on it. *)
Lemma null_body_panics (env0 : Env.t) (p : RequestParameter.t)
    (key : PickupKey.t) (w : World) :
  handleResponse env0 p key None w = Panic w.
Proof. reflexivity. Qed.

(** * The library models at work *)

Section LibraryExamples.

Let rules (blob : string) : json.UnmarshalError + list PickupKey.t :=
json.Unmarshal (json.storeSlice PickupKey.zero PickupKey.store) [] blob.

Let entry (members : list string) : string :=
("[" ++ object members ++ "]")%string.

Let limit (value : string) : string :=
entry [member "noticeLowerLimit" value].

(** Dates of day numbers, among them a 29th of February. *)
Lemma daysToDate_examples :
time.daysToDate 0 = (1970, 1, 1)
/\ time.daysToDate (-1) = (1969, 12, 31)
/\ time.daysToDate 11016 = (2000, 2, 29)
/\ time.daysToDate 19782 = (2024, 2, 29).
Proof. repeat split; reflexivity. Qed.

(** The day before New Year's Day, and a late evening in UTC that is
  already the next day in Tokyo. *)
Lemma previous_day_examples :
time.Format_2006_01_02
  (time.AddDate (time.mkTime 1704034800 tokyo) 0 0 (-1)) = "2023-12-31"
/\ time.formatDate (time.daysToDate (tokyoDay 1709308800)) = "2024-03-02".
Proof. split; vm_compute; reflexivity. Qed.

(** The query string: keys in order, values escaped. *)
Lemma Encode_example :
url.Encode [("qInTitle", "go lang & co"); ("from", "2024-02-01");
            ("to", "2024-02-29"); ("apiKey", "k/1")]
= "apiKey=k%2F1&from=2024-02-01&qInTitle=go+lang+%26+co&to=2024-02-29".
Proof. vm_compute. reflexivity. Qed.

(** The example of the specification. *)
Lemma parse_oneRuleBlob :
json.parse oneRuleBlob
= Some (json.Array
          [json.Object [("keyword", json.Str "x");
                        ("noticeLowerLimit", json.Number "5")]]).
Proof. vm_compute. reflexivity. Qed.

(** Keys select fields whatever their case. *)
Lemma rules_any_case :
rules (entry [member "Keyword" (quoted "x"); member "NOTICELOWERLIMIT" "7"])
= inr [PickupKey.mk "x" 7].
Proof. vm_compute. reflexivity. Qed.

(** A limit must be written as an integer that fits 64 bits; [null]
  leaves it at zero, and of a repeated key the last one counts. *)
Lemma rules_limits :
rules (limit "5.0") = inl json.StoreError
/\ rules (limit (quoted "5")) = inl json.StoreError
/\ rules (limit "9223372036854775808") = inl json.StoreError
/\ rules (limit "-9223372036854775808")
   = inr [PickupKey.mk "" (-9223372036854775808)]
/\ rules (limit "null") = inr [PickupKey.zero]
/\ rules (entry [member "noticeLowerLimit" "1";
                 member "noticeLowerLimit" "2"])
   = inr [PickupKey.mk "" 2].
Proof. repeat split; vm_compute; reflexivity. Qed.

(** Texts that are no rule list. *)
Lemma rules_rejected :
rules "" = inl json.SyntaxError
/\ rules "[{}" = inl json.SyntaxError
/\ rules "[{},]" = inl json.SyntaxError
/\ rules "{}" = inl json.StoreError
/\ rules "[1]" = inl json.StoreError
/\ rules "null" = inr []
/\ rules " [ ] " = inr [].
Proof. repeat split; vm_compute; reflexivity. Qed.

(** The sample answer of NewsAPI decodes to [news]; with a time parser
  that refuses its "publishedAt" it does not decode. *)
Lemma Unmarshal_newsBody :
json.Unmarshal (NewsAPIRespons.storePtr (fun _ => true))
  (Some NewsAPIRespons.zero) newsBody = inr (Some news)
/\ json.Unmarshal (NewsAPIRespons.storePtr (fun _ => false))
     (Some NewsAPIRespons.zero) newsBody = inl json.StoreError
/\ json.Unmarshal (NewsAPIRespons.storePtr (fun _ => true))
     (Some NewsAPIRespons.zero) "null" = inr None.
Proof. repeat split; vm_compute; reflexivity. Qed.

(** Escapes, and a lone surrogate that becomes U+FFFD. *)
Lemma unquote_examples :
json.unquote "tab\there" = String "t" (String "a" (String "b"
                             (String "009"%char "here")))
/\ json.unquote "é" = String (byte_of 195) (String (byte_of 169) "")
/\ json.unquote "😀"
   = String (byte_of 240) (String (byte_of 159) (String (byte_of 152)
       (String (byte_of 128) "")))
/\ json.unquote "\ud83d" = json.replacement.
Proof. repeat split; vm_compute; reflexivity. Qed.

End LibraryExamples.

(** On the sample outside: a run for the inline rule notifies and succeeds;
    an empty rule list succeeds without a single request. *)
Lemma sample_runs :
  resultOf (HandleRequest inlineRequest (start 200))
  = RDone ("Success notification.", None)
  /\ List.length (sent (trace (worldOf (HandleRequest inlineRequest
                                          (start 200))))) = 2%nat
  /\ HandleRequest storeRequest (startWith "null")
     = Done ("Success notification.", None)
         (mkWorld (oracle (startWith "null"))
            [EvS3Get "bucket" "rules.json"]).
Proof. repeat split; vm_compute; reflexivity. Qed.

(** * Further properties of the handler *)

(** ** Fatal errors *)

Section Fatal.
Context {A B : Type}.

Lemma fatal_ret (a : A) : exitsFatally (ret a).
Proof. intros w code w' H. discriminate H. Qed.

Lemma fatal_ask (g : Oracle -> A) : exitsFatally (ask g).
Proof. intros w code w' H. discriminate H. Qed.

Lemma fatal_panic : exitsFatally (@panic A).
Proof. intros w code w' H. discriminate H. Qed.

Lemma fatal_bind (m : Go A) (k : A -> Go B) :
  exitsFatally m -> (forall a, exitsFatally (k a)) ->
  exitsFatally (bind m k).
Proof.
  intros Hm Hk w code w' H. unfold bind in H.
  destruct (m w) as [a w1|c w1|w1] eqn:E.
  - apply (Hk a w1 code w' H).
  - inversion H; subst. apply (Hm w code w' E).
  - discriminate H.
Qed.

(** The one way the code exits: print the error, then [os.Exit(1)]. *)
Lemma fatal_exit (err : error) : exitsFatally (fmt_Println err ;; @os_Exit A 1).
Proof.
  intros w code w' H. inversion H; subst.
  split; [reflexivity|]. exists (trace w), err. reflexivity.
Qed.
End Fatal.

Lemma fatal_emit (e : Event) : exitsFatally (emit e).
Proof. intros w code w' H. discriminate H. Qed.

Lemma fatal_client_Do (req : http.Request) : exitsFatally (client_Do req).
Proof. intros w code w' H. discriminate H. Qed.

Create HintDb fatal discriminated.

#[local] Hint Resolve fatal_ret fatal_ask fatal_panic fatal_exit fatal_emit
  fatal_client_Do : fatal.

Lemma fatal_notificationSlack (env : Env.t) (message : string) :
  exitsFatally (notificationSlack env message).
Proof.
  unfold notificationSlack. apply fatal_bind; [auto with fatal|].
  intros [err|]; [auto with fatal|].
  apply fatal_bind; [auto with fatal|].
  intros [err|resp]; [auto with fatal|].
  destruct (_ =? _); [auto with fatal | apply fatal_emit].
Qed.

Lemma fatal_queryNewsAPI (env : Env.t) (p : RequestParameter.t)
    (key : PickupKey.t) :
  exitsFatally (queryNewsAPI env p key).
Proof.
  unfold queryNewsAPI. apply fatal_bind; [auto with fatal|].
  intros [err|resp]; [auto with fatal|].
  apply fatal_bind.
  - destruct (_ =? _); [auto with fatal | apply fatal_emit].
  - intros _. destruct (http.RespBody resp) as [err|body]; [auto with fatal|].
    apply fatal_bind; [auto with fatal|]. intros timeParser.
    destruct (json.Unmarshal _ _ body); auto with fatal.
Qed.

Lemma fatal_rangeKeys (env : Env.t) (p : RequestParameter.t)
    (keys : list PickupKey.t) :
  exitsFatally (rangeKeys env p keys).
Proof.
  induction keys as [|key rest IH]; cbn [rangeKeys]; [auto with fatal|].
  apply fatal_bind.
  - unfold loopBody. apply fatal_bind; [apply fatal_queryNewsAPI|].
    intros [naResp|]; unfold handleResponse; [|auto with fatal].
    destruct (_ <=? _); [auto with fatal|].
    apply fatal_bind; [apply fatal_notificationSlack | auto with fatal].
  - intros [s|]; [auto with fatal | exact IH].
Qed.

Lemma fatal_loadPickupKeys (rp : RequestParameter.t) :
  exitsFatally (loadPickupKeys rp).
Proof.
  unfold loadPickupKeys. destruct (_ || _); [auto with fatal|].
  apply fatal_bind.
  - unfold readS3File. apply fatal_bind; [auto with fatal|].
    intros [err|]; [auto with fatal|].
    apply fatal_bind; [auto with fatal|]. intros _.
    apply fatal_bind; [auto with fatal|].
    intros [err|body]; auto with fatal.
  - intros jsonBytes. destruct (json.Unmarshal _ _ jsonBytes); auto with fatal.
Qed.

(** X1.  Whenever the process exits inside the handler, the status is 1
    and the last thing it did was to print the error: no failure ends the
    run silently or with another status. *)
Theorem every_exit_is_fatal (rp : RequestParameter.t) (w w' : World)
    (code : Z) :
  HandleRequest rp w = Exit code w' ->
  code = 1 /\ exists tr err, trace w' = tr ++ [EvPrintln err].
Proof.
  revert w code w'. change (exitsFatally (HandleRequest rp)).
  unfold HandleRequest. apply fatal_bind; [auto with fatal|].
  intros [err|env]; [auto with fatal|].
  apply fatal_bind.
  { unfold initRequestParameter. apply fatal_bind; [auto with fatal|].
    intros now. apply fatal_bind; auto with fatal. }
  intros p. apply fatal_bind; [apply fatal_loadPickupKeys|].
  intros keys. apply fatal_bind; [apply fatal_rangeKeys|].
  intros [s|]; auto with fatal.
Qed.

Lemma every_exit_is_fatal_witness :
  let w := mkWorld Faulty.emptyStore [] in
  1 = 1
  /\ exists tr err,
       trace (worldOf (HandleRequest Sample.storeRequest w))
       = tr ++ [EvPrintln err].
Proof.
  intros w.
  apply (every_exit_is_fatal Sample.storeRequest w
           (worldOf (HandleRequest Sample.storeRequest w)) 1).
  vm_compute. reflexivity.
Defined.

(** ** The events of a run *)

Section Emits.
Context {A B : Type}.

Lemma emits_ret (P : list Event -> Prop) (a : A) : P [] -> emits P (ret a).
Proof.
  intros H w. split; [reflexivity|]. exists []. now rewrite app_nil_r.
Qed.

Lemma emits_ask (P : list Event -> Prop) (g : Oracle -> A) :
  P [] -> emits P (ask g).
Proof.
  intros H w. split; [reflexivity|]. exists []. now rewrite app_nil_r.
Qed.

Lemma emits_panic (P : list Event -> Prop) : P [] -> emits P (@panic A).
Proof.
  intros H w. split; [reflexivity|]. exists []. now rewrite app_nil_r.
Qed.

Lemma emits_exit (P : list Event -> Prop) (err : error) :
  P [EvPrintln err] -> emits P (fmt_Println err ;; @os_Exit A 1).
Proof. intros H w. split; [reflexivity|]. now exists [EvPrintln err]. Qed.

Lemma emits_bind (P Q R : list Event -> Prop) (m : Go A) (k : A -> Go B) :
  emits P m -> (forall a, emits Q (k a)) ->
  (forall t1, P t1 -> R t1) ->
  (forall t1 t2, P t1 -> Q t2 -> R (t1 ++ t2)) ->
  emits R (bind m k).
Proof.
  intros Hm Hk Hstop Hgo w. unfold bind.
  destruct (Hm w) as [Ho (t1 & Ht & HP)].
  destruct (m w) as [a w1|c w1|w1]; cbn [worldOf] in *.
  - destruct (Hk a w1) as [Ho' (t2 & Ht' & HQ)]. split; [congruence|].
    exists (t1 ++ t2). rewrite Ht', Ht, app_assoc. auto.
  - split; [exact Ho|]. exists t1. auto.
  - split; [exact Ho|]. exists t1. auto.
Qed.

Lemma emits_weaken (P Q : list Event -> Prop) (m : Go A) :
  emits P m -> (forall tr, P tr -> Q tr) -> emits Q m.
Proof.
  intros Hm HPQ w. destruct (Hm w) as [Ho (tr & Ht & HP)].
  split; [exact Ho|]. exists tr. auto.
Qed.

(** Events of one kind: both parts of a computation emit them. *)
Lemma only_bind (ok : Event -> Prop) (m : Go A) (k : A -> Go B) :
  emits (Forall ok) m -> (forall a, emits (Forall ok) (k a)) ->
  emits (Forall ok) (bind m k).
Proof.
  intros Hm Hk. apply (emits_bind (Forall ok) (Forall ok)); auto.
  intros t1 t2 H1 H2. apply Forall_app. auto.
Qed.
End Emits.

Lemma emits_emit (P : list Event -> Prop) (e : Event) :
  P [e] -> emits P (emit e).
Proof. intros H w. split; [reflexivity|]. now exists [e]. Qed.

Lemma emits_client_Do (P : list Event -> Prop) (req : http.Request) :
  P [EvHTTP req] -> emits P (client_Do req).
Proof. intros H w. split; [reflexivity|]. now exists [EvHTTP req]. Qed.

Ltac only_step :=
  first [ apply emits_ret; apply Forall_nil
        | apply emits_ask; apply Forall_nil
        | apply emits_panic; apply Forall_nil
        | apply emits_exit; apply Forall_cons; [exact I | apply Forall_nil]
        | apply emits_emit; apply Forall_cons; [exact I | apply Forall_nil]
        | apply only_bind; [|intros ?] ].

Section LoopEvents.
Variables (env : Env.t) (p : RequestParameter.t).

Lemma only_notificationSlack (message : string) :
  emits (Forall (loopEvent env p)) (notificationSlack env message).
Proof.
  intros w. rewrite notificationSlack_unfold. revert w.
  change (emits (Forall (loopEvent env p))
            (bad <- ask (fun o => http_NewRequest o "POST"
                                    (Env.WebhookURL env)) ;;
             match bad with
             | Some err => fmt_Println err ;; os_Exit 1
             | None =>
                 r <- client_Do (slackRequest env message) ;;
                 match r with
                 | inl err => fmt_Println err ;; os_Exit 1
                 | inr resp =>
                     if http.StatusCode resp =? 200 then ret tt
                     else fmt_Printf
                            ("Unable to post this url : http status is "
                             ++ strconv.Itoa (http.StatusCode resp)
                             ++ " " ++ LF)%string
                 end
             end)).
  only_step; [only_step|]. destruct a as [err|]; [only_step|].
  only_step.
  - apply emits_client_Do. apply Forall_cons; [|apply Forall_nil].
    right. now exists message.
  - destruct a as [err|resp]; [only_step|].
    destruct (_ =? _); only_step.
Qed.

Lemma only_queryNewsAPI (key : PickupKey.t) :
  emits (Forall (loopEvent env p)) (queryNewsAPI env p key).
Proof.
  unfold queryNewsAPI. only_step.
  - apply emits_client_Do. apply Forall_cons; [|apply Forall_nil].
    left. now exists key.
  - destruct a as [err|resp]; [only_step|]. only_step.
    + destruct (_ =? _); only_step.
    + destruct (http.RespBody resp) as [err|body]; [only_step|].
      only_step; [only_step|].
      destruct (json.Unmarshal _ _ body); only_step.
Qed.

Lemma only_loopBody (key : PickupKey.t) :
  emits (Forall (loopEvent env p)) (loopBody env p key).
Proof.
  unfold loopBody. only_step; [apply only_queryNewsAPI|].
  destruct a as [naResp|]; unfold handleResponse; [|only_step].
  destruct (_ <=? _); [only_step|].
  only_step; [apply only_notificationSlack | only_step].
Qed.

Lemma only_rangeKeys (keys : list PickupKey.t) :
  emits (Forall (loopEvent env p)) (rangeKeys env p keys).
Proof.
  induction keys as [|key rest IH]; cbn [rangeKeys]; [only_step|].
  only_step; [apply only_loopBody|].
  destruct a as [s|]; [only_step | exact IH].
Qed.
End LoopEvents.

(** ** The Config Resolver *)

Lemma append_String_nonempty (a b : string) (c : ascii) :
  (a ++ String c b)%string <> ""%string.
Proof. destruct a; discriminate. Qed.

Lemma Format_nonempty (t : time.Time) : time.Format_2006_01_02 t <> ""%string.
Proof.
  unfold time.Format_2006_01_02, time.formatDate.
  destruct (time.dateOf t) as [[y m] d]. apply append_String_nonempty.
Qed.

(** What [initRequestParameter] leaves alone. *)
Lemma initRequestParameter_frame (rp : RequestParameter.t) (w : World) :
  exists p,
    initRequestParameter rp w = Done p w
    /\ RequestParameter.S3BacketName p = RequestParameter.S3BacketName rp
    /\ RequestParameter.S3ObjectKey p = RequestParameter.S3ObjectKey rp
    /\ RequestParameter.Keyword p = RequestParameter.Keyword rp
    /\ RequestParameter.NoticeLowerLimit p
       = RequestParameter.NoticeLowerLimit rp
    /\ (RequestParameter.From rp <> ""%string ->
        RequestParameter.From p = RequestParameter.From rp)
    /\ (RequestParameter.To rp <> ""%string ->
        RequestParameter.To p = RequestParameter.To rp)
    /\ RequestParameter.From p <> ""%string
    /\ RequestParameter.To p <> ""%string.
Proof.
  unfold initRequestParameter, bind, ask, ret.
  eexists. split; [reflexivity|].
  destruct (String.eqb_spec (RequestParameter.From rp) "") as [Hf|Hf];
    cbn [RequestParameter.setFrom RequestParameter.To];
    destruct (String.eqb_spec (RequestParameter.To rp) "") as [Ht|Ht];
    cbn [RequestParameter.setFrom RequestParameter.setTo
         RequestParameter.From RequestParameter.To
         RequestParameter.S3BacketName RequestParameter.S3ObjectKey
         RequestParameter.Keyword RequestParameter.NoticeLowerLimit];
    repeat split; try reflexivity; try congruence;
    try apply Format_nonempty.
Qed.

(** X2.  The Config Resolver touches nothing but the two dates: it has no
    effect on the world, the bucket, the object key, the keyword and the
    threshold come out as they went in, a date that is given is kept even
    when the other one is not, and afterwards neither date is empty,
    whatever the clock and the zone database answer. *)
Theorem defaults_touch_only_empty_dates
    (rp : RequestParameter.t) (w : World) :
  exists p,
    initRequestParameter rp w = Done p w
    /\ RequestParameter.S3BacketName p = RequestParameter.S3BacketName rp
    /\ RequestParameter.S3ObjectKey p = RequestParameter.S3ObjectKey rp
    /\ RequestParameter.Keyword p = RequestParameter.Keyword rp
    /\ RequestParameter.NoticeLowerLimit p
       = RequestParameter.NoticeLowerLimit rp
    /\ (RequestParameter.From rp <> ""%string ->
        RequestParameter.From p = RequestParameter.From rp)
    /\ (RequestParameter.To rp <> ""%string ->
        RequestParameter.To p = RequestParameter.To rp)
    /\ RequestParameter.From p <> ""%string
    /\ RequestParameter.To p <> ""%string.
Proof. apply initRequestParameter_frame. Qed.

(** ** Reading the rules *)

Section LoadEvents.
Variable rp : RequestParameter.t.

Let bucket : string := RequestParameter.S3BacketName rp.
Let key : string := RequestParameter.S3ObjectKey rp.
Let loadTrace : list Event -> Prop := loadEvents rp.

Lemma emits_readS3File :
  bucket <> ""%string -> key <> ""%string ->
  emits loadTrace (readS3File rp).
Proof.
  intros Hb Hk w. unfold readS3File, bind, ask, emit, fmt_Println, emit,
    os_Exit, panic, ret.
  destruct (session_New (oracle w)) as [err|]; cbn [worldOf oracle trace].
  - split; [reflexivity|]. exists []. rewrite app_nil_r. split; [easy|].
    now left.
  - fold bucket key.
    destruct (s3_GetObject (oracle w) bucket key) as [err|body];
      cbn [worldOf oracle trace]; (split; [reflexivity|]).
    + exists [EvS3Get bucket key; EvPrintln err].
      rewrite <- app_assoc. split; [reflexivity|].
      right. repeat split; auto. right. now exists err.
    + exists [EvS3Get bucket key]. split; [reflexivity|].
      right. repeat split; auto.
Qed.

Lemma emits_loadPickupKeys : emits loadTrace (loadPickupKeys rp).
Proof.
  unfold loadPickupKeys. fold bucket key.
  destruct (String.eqb_spec bucket "") as [Hb|Hb];
    [apply emits_ret; now left|].
  destruct (String.eqb_spec key "") as [Hk|Hk];
    [apply emits_ret; now left|].
  cbn [orb]. intros w. unfold bind.
  destruct (emits_readS3File Hb Hk w) as [Ho (tr & Ht & Htr)].
  destruct (readS3File rp w) as [jsonBytes w1|c w1|w1] eqn:E;
    cbn [worldOf] in *; try (split; [exact Ho|]; now exists tr).
  assert (Hread : tr = [EvS3Get bucket key]).
  { revert E. unfold readS3File, bind, ask, emit, fmt_Println, emit,
      os_Exit, panic, ret.
    destruct (session_New (oracle w)); [discriminate|]. fold bucket key.
    cbn [oracle].
    destruct (s3_GetObject (oracle w) bucket key); cbv beta iota;
      [discriminate|].
    intros E. inversion E; subst w1. cbn [trace] in Ht.
    now apply app_inv_head in Ht. }
  destruct (json.Unmarshal _ _ jsonBytes) as [err|keys];
    cbn [worldOf oracle trace fmt_Println emit os_Exit ret bind].
  - split; [exact Ho|]. exists [EvS3Get bucket key; EvPrintln (JSONError err)].
    rewrite Ht, Hread, <- app_assoc. split; [reflexivity|].
    right. repeat split; auto. right. now eexists.
  - split; [exact Ho|]. exists tr. split; [exact Ht|].
    right. repeat split; auto.
Qed.
End LoadEvents.

(** ** A whole run *)

Lemma storeReads_app (t1 t2 : list Event) :
  storeReads (t1 ++ t2) = storeReads t1 ++ storeReads t2.
Proof.
  induction t1 as [|e t1 IH]; [reflexivity|].
  destruct e; cbn [storeReads app]; rewrite IH; reflexivity.
Qed.

Lemma loopEvent_no_read (env : Env.t) (p : RequestParameter.t)
    (tr : list Event) :
  Forall (loopEvent env p) tr -> storeReads tr = [].
Proof.
  induction 1 as [|e tr He _ IH]; [reflexivity|].
  destruct e; cbn [storeReads]; try exact IH. destruct He.
Qed.

(** A run is the reading of the configuration, then of the rules, then
    the loop. *)
Lemma HandleRequest_events (rp : RequestParameter.t) (w : World) :
  oracle (worldOf (HandleRequest rp w)) = oracle w
  /\ ((exists err,
         envconfig_Process (oracle w) "pickupnews" = inl err
         /\ trace (worldOf (HandleRequest rp w)) = trace w ++ [EvPrintln err])
      \/ (exists env p t1 t2,
            envconfig_Process (oracle w) "pickupnews" = inr env
            /\ initRequestParameter rp w = Done p w
            /\ trace (worldOf (HandleRequest rp w)) = trace w ++ t1 ++ t2
            /\ loadEvents p t1
            /\ Forall (loopEvent env p) t2)).
Proof.
  assert (E : HandleRequest rp w
              = match envconfig_Process (oracle w) "pickupnews" with
                | inl err =>
                    Exit 1 (mkWorld (oracle w) (trace w ++ [EvPrintln err]))
                | inr env =>
                    (p <- initRequestParameter rp ;;
                     keys <- loadPickupKeys p ;;
                     r <- rangeKeys env p keys ;;
                     match r with
                     | Some s => ret (s, None)
                     | None => ret ("Success notification."%string, None)
                     end) w
                end).
  { unfold HandleRequest. unfold bind at 1. unfold ask.
    destruct (envconfig_Process (oracle w) "pickupnews"); reflexivity. }
  rewrite E. clear E.
  destruct (envconfig_Process (oracle w) "pickupnews") as [err|env] eqn:Henv.
  - split; [reflexivity|]. left. exists err. split; reflexivity.
  - destruct (initRequestParameter_frame rp w) as (p & Hinit & _).
    rewrite (bind_Done _ _ _ _ _ Hinit).
    assert (H : emits (fun tr => exists t1 t2,
                         tr = t1 ++ t2 /\ loadEvents p t1
                         /\ Forall (loopEvent env p) t2)
                  (keys <- loadPickupKeys p ;;
                   r <- rangeKeys env p keys ;;
                   match r with
                   | Some s => ret (s, @None error)
                   | None => ret ("Success notification."%string, None)
                   end)).
    { apply (emits_bind (loadEvents p) (Forall (loopEvent env p))).
      - apply emits_loadPickupKeys.
      - intros keys. apply only_bind; [apply only_rangeKeys|].
        intros [s|]; apply emits_ret; apply Forall_nil.
      - intros t1 H1. exists t1, []. rewrite app_nil_r. auto.
      - intros t1 t2 H1 H2. exists t1, t2. auto. }
    destruct (H w) as [Ho (tr & Ht & t1 & t2 & -> & H1 & H2)].
    split; [exact Ho|]. right. exists env, p, t1, t2. auto.
Qed.

(** X3.  Whatever the outside answers, a run leaves the outside as it is
    and does nothing but: send news queries built from the configured API
    key, post to the configured webhook, read the one object the request
    names, and print.  No other request goes out and no other object is
    read. *)
Theorem run_reaches_only_its_three_services
    (rp : RequestParameter.t) (w : World) :
  oracle (worldOf (HandleRequest rp w)) = oracle w
  /\ exists tr,
       trace (worldOf (HandleRequest rp w)) = trace w ++ tr
       /\ Forall (runEvent (oracle w) rp) tr.
Proof.
  destruct (HandleRequest_events rp w) as [Ho [(err & Henv & Ht)|H]];
    (split; [exact Ho|]).
  - exists [EvPrintln err]. split; [exact Ht|].
    apply Forall_cons; [exact I | apply Forall_nil].
  - destruct H as (env & p & t1 & t2 & Henv & Hinit & Ht & H1 & H2).
    destruct (initRequestParameter_frame rp w) as (p' & Hinit' & Hb & Hk & _).
    assert (p' = p) by congruence. subst p'.
    exists (t1 ++ t2). split; [exact Ht|]. apply Forall_app. split.
    + unfold loadEvents in H1. cbv zeta in H1. rewrite Hb, Hk in H1.
      destruct H1 as [->|(_ & _ & [->|(err & ->)])];
        repeat (apply Forall_cons; [cbn; auto|]); apply Forall_nil.
    + revert H2. apply Forall_impl. intros [err|line|b k|r]; cbn; auto; [intros []|].
      intros [(key & ->)|(message & ->)]; exists env; (split; [exact Henv|]).
      * left. now exists p, key.
      * right. now exists message.
Qed.

(** X4.  The object store is read at most once in a run, and then before
    anything else happens; it is not read at all when the request leaves
    the bucket or the object key empty. *)
Theorem store_is_read_first_and_once (rp : RequestParameter.t) (w : World) :
  let bucket := RequestParameter.S3BacketName rp in
  let key := RequestParameter.S3ObjectKey rp in
  exists tr,
    trace (worldOf (HandleRequest rp w)) = trace w ++ tr
    /\ (storeReads tr = []
        \/ exists rest, tr = EvS3Get bucket key :: rest
                        /\ storeReads rest = [])
    /\ (bucket = ""%string \/ key = ""%string -> storeReads tr = []).
Proof.
  intros bucket key.
  destruct (HandleRequest_events rp w) as [_ [(err & Henv & Ht)|H]].
  - exists [EvPrintln err]. split; [exact Ht|]. split; [now left | reflexivity].
  - destruct H as (env & p & t1 & t2 & Henv & Hinit & Ht & H1 & H2).
    destruct (initRequestParameter_frame rp w) as (p' & Hinit' & Hb & Hk & _).
    assert (p' = p) by congruence. subst p'.
    apply loopEvent_no_read in H2.
    exists (t1 ++ t2). split; [exact Ht|].
    unfold loadEvents in H1. cbv zeta in H1. rewrite Hb, Hk in H1. fold bucket key in H1.
    destruct H1 as [->|(Hbn & Hkn & [->|(err & ->)])].
    + cbn [app]. split; [now left | auto].
    + split; [|intros [E|E]; contradiction].
      right. exists t2. split; [reflexivity | exact H2].
    + split; [|intros [E|E]; contradiction].
      right. exists (EvPrintln err :: t2). split; [reflexivity | exact H2].
Qed.

(** ** The order of the requests *)

Section Alternation.
Variables (env : Env.t) (p : RequestParameter.t).

(** One turn sends its query, and then at most its notification; a turn
    after which the loop goes on has sent both. *)
Lemma loopBody_requests (key : PickupKey.t) (w : World) :
  (after w (worldOf (loopBody env p key w)) [newsRequest env p key]
   /\ resultOf (loopBody env p key w) <> RDone None)
  \/ exists msg,
       after w (worldOf (loopBody env p key w))
         [newsRequest env p key; slackRequest env msg].
Proof.
  pose proof (queryNewsAPI_after env p key w) as Hq.
  unfold loopBody, bind.
  destruct (queryNewsAPI env p key w) as [[naResp|] w1|c w1|w1];
    cbn [worldOf] in Hq; try (left; split; [exact Hq | discriminate]).
  unfold handleResponse.
  destruct (_ <=? _); [left; split; [exact Hq | discriminate]|].
  set (msg := (_ ++ _)%string).
  destruct (http_NewRequest (oracle w1) "POST" (Env.WebhookURL env))
    as [err|] eqn:Hnew.
  - left. unfold bind.
    rewrite (notificationSlack_rejected env msg w1 err Hnew).
    split; [|discriminate]. cbn [worldOf].
    destruct w1 as [o1 t1]. now apply after_print.
  - right. exists msg.
    pose proof (notificationSlack_after env msg w1 Hnew) as Hn.
    unfold bind.
    destruct (notificationSlack env msg w1) as [u w2|c w2|w2];
      cbn [worldOf ret] in *;
      apply (after_trans _ _ _ _ _ Hq Hn).
Qed.

Lemma rangeKeys_requests (keys : list PickupKey.t) :
  forall w,
  exists (n : nat) (msgs : list string),
    (n <= List.length keys)%nat
    /\ (List.length msgs = n \/ S (List.length msgs) = n)
    /\ after w (worldOf (rangeKeys env p keys w))
         (alternate env p (firstn n keys) msgs).
Proof.
  induction keys as [|key rest IH]; intros w.
  - exists 0%nat, []. repeat split; [lia | now left | apply after_refl].
  - cbn [rangeKeys]. unfold bind.
    destruct (loopBody_requests key w) as [[Ha Hr]|(msg & Ha)].
    + exists 1%nat, []. split; [cbn; lia|]. split; [now right|].
      destruct (loopBody env p key w) as [[s|] w1|c w1|w1];
        cbn [worldOf ret resultOf] in *; try exact Ha.
      now contradiction Hr.
    + destruct (loopBody env p key w) as [[s|] w1|c w1|w1];
        cbn [worldOf ret] in *;
        try (exists 1%nat, [msg]; split; [cbn; lia|];
             split; [now left | exact Ha]).
      destruct (IH w1) as (n & msgs & Hn & Hm & Hrest).
      exists (S n), (msg :: msgs). split; [cbn; lia|].
      split; [cbn; lia|].
      apply (after_trans _ _ _ _ _ Ha Hrest).
Qed.
End Alternation.

(** X5.  However the loop ends (a return, an exit or a panic), the
    requests it has made are a query and then a notification for each rule
    in turn, from the first rule on, up to some rule; only the last of
    these rules may be left with its query alone.  So no rule is skipped,
    no rule is queried twice, and no notification goes out that does not
    follow the query of its rule. *)
Theorem requests_alternate_in_rule_order
    (env : Env.t) (p : RequestParameter.t) (keys : list PickupKey.t)
    (w : World) :
  exists (n : nat) (msgs : list string),
    (n <= List.length keys)%nat
    /\ (List.length msgs = n \/ S (List.length msgs) = n)
    /\ sent (trace (worldOf (rangeKeys env p keys w)))
       = sent (trace w) ++ alternate env p (firstn n keys) msgs.
Proof.
  destruct (rangeKeys_requests env p keys w) as (n & msgs & Hn & Hm & Ha).
  exists n, msgs. repeat split; try assumption. now apply after_sent.
Qed.

(** ** No status code matters *)

Create HintDb anystatus discriminated.

Section AnyStatus.
Variable f : list http.Request -> http.Request -> Z.

#[local] Notation "m ~~ m'" := (simulatesButStatus f m m') (at level 70).

Lemma any_ret {A : Type} (a : A) : ret a ~~ ret a.
Proof. intros w w' H. split; [reflexivity | exact H]. Qed.

Lemma any_bind {A B : Type} (m m' : Go A) (k k' : A -> Go B) :
  m ~~ m' -> (forall a, k a ~~ k' a) -> bind m k ~~ bind m' k'.
Proof.
  intros Hm Hk w w' Hw. destruct (Hm w w' Hw) as [Hr Ha].
  unfold bind.
  destruct (m w) as [a w1|c w1|w1], (m' w') as [a' w1'|c' w1'|w1'];
    cbn in Hr, Ha; try discriminate; inversion Hr; subst.
  - now apply Hk.
  - split; [reflexivity | exact Ha].
  - split; [reflexivity | exact Ha].
Qed.

Lemma any_exit {A : Type} (code : Z) : @os_Exit A code ~~ os_Exit code.
Proof. intros w w' H. split; [reflexivity | exact H]. Qed.

Lemma any_panic {A : Type} : @panic A ~~ panic.
Proof. intros w w' H. split; [reflexivity | exact H]. Qed.

(** Every answer of the outside but those to requests is the same. *)
Lemma any_ask {A : Type} (g : Oracle -> A) :
  (forall o, g (withStatus f o) = g o) -> ask g ~~ ask g.
Proof.
  intros Hg w w' [Ho Hs]. unfold ask. cbn [resultOf worldOf oracle trace].
  rewrite Ho, Hg. split; [reflexivity | split; assumption].
Qed.

Lemma any_emit (e : Event) : emit e ~~ emit e.
Proof.
  intros w w' [Ho Hs]. unfold emit. cbn [resultOf worldOf oracle trace].
  split; [reflexivity|]. split; [exact Ho|]. cbn [trace oracle].
  now rewrite !sent_app, Hs.
Qed.

(** A line on the standard output on one side only. *)
Lemma any_print_l (line : string) : fmt_Printf line ~~ ret tt.
Proof.
  intros w w' [Ho Hs]. unfold fmt_Printf, emit, ret. cbn [resultOf worldOf oracle trace].
  split; [reflexivity|]. split; [exact Ho|]. cbn [trace oracle].
  rewrite sent_app. cbn. now rewrite app_nil_r.
Qed.

Lemma any_print_r (line : string) : ret tt ~~ fmt_Printf line.
Proof.
  intros w w' [Ho Hs]. unfold fmt_Printf, emit, ret. cbn [resultOf worldOf oracle trace].
  split; [reflexivity|]. split; [exact Ho|]. cbn [trace oracle].
  rewrite sent_app. cbn. now rewrite app_nil_r.
Qed.

Lemma any_print (line line' : string) :
  fmt_Printf line ~~ fmt_Printf line'.
Proof.
  intros w w' [Ho Hs]. unfold fmt_Printf, emit. cbn [resultOf worldOf oracle trace].
  split; [reflexivity|]. split; [exact Ho|]. cbn [trace oracle].
  rewrite !sent_app. cbn. now rewrite Hs.
Qed.

#[local] Hint Resolve any_ret any_exit any_panic any_emit any_print
  any_print_l any_print_r : anystatus.

(** A fatal error: it is printed, and the process exits. *)
Ltac fatal_any := apply any_bind; [apply any_emit | intros _; apply any_exit].

(** Reading the same answer of the outside on both sides. *)
Ltac asking_any := apply any_bind; [now apply any_ask|].

(** A request is answered with another status, and with nothing else
    changed. *)
Lemma any_post {A : Type} (req : http.Request)
    (k k' : error + http.Response -> Go A) :
  (forall err, k (inl err) ~~ k' (inl err)) ->
  (forall resp st,
     k (inr resp) ~~ k' (inr (http.mkResponse st (http.RespBody resp)))) ->
  bind (client_Do req) k ~~ bind (client_Do req) k'.
Proof.
  intros Herr Hresp w w' [Ho Hs]. unfold bind, client_Do.
  rewrite Ho, Hs. cbn [http_Do withStatus].
  assert (H1 : alikeButStatus f (mkWorld (oracle w) (trace w ++ [EvHTTP req]))
                 (mkWorld (withStatus f (oracle w))
                    (trace w' ++ [EvHTTP req]))).
  { split; [reflexivity|]. cbn [trace]. now rewrite !sent_app, Hs. }
  destruct (http_Do (oracle w) (sent (trace w)) req) as [err|resp].
  - apply (Herr err _ _ H1).
  - apply (Hresp resp _ _ _ H1).
Qed.

Lemma any_notificationSlack (env : Env.t) (message : string) :
  notificationSlack env message ~~ notificationSlack env message.
Proof.
  intros w w' Hw. rewrite !notificationSlack_unfold. revert w w' Hw.
  asking_any.
  intros [err|].
  - fatal_any.
  - apply any_post.
    + intros err.
      fatal_any.
    + intros resp st. cbn [http.StatusCode].
      destruct (http.StatusCode resp =? 200), (st =? 200);
        auto with anystatus.
Qed.

Lemma any_queryNewsAPI (env : Env.t) (p : RequestParameter.t)
    (key : PickupKey.t) :
  queryNewsAPI env p key ~~ queryNewsAPI env p key.
Proof.
  unfold queryNewsAPI.
  apply any_post.
  - intros err. fatal_any.
  - intros resp st. cbn [http.StatusCode http.RespBody]. apply any_bind.
    + destruct (http.StatusCode resp =? 200), (st =? 200);
        auto with anystatus.
    + intros _. destruct (http.RespBody resp) as [err|body].
      * fatal_any.
      * asking_any. intros timeParser.
        destruct (json.Unmarshal _ _ body).
        -- fatal_any.
        -- apply any_ret.
Qed.

Lemma any_loopBody (env : Env.t) (p : RequestParameter.t)
    (key : PickupKey.t) :
  loopBody env p key ~~ loopBody env p key.
Proof.
  unfold loopBody. apply any_bind; [apply any_queryNewsAPI|].
  intros [naResp|]; unfold handleResponse; [|apply any_panic].
  destruct (_ <=? _); [apply any_ret|].
  apply any_bind; [apply any_notificationSlack | intros _; apply any_ret].
Qed.

Lemma any_rangeKeys (env : Env.t) (p : RequestParameter.t)
    (keys : list PickupKey.t) :
  rangeKeys env p keys ~~ rangeKeys env p keys.
Proof.
  induction keys as [|key rest IH]; cbn [rangeKeys]; [apply any_ret|].
  apply any_bind; [apply any_loopBody|].
  intros [s|]; [apply any_ret | exact IH].
Qed.

Lemma any_initRequestParameter (rp : RequestParameter.t) :
  initRequestParameter rp ~~ initRequestParameter rp.
Proof.
  unfold initRequestParameter.
  asking_any. intros now.
  asking_any. intros r. apply any_ret.
Qed.

Lemma any_loadPickupKeys (rp : RequestParameter.t) :
  loadPickupKeys rp ~~ loadPickupKeys rp.
Proof.
  unfold loadPickupKeys. destruct (_ || _); [apply any_ret|].
  apply any_bind.
  - unfold readS3File. asking_any.
    intros [err|]; [apply any_panic|].
    apply any_bind; [apply any_emit|]. intros _.
    asking_any.
    intros [err|body]; [|apply any_ret].
    fatal_any.
  - intros jsonBytes. destruct (json.Unmarshal _ _ jsonBytes).
    + fatal_any.
    + apply any_ret.
Qed.

Lemma any_HandleRequest (rp : RequestParameter.t) :
  HandleRequest rp ~~ HandleRequest rp.
Proof.
  unfold HandleRequest. asking_any.
  intros [err|env].
  - fatal_any.
  - apply any_bind; [apply any_initRequestParameter|]. intros p.
    apply any_bind; [apply any_loadPickupKeys|]. intros keys.
    apply any_bind; [apply any_rangeKeys|].
    intros [s|]; apply any_ret.
Qed.
End AnyStatus.

(** X6.  The status codes of the answers, of NewsAPI as of the webhook,
    have no part in what the handler does: with any other codes in the
    answers it ends the same way (the same returned string, exit or
    panic) after sending the same requests.  Only the printed warnings
    differ. *)
Theorem status_codes_change_nothing
    (rp : RequestParameter.t) (w : World)
    (f : list http.Request -> http.Request -> Z) :
  let w' := mkWorld (withStatus f (oracle w)) (trace w) in
  resultOf (HandleRequest rp w') = resultOf (HandleRequest rp w)
  /\ sent (trace (worldOf (HandleRequest rp w')))
     = sent (trace (worldOf (HandleRequest rp w))).
Proof.
  intros w'.
  destruct (any_HandleRequest f rp w w') as [Hr [_ Hs]];
    [split; reflexivity|].
  split; [symmetry; exact Hr | exact Hs].
Qed.

(** ** The query of a news request *)

Lemma allChars_app (P : ascii -> bool) (a b : string) :
  allChars P (a ++ b)%string = allChars P a && allChars P b.
Proof.
  induction a as [|c a IH]; [reflexivity|].
  cbn [String.append allChars]. now rewrite IH, andb_assoc.
Qed.

(** Each byte is escaped to one, or to three, characters of a query. *)
Lemma QueryEscape_char (c : ascii) (s : string) :
  allChars isQueryChar (url.QueryEscape (String c s))
  = allChars isQueryChar (url.QueryEscape s).
Proof.
  destruct c as [[|] [|] [|] [|] [|] [|] [|] [|]]; reflexivity.
Qed.

Lemma QueryEscape_chars (s : string) :
  allChars isQueryChar (url.QueryEscape s) = true.
Proof.
  induction s as [|c s IH]; [reflexivity|]. now rewrite QueryEscape_char.
Qed.

(** X7.  The query of a news request is made of the four pairs apiKey,
    from, qInTitle and to, in this order, each value escaped; and an
    escaped text holds nothing but letters, digits and the seven marks
    - _ . ~ + and percent, so that no keyword, date or key can end a pair
    or start a new one. *)
Theorem news_query_is_four_escaped_pairs
    (env : Env.t) (p : RequestParameter.t) (key : PickupKey.t) :
  http.RawQuery (newsRequest env p key)
  = Some ("apiKey=" ++ url.QueryEscape (Env.Apikey env)
          ++ "&from=" ++ url.QueryEscape (RequestParameter.From p)
          ++ "&qInTitle=" ++ url.QueryEscape (PickupKey.Keyword key)
          ++ "&to=" ++ url.QueryEscape (RequestParameter.To p))%string
  /\ forall s, allChars isQueryChar (url.QueryEscape s) = true.
Proof. split; [reflexivity | apply QueryEscape_chars]. Qed.

Lemma unescapeQuery_char (c : ascii) (s : string) :
  unescapeQuery (url.QueryEscape (String c s))
  = String c (unescapeQuery (url.QueryEscape s)).
Proof.
  destruct c as [[|] [|] [|] [|] [|] [|] [|] [|]]; reflexivity.
Qed.

(** Escaping loses nothing. *)
Lemma unescapeQuery_QueryEscape (s : string) :
  unescapeQuery (url.QueryEscape s) = s.
Proof.
  induction s as [|c s IH]; [reflexivity|].
  now rewrite unescapeQuery_char, IH.
Qed.

Lemma QueryEscape_inj (a b : string) :
  url.QueryEscape a = url.QueryEscape b -> a = b.
Proof.
  intros H. rewrite <- (unescapeQuery_QueryEscape a), H.
  apply unescapeQuery_QueryEscape.
Qed.

(** Two escaped texts, each followed by an ampersand, are read apart. *)
Lemma split_at_ampersand (a : string) :
  forall a' r r',
    allChars isQueryChar a = true -> allChars isQueryChar a' = true ->
    (a ++ String "&" r)%string = (a' ++ String "&" r')%string ->
    a = a' /\ r = r'.
Proof.
  induction a as [|c a IH]; intros [|c' a'] r r' Ha Ha' H;
    cbn [String.append allChars] in *.
  - inversion H. auto.
  - inversion H; subst c'. discriminate.
  - inversion H; subst c. discriminate.
  - inversion H; subst c'.
    apply andb_prop in Ha as [_ Ha]. apply andb_prop in Ha' as [_ Ha'].
    destruct (IH a' r r' Ha Ha' H2) as [-> ->]. auto.
Qed.

(** X8.  The query keeps its four values apart: two news requests are the
    same only when the API key, both dates and the keyword are the same.
    Escaping never makes two different texts, or two different sets of
    values, collide. *)
Theorem news_request_determines_its_values
    (env env' : Env.t) (p p' : RequestParameter.t) (key key' : PickupKey.t) :
  newsRequest env p key = newsRequest env' p' key' ->
  Env.Apikey env = Env.Apikey env'
  /\ RequestParameter.From p = RequestParameter.From p'
  /\ PickupKey.Keyword key = PickupKey.Keyword key'
  /\ RequestParameter.To p = RequestParameter.To p'.
Proof.
  intros H. apply (f_equal http.RawQuery) in H.
  change (Some ("apiKey=" ++ url.QueryEscape (Env.Apikey env)
                ++ String "&" ("from=" ++ url.QueryEscape (RequestParameter.From p)
                ++ String "&" ("qInTitle="
                               ++ url.QueryEscape (PickupKey.Keyword key)
                ++ String "&" ("to="
                               ++ url.QueryEscape (RequestParameter.To p)))))%string
          = Some ("apiKey=" ++ url.QueryEscape (Env.Apikey env')
                ++ String "&" ("from="
                               ++ url.QueryEscape (RequestParameter.From p')
                ++ String "&" ("qInTitle="
                               ++ url.QueryEscape (PickupKey.Keyword key')
                ++ String "&" ("to="
                               ++ url.QueryEscape (RequestParameter.To p')))))%string)
    in H.
  inversion H as [H0]. clear H.
  apply split_at_ampersand in H0 as [Ha H0]; try apply QueryEscape_chars.
  apply QueryEscape_inj in Ha.
  inversion H0 as [H1]. clear H0.
  apply split_at_ampersand in H1 as [Hf H1]; try apply QueryEscape_chars.
  apply QueryEscape_inj in Hf.
  inversion H1 as [H2]. clear H1.
  apply split_at_ampersand in H2 as [Hk H2]; try apply QueryEscape_chars.
  apply QueryEscape_inj in Hk.
  inversion H2 as [H3]. apply QueryEscape_inj in H3. auto.
Qed.

Lemma news_request_determines_its_values_witness :
  Env.Apikey Sample.env = Env.Apikey (Env.mk "KEY" "https://other.example")
  /\ RequestParameter.From Sample.storeRequest
     = RequestParameter.From
         (RequestParameter.mk "2024-02-01" "2024-02-29" "" "" "rust" 7)
  /\ PickupKey.Keyword Sample.goRule
     = PickupKey.Keyword (PickupKey.mk "go" 99)
  /\ RequestParameter.To Sample.storeRequest
     = RequestParameter.To
         (RequestParameter.mk "2024-02-01" "2024-02-29" "" "" "rust" 7).
Proof.
  apply (news_request_determines_its_values
           Sample.env (Env.mk "KEY" "https://other.example")
           Sample.storeRequest
           (RequestParameter.mk "2024-02-01" "2024-02-29" "" "" "rust" 7)
           Sample.goRule (PickupKey.mk "go" 99)).
  reflexivity.
Defined.

(** ** The body of a notification *)

(** Inside a string the scanner goes through a text without quotes and
    backslashes up to its first control character. *)
Lemma scan_plain (msg : string) :
  forall (acc : list ascii) (rest : string) (out : list json.token),
    allChars isPlain msg = true ->
    json.scan (json.MString acc) (msg ++ rest) out
    = if allChars isPrintable msg
      then json.scan
             (json.MString (rev (list_ascii_of_string msg) ++ acc)) rest out
      else None.
Proof.
  induction msg as [|c msg IH]; intros acc rest out Hp; [reflexivity|].
  cbn [allChars] in Hp. apply andb_prop in Hp as [Hc Hp].
  unfold isPlain in Hc. apply andb_prop in Hc as [Hq Hb].
  apply negb_true_iff in Hq, Hb.
  cbn [String.append json.scan allChars list_ascii_of_string rev].
  rewrite Hq, Hb. unfold isPrintable at 1.
  destruct (Z.ltb_spec (byte_val c) 32) as [Hlt|Hge].
  - destruct (Z.leb_spec 32 (byte_val c)); [lia | reflexivity].
  - destruct (Z.leb_spec 32 (byte_val c)); [|lia].
    cbn [andb]. rewrite (IH (c :: acc) rest out Hp), <- app_assoc.
    reflexivity.
Qed.

Lemma text_rev (msg : string) :
  json.text (rev (list_ascii_of_string msg) ++ []) = msg.
Proof.
  unfold json.text. rewrite app_nil_r, rev_involutive.
  apply string_of_list_ascii_of_string.
Qed.

Lemma parse_body (message : string) :
  allChars isPlain message = true ->
  json.parse ("{" ++ DQ ++ "text" ++ DQ ++ ":" ++ DQ ++ message ++ DQ ++ "}")
  = if allChars isPrintable message
    then Some (json.Object [("text"%string, json.Str message)])
    else None.
Proof.
  intros Hp. unfold json.parse.
  change (json.scan json.MStart
            ("{" ++ DQ ++ "text" ++ DQ ++ ":" ++ DQ ++ message ++ DQ ++ "}")
            [])
    with (json.scan (json.MString []) (message ++ (DQ ++ "}"))
            [json.TColon; json.TStr "text"; json.TLBrace]).
  rewrite (scan_plain message [] _ _ Hp).
  destruct (allChars isPrintable message); [|reflexivity].
  change (json.scan (json.MString (rev (list_ascii_of_string message) ++ []))
            (DQ ++ "}") [json.TColon; json.TStr "text"; json.TLBrace])
    with (Some [json.TLBrace; json.TStr "text"; json.TColon;
                json.TStr (json.text
                             (rev (list_ascii_of_string message) ++ []));
                json.TRBrace]).
  rewrite text_rev. reflexivity.
Qed.

Lemma worldOf_then_ret {A B : Type} (m : Go A) (b : B) (w : World) :
  worldOf ((m ;; ret b) w) = worldOf (m w).
Proof. unfold bind, ret. destruct (m w); reflexivity. Qed.

(** The header line ends in a line feed. *)
Lemma header_not_printable (p : RequestParameter.t) (key : PickupKey.t)
    (totalResults : Z) (detail : string) :
  allChars isPrintable (messageHeader p key totalResults ++ detail)%string
  = false.
Proof.
  unfold messageHeader. rewrite !allChars_app.
  change (allChars isPrintable LF) with false.
  now rewrite !andb_false_r.
Qed.

(** X9.  The notifier writes the message between quotes as it is.  For a
    message without double quotes and backslashes, the body it sends is a
    well-formed JSON text, and then the object with the one member text
    holding the message, exactly when the message has no control
    character in it; with one, the body is not JSON. *)
Theorem plain_message_makes_a_json_body
    (env : Env.t) (message : string) (w : World) :
  http_NewRequest (oracle w) "POST" (Env.WebhookURL env) = None ->
  allChars isPlain message = true ->
  exists req,
    sent (trace (worldOf (notificationSlack env message w)))
    = sent (trace w) ++ [req]
    /\ json.parse (http.Body req)
       = if allChars isPrintable message
         then Some (json.Object [("text"%string, json.Str message)])
         else None.
Proof.
  intros Hnew Hp. exists (slackRequest env message). split.
  - apply after_sent. now apply notificationSlack_after.
  - apply (parse_body message Hp).
Qed.

Lemma plain_message_makes_a_json_body_witness :
  exists req,
    sent (trace (worldOf (notificationSlack Sample.env "3 new articles"
                            (Sample.start 200))))
    = sent (trace (Sample.start 200)) ++ [req]
    /\ json.parse (http.Body req)
       = if allChars isPrintable "3 new articles"
         then Some (json.Object
                      [("text"%string, json.Str "3 new articles")])
         else None.
Proof.
  apply (plain_message_makes_a_json_body Sample.env "3 new articles"
           (Sample.start 200)); reflexivity.
Defined.

(** X10.  Every message the handler itself builds has the line feed of
    its header line in it, written into the body as it is.  So the body of
    a notification of the handler is never a well-formed JSON text when
    the keyword, the dates, the titles and the URLs are free of double
    quotes and backslashes. *)
Theorem handler_notification_body_is_not_json
    (env : Env.t) (p : RequestParameter.t) (key : PickupKey.t)
    (naResp : NewsAPIRespons.t) (w : World) :
  PickupKey.NoticeLowerLimit key < NewsAPIRespons.TotalResults naResp ->
  http_NewRequest (oracle w) "POST" (Env.WebhookURL env) = None ->
  allChars isPlain
    (messageHeader p key (NewsAPIRespons.TotalResults naResp)
     ++ writeArticles 0 (NewsAPIRespons.Articles naResp) "")%string = true ->
  exists req,
    sent (trace (worldOf (handleResponse env p key (Some naResp) w)))
    = sent (trace w) ++ [req]
    /\ json.parse (http.Body req) = None.
Proof.
  intros Habove Hnew Hp. unfold handleResponse.
  destruct (Z.leb_spec (NewsAPIRespons.TotalResults naResp)
              (PickupKey.NoticeLowerLimit key)) as [Hle|_]; [lia|].
  rewrite worldOf_then_ret.
  set (message := (_ ++ _)%string) in *.
  exists (slackRequest env message). split.
  - apply after_sent. now apply notificationSlack_after.
  - change (http.Body (slackRequest env message))
      with ("{" ++ DQ ++ "text" ++ DQ ++ ":" ++ DQ ++ message ++ DQ ++ "}")%string.
    rewrite (parse_body message Hp). unfold message.
    now rewrite header_not_printable.
Qed.

Lemma handler_notification_body_is_not_json_witness :
  exists req,
    sent (trace (worldOf (handleResponse Sample.env Sample.storeRequest
                            Sample.goRule (Some Sample.news)
                            (Sample.start 200))))
    = sent (trace (Sample.start 200)) ++ [req]
    /\ json.parse (http.Body req) = None.
Proof.
  apply (handler_notification_body_is_not_json Sample.env
           Sample.storeRequest Sample.goRule Sample.news (Sample.start 200)).
  - cbn. lia.
  - reflexivity.
  - vm_compute. reflexivity.
Defined.

(** ** Rules that do not decode *)

Lemma storeElems_fail {A : Type} (zero : A) (st : json.Store A)
    (js : list json.value) (j : json.value) :
  In j js -> st j zero = None -> json.storeElems zero st js = None.
Proof.
  induction js as [|j0 js IH]; intros Hin Hj; [destruct Hin|].
  cbn [json.storeElems]. destruct Hin as [->|Hin].
  - now rewrite Hj.
  - rewrite (IH Hin Hj). now destruct (st j0 zero).
Qed.

Lemma storeMembers_fail {A : Type} (field : string -> json.Store A)
    (ms : list (string * json.value)) (k : string) (v : json.value) :
  In (k, v) ms -> (forall cur, field (json.unquote k) v cur = None) ->
  forall cur, json.storeMembers field ms cur = None.
Proof.
  induction ms as [|[k0 v0] ms IH]; intros Hin Hf cur; [destruct Hin|].
  cbn [json.storeMembers]. destruct Hin as [E|Hin].
  - inversion E; subst. now rewrite Hf.
  - destruct (field (json.unquote k0) v0 cur); [now apply IH | reflexivity].
Qed.

(** The folded name of a field is the name in lower case. *)
Lemma keyMatches_limit_not_keyword (key : string) :
  json.keyMatches "noticeLowerLimit" key = true ->
  json.keyMatches "keyword" key = false.
Proof.
  unfold json.keyMatches. intros H.
  apply orb_true_iff in H as [H|H]; apply String.eqb_eq in H.
  - subst key. reflexivity.
  - apply orb_false_iff. split; apply String.eqb_neq; intros E.
    + subst key. discriminate H.
    + rewrite E in H. discriminate H.
Qed.

Section FromTheStore.
Variables (rp : RequestParameter.t) (w : World) (env : Env.t)
  (blob : string).

Let bucket : string := RequestParameter.S3BacketName rp.
Let key : string := RequestParameter.S3ObjectKey rp.
Let w1 : World := mkWorld (oracle w) (trace w ++ [EvS3Get bucket key]).

Hypothesis Henv : envconfig_Process (oracle w) "pickupnews" = inr env.
Hypothesis Hbucket : bucket <> ""%string.
Hypothesis Hobject : key <> ""%string.
Hypothesis Hsession : session_New (oracle w) = None.
Hypothesis Hget : s3_GetObject (oracle w) bucket key = inr blob.

(** A run that reads its rules from the store, up to the loop. *)
Lemma HandleRequest_store :
  exists p,
    initRequestParameter rp w = Done p w
    /\ HandleRequest rp w
       = match json.Unmarshal
                 (json.storeSlice PickupKey.zero PickupKey.store) [] blob with
         | inl err =>
             Exit 1 (mkWorld (oracle w)
                       (trace w ++ [EvS3Get bucket key;
                                    EvPrintln (JSONError err)]))
         | inr keys =>
             (r <- rangeKeys env p keys ;;
              match r with
              | Some s => ret (s, None)
              | None => ret ("Success notification."%string, None)
              end) w1
         end.
Proof.
  destruct (initRequestParameter_frame rp w) as (p & Hinit & Hb & Hk & _).
  exists p. split; [exact Hinit|].
  unfold HandleRequest. unfold bind at 1. unfold ask at 1. rewrite Henv.
  rewrite (bind_Done _ _ _ _ _ Hinit).
  assert (Hread : readS3File p w = Done blob w1).
  { unfold readS3File, bind, ask, emit, ret. rewrite Hsession, Hb, Hk.
    cbn [oracle]. fold bucket key. now rewrite Hget. }
  assert (Hbn : RequestParameter.S3BacketName p <> ""%string)
    by now rewrite Hb.
  assert (Hkn : RequestParameter.S3ObjectKey p <> ""%string)
    by now rewrite Hk.
  unfold bind at 1. rewrite (loadPickupKeys_store p w Hbn Hkn).
  rewrite (bind_Done _ _ _ _ _ Hread).
  destruct (json.Unmarshal _ _ blob) as [err|keys]; [|reflexivity].
  unfold bind, fmt_Println, emit, os_Exit, w1. cbn [oracle trace].
  now rewrite <- app_assoc.
Qed.
End FromTheStore.

(** X11.  One entry of the stored rule list whose noticeLowerLimit is not
    an integer (a string, a fraction, a number out of the 64-bit range)
    spoils the whole list: the run prints the error and exits with status
    1 right after reading the object, and no query is made, not even for
    the well-formed entries before it. *)
Theorem bad_rule_entry_ends_the_run
    (rp : RequestParameter.t) (w : World) (env : Env.t) (blob : string)
    (js : list json.value) (ms : list (string * json.value))
    (k : string) (v : json.value) :
  let bucket := RequestParameter.S3BacketName rp in
  let key := RequestParameter.S3ObjectKey rp in
  envconfig_Process (oracle w) "pickupnews" = inr env ->
  bucket <> ""%string -> key <> ""%string ->
  session_New (oracle w) = None ->
  s3_GetObject (oracle w) bucket key = inr blob ->
  json.parse blob = Some (json.Array js) ->
  In (json.Object ms) js -> In (k, v) ms ->
  json.keyMatches "noticeLowerLimit" (json.unquote k) = true ->
  json.storeInt v 0 = None ->
  HandleRequest rp w
  = Exit 1 (mkWorld (oracle w)
              (trace w ++ [EvS3Get bucket key;
                           EvPrintln (JSONError json.StoreError)])).
Proof.
  intros bucket key Henv Hb Hk Hsession Hget Hparse Hentry Hmember Hsel Hv.
  destruct (HandleRequest_store rp w env blob Henv Hb Hk Hsession Hget)
    as (p & _ & ->).
  unfold json.Unmarshal. rewrite Hparse. cbn [json.storeSlice].
  rewrite (storeElems_fail PickupKey.zero PickupKey.store js
             (json.Object ms) Hentry); [reflexivity|].
  unfold PickupKey.store, json.storeStruct.
  apply (storeMembers_fail PickupKey.field ms k v Hmember).
  intros cur. unfold PickupKey.field.
  rewrite (keyMatches_limit_not_keyword _ Hsel), Hsel.
  assert (Hcur : json.storeInt v (PickupKey.NoticeLowerLimit cur) = None).
  { destruct v; try discriminate Hv; try reflexivity. exact Hv. }
  now rewrite Hcur.
Qed.

Lemma bad_rule_entry_ends_the_run_witness :
  HandleRequest Sample.storeRequest (Sample.startWith Faulty.badRulesBlob)
  = Exit 1 (mkWorld (Sample.outside 200 Faulty.badRulesBlob)
              ([] ++ [EvS3Get "bucket" "rules.json";
                      EvPrintln (JSONError json.StoreError)])).
Proof.
  apply (bad_rule_entry_ends_the_run Sample.storeRequest
           (Sample.startWith Faulty.badRulesBlob) Sample.env
           Faulty.badRulesBlob
           [json.Object [("keyword", json.Str "go");
                         ("noticeLowerLimit", json.Number "5")];
            json.Object [("keyword", json.Str "rust");
                         ("noticeLowerLimit", json.Str "50")]]
           [("keyword", json.Str "rust"); ("noticeLowerLimit", json.Str "50")]
           "noticeLowerLimit" (json.Str "50"))%string.
  - reflexivity.
  - discriminate.
  - discriminate.
  - reflexivity.
  - reflexivity.
  - vm_compute. reflexivity.
  - right. left. reflexivity.
  - right. left. reflexivity.
  - reflexivity.
  - reflexivity.
Defined.

(** X12.  A stored rule list that is the empty array, or the JSON text
    null, is a list of no rules: the run reads the object, makes no
    request at all and returns "Success notification." *)
Theorem empty_rule_list_succeeds_silently
    (rp : RequestParameter.t) (w : World) (env : Env.t) (blob : string) :
  let bucket := RequestParameter.S3BacketName rp in
  let key := RequestParameter.S3ObjectKey rp in
  envconfig_Process (oracle w) "pickupnews" = inr env ->
  bucket <> ""%string -> key <> ""%string ->
  session_New (oracle w) = None ->
  s3_GetObject (oracle w) bucket key = inr blob ->
  json.parse blob = Some (json.Array []) \/ json.parse blob = Some json.Null ->
  HandleRequest rp w
  = Done ("Success notification."%string, None)
      (mkWorld (oracle w) (trace w ++ [EvS3Get bucket key])).
Proof.
  intros bucket key Henv Hb Hk Hsession Hget Hparse.
  destruct (HandleRequest_store rp w env blob Henv Hb Hk Hsession Hget)
    as (p & _ & ->).
  unfold json.Unmarshal. destruct Hparse as [-> | ->]; reflexivity.
Qed.

Lemma empty_rule_list_succeeds_silently_witness :
  HandleRequest Sample.storeRequest (Sample.startWith " [ ] ")
  = Done ("Success notification."%string, None)
      (mkWorld (Sample.outside 200 " [ ] ")
         ([] ++ [EvS3Get "bucket" "rules.json"])).
Proof.
  apply (empty_rule_list_succeeds_silently Sample.storeRequest
           (Sample.startWith " [ ] ") Sample.env " [ ] ").
  - reflexivity.
  - discriminate.
  - discriminate.
  - reflexivity.
  - reflexivity.
  - left. vm_compute. reflexivity.
Defined.

(** ** Answers of NewsAPI *)

Section Answer.
Variables (env : Env.t) (p : RequestParameter.t) (key : PickupKey.t)
  (w : World) (resp : http.Response) (body : string).

Hypothesis Hdo :
  http_Do (oracle w) (sent (trace w)) (newsRequest env p key) = inr resp.
Hypothesis Hbody : http.RespBody resp = inr body.

(** The world after the query and the warning for its status, if any. *)
Lemma queryNewsAPI_answer :
  exists w1,
    after w w1 [newsRequest env p key]
    /\ oracle w1 = oracle w
    /\ queryNewsAPI env p key w
       = match json.Unmarshal
                 (NewsAPIRespons.storePtr (time_UnmarshalJSON (oracle w)))
                 (Some NewsAPIRespons.zero) body with
         | inl err =>
             Exit 1 (mkWorld (oracle w1)
                       (trace w1 ++ [EvPrintln (JSONError err)]))
         | inr naResp => Done naResp w1
         end.
Proof.
  unfold queryNewsAPI, bind, client_Do. rewrite Hdo.
  set (w0 := mkWorld (oracle w) (trace w ++ [EvHTTP (newsRequest env p key)])).
  assert (H0 : after w w0 [newsRequest env p key]) by apply after_emit.
  destruct (http.StatusCode resp =? 200).
  - exists w0. split; [exact H0|]. split; [reflexivity|].
    unfold ret, ask. rewrite Hbody. cbn [oracle w0].
    destruct (json.Unmarshal _ _ body); reflexivity.
  - eexists (mkWorld (oracle w) (trace w0 ++ [EvPrintf _])).
    split; [apply after_print; [exact H0 | reflexivity]|].
    split; [reflexivity|].
    unfold fmt_Printf, emit, ask. rewrite Hbody. cbn [oracle trace w0].
    destruct (json.Unmarshal _ _ body); reflexivity.
Qed.
End Answer.

(** A member that selects no "totalResults" leaves the count as it is. *)
Lemma storeMembers_no_total (timeParser : string -> bool)
    (ms : list (string * json.value)) :
  forall r0 r,
    omitsField "totalResults" ms = true ->
    json.storeMembers (NewsAPIRespons.field timeParser) ms r0 = Some r ->
    NewsAPIRespons.TotalResults r = NewsAPIRespons.TotalResults r0.
Proof.
  induction ms as [|[k v] ms IH]; intros r0 r Ho Hs.
  - inversion Hs. reflexivity.
  - cbn [omitsField forallb fst] in Ho. apply andb_prop in Ho as [Hk Ho].
    apply negb_true_iff in Hk. cbn [json.storeMembers] in Hs.
    destruct (NewsAPIRespons.field timeParser (json.unquote k) v r0)
      as [r1|] eqn:Hf; [|discriminate].
    rewrite (IH r1 r Ho Hs).
    unfold NewsAPIRespons.field in Hf. rewrite Hk in Hf.
    destruct (json.keyMatches "status" (json.unquote k)).
    + destruct (json.storeString v (NewsAPIRespons.Status r0));
        inversion Hf; reflexivity.
    + destruct (json.keyMatches "articles" (json.unquote k)).
      * destruct (json.storeSlice _ _ v (NewsAPIRespons.Articles r0));
          inversion Hf; reflexivity.
      * inversion Hf; reflexivity.
Qed.

(** X13.  An answer whose object has no totalResults member, such as the
    error object NewsAPI sends with a status other than 200, counts as
    zero results: for a rule with a threshold of zero or more the run
    returns early with TotalResult:0 in its message, and nobody is
    notified of the failure. *)
Theorem answer_without_count_is_zero_results
    (env : Env.t) (p : RequestParameter.t) (key : PickupKey.t) (w : World)
    (resp : http.Response) (body : string)
    (ms : list (string * json.value)) (naResp : NewsAPIRespons.t) :
  http_Do (oracle w) (sent (trace w)) (newsRequest env p key) = inr resp ->
  http.RespBody resp = inr body ->
  json.parse body = Some (json.Object ms) ->
  omitsField "totalResults" ms = true ->
  json.storeMembers (NewsAPIRespons.field (time_UnmarshalJSON (oracle w)))
    ms NewsAPIRespons.zero = Some naResp ->
  0 <= PickupKey.NoticeLowerLimit key ->
  resultOf (loopBody env p key w)
  = RDone (Some (belowLimitMessage 0 (PickupKey.NoticeLowerLimit key)))
  /\ notifications (worldOf (loopBody env p key w)) = notifications w.
Proof.
  intros Hdo Hbody Hparse Homit Hstore Hlimit.
  destruct (queryNewsAPI_answer env p key w resp body Hdo Hbody)
    as (w1 & Hafter & _ & Hq).
  unfold json.Unmarshal in Hq. rewrite Hparse in Hq.
  cbn [NewsAPIRespons.storePtr json.storeStruct] in Hq.
  rewrite Hstore in Hq. cbn [option_map] in Hq.
  pose proof (storeMembers_no_total _ ms _ _ Homit Hstore) as Hzero.
  cbn [NewsAPIRespons.zero NewsAPIRespons.TotalResults] in Hzero.
  rewrite (loopBody_below env p key w w1 naResp Hq); [|lia].
  rewrite Hzero. split; [reflexivity|]. cbn [worldOf].
  rewrite (after_notifications _ _ _ Hafter), notifications_news.
  apply app_nil_r.
Qed.

Lemma answer_without_count_is_zero_results_witness :
  let w := mkWorld (Faulty.newsAnswers 401 Faulty.errorBody) [] in
  resultOf (loopBody Sample.env Sample.storeRequest Sample.goRule w)
  = RDone (Some (belowLimitMessage 0
                   (PickupKey.NoticeLowerLimit Sample.goRule)))
  /\ notifications
       (worldOf (loopBody Sample.env Sample.storeRequest Sample.goRule w))
     = notifications w.
Proof.
  intros w.
  apply (answer_without_count_is_zero_results Sample.env Sample.storeRequest
           Sample.goRule w
           (http.mkResponse 401 (inr Faulty.errorBody)) Faulty.errorBody
           [("status", json.Str "error"); ("code", json.Str "apiKeyInvalid");
            ("message", json.Str "Your API key is invalid.")]
           (NewsAPIRespons.mk "error" 0 []))%string.
  - reflexivity.
  - reflexivity.
  - vm_compute. reflexivity.
  - vm_compute. reflexivity.
  - vm_compute. reflexivity.
  - cbn. lia.
Defined.

(** X14.  An answer that decodes to nothing ends the run at once, after
    its query and before any notification for its rule: the JSON text
    null leaves a nil pointer, and the handler panics on it; a body that
    is not a JSON text (an empty body, say) is an error that is printed
    before the exit with status 1. *)
Theorem empty_answers_end_the_run
    (env : Env.t) (p : RequestParameter.t) (key : PickupKey.t) (w : World)
    (resp : http.Response) (body : string) :
  http_Do (oracle w) (sent (trace w)) (newsRequest env p key) = inr resp ->
  http.RespBody resp = inr body ->
  exists w1,
    sent (trace w1) = sent (trace w) ++ [newsRequest env p key]
    /\ (json.parse body = Some json.Null ->
        loopBody env p key w = Panic w1)
    /\ (json.parse body = None ->
        loopBody env p key w
        = Exit 1 (mkWorld (oracle w)
                    (trace w1 ++ [EvPrintln (JSONError json.SyntaxError)]))).
Proof.
  intros Hdo Hbody.
  destruct (queryNewsAPI_answer env p key w resp body Hdo Hbody)
    as (w1 & Hafter & Ho & Hq).
  exists w1. split; [now apply after_sent|].
  unfold loopBody, bind. rewrite Hq. unfold json.Unmarshal.
  split; intros ->; [reflexivity|]. now rewrite Ho.
Qed.

Lemma empty_answers_end_the_run_witness :
  let w := mkWorld (Faulty.newsAnswers 200 "null") [] in
  exists w1,
    sent (trace w1)
    = sent (trace w)
      ++ [newsRequest Sample.env Sample.storeRequest Sample.goRule]
    /\ (json.parse "null" = Some json.Null ->
        loopBody Sample.env Sample.storeRequest Sample.goRule w = Panic w1)
    /\ (json.parse "null" = None ->
        loopBody Sample.env Sample.storeRequest Sample.goRule w
        = Exit 1 (mkWorld (oracle w)
                    (trace w1 ++ [EvPrintln (JSONError json.SyntaxError)]))).
Proof.
  intros w.
  apply (empty_answers_end_the_run Sample.env Sample.storeRequest
           Sample.goRule w (http.mkResponse 200 (inr "null"%string)) "null");
    reflexivity.
Defined.

(** ** What the handler reads of an answer *)

Lemma writeArticles_digest (l l' : list Article.t) :
  map (fun a => (Article.Title a, Article.URL a)) l
  = map (fun a => (Article.Title a, Article.URL a)) l' ->
  forall i buf, writeArticles i l buf = writeArticles i l' buf.
Proof.
  revert l'. induction l as [|a l IH]; intros [|a' l'] H i buf;
    try discriminate H; [reflexivity|].
  cbn [map] in H. inversion H as [[Ht Hu Hl]].
  cbn [writeArticles]. rewrite Ht, Hu. now apply IH.
Qed.

(** X15.  Of a decoded answer the handler reads the result count and, of
    each article, the title and the URL, and nothing else: two answers
    that agree on these are handled alike, whatever their status text,
    sources, authors, descriptions, images, dates and contents. *)
Theorem only_count_titles_and_urls_matter
    (env : Env.t) (p : RequestParameter.t) (key : PickupKey.t)
    (naResp naResp' : NewsAPIRespons.t) (w : World) :
  digest naResp = digest naResp' ->
  handleResponse env p key (Some naResp) w
  = handleResponse env p key (Some naResp') w.
Proof.
  unfold digest. intros H. inversion H as [[Ht Ha]].
  unfold handleResponse. rewrite Ht.
  now rewrite (writeArticles_digest _ _ Ha).
Qed.

Lemma only_count_titles_and_urls_matter_witness :
  let bare :=
    NewsAPIRespons.mk "" 10
      [Article.mk Source.zero "" "Go 1.22" "" "http://a/1" "" "" "";
       Article.mk Source.zero "" "Rocq 9" "" "http://a/2" "" "" ""] in
  handleResponse Sample.env Sample.storeRequest Sample.goRule
    (Some Sample.news) (Sample.start 200)
  = handleResponse Sample.env Sample.storeRequest Sample.goRule
      (Some bare) (Sample.start 200).
Proof.
  intros bare.
  apply (only_count_titles_and_urls_matter Sample.env Sample.storeRequest
           Sample.goRule Sample.news bare (Sample.start 200)).
  reflexivity.
Defined.
